(** * FGU character sheet parser: extraction and rendering

    A shallow embedding of [proyectocsFGU_V2.py]: the helpers
    [safe_get_text], [formatted_html], [format_modifier],
    [get_proficiency_bonus], [escape_html] and the pipeline
    [parse_fgu_character_to_html], followed by the properties of the
    extraction and of the rendering that the specification states.

    Conventions of the model.
    - A Python [str] is a Rocq [string], read as the UTF-8 encoding of the
      text.  Comparison, concatenation, splitting on a line feed, substring
      search and HTML escaping commute with that encoding.  The methods
      that look at single characters ([str.strip], [str.isdigit],
      [str.isalnum], [int], [repr], slicing) work on the characters of the
      text, with the character classes of CPython 3.11 (Unicode 14.0.0).
    - The input is the tree that [ET.fromstring] returns: elements without
      namespace-qualified names, comments and processing instructions
      already dropped by the parser.
    - An exception is a value of [exn]; code that can raise lives in the
      [Result] monad, and the outer [try]/[except] of the pipeline turns a
      raised exception into the pair [(None, str(e))]. *)

From Stdlib Require Import String Ascii List ZArith Lia Bool DecimalString DecimalPos.
From Stdlib Require Import Sorted Permutation.
Import ListNotations.

Open Scope list_scope.
Open Scope string_scope.

(** ** Exceptions and the error monad *)

Inductive exn : Type :=
| ValueError (msg : string)
| KeyError (key : string)
| ParseError (msg : string).

Inductive Result (A : Type) : Type :=
| Ok (a : A)
| Raise (e : exn).

Arguments Ok {A} a.
Arguments Raise {A} e.

Definition bind {A B : Type} (m : Result A) (k : A -> Result B) : Result B :=
  match m with
  | Ok a => k a
  | Raise e => Raise e
  end.

Notation "x <- m ;; k" := (bind m (fun x => k))
  (at level 61, m at next level, right associativity).

(** [[f(x) for x in l]] for an [f] that can raise: the first failure, in
    list order, is the one raised. *)
Fixpoint mapM {A B : Type} (f : A -> Result B) (l : list A) : Result (list B) :=
  match l with
  | [] => Ok []
  | x :: l' => y <- f x ;; ys <- mapM f l' ;; Ok (y :: ys)
  end.

(** ** Python string primitives *)

Module Py.

Definition dquote : ascii := "034"%char.
Definition squote : ascii := "039"%char.
Definition newline : ascii := "010"%char.
Definition backslash : ascii := "092"%char.

Definition str1 (c : ascii) : string := String c EmptyString.

(** Truth value of a [str]: non-empty. *)
Definition truthy (s : string) : bool :=
  match s with
  | EmptyString => false
  | String _ _ => true
  end.

(** Truth value of an optional text ([None] and [''] are false). *)
Definition truthy_opt (o : option string) : bool :=
  match o with
  | Some s => truthy s
  | None => false
  end.

(** [value or ""] *)
Definition or_empty (o : option string) : string :=
  match o with
  | Some s => s
  | None => ""
  end.

(** *** The characters of a text

    The characters of a [str] are Unicode code points; in the UTF-8
    encoding a character is a lead byte with the continuation bytes
    ([10xxxxxx]) that follow it. *)

Definition is_continuation (c : ascii) : bool :=
  let n := N_of_ascii c in (128 <=? n)%N && (n <? 192)%N.

(** [list(s)]: the characters of [s], each as the text that holds it. *)
Fixpoint chars (s : string) : list string :=
  match s with
  | EmptyString => []
  | String c s' =>
      match s' with
      | EmptyString => [str1 c]
      | String d _ =>
          if is_continuation d then
            match chars s' with
            | ch :: rest => String c ch :: rest
            | [] => [str1 c]
            end
          else str1 c :: chars s'
      end
  end.

(** The payload of the continuation bytes of a character. *)
Fixpoint payload (r : string) : list N :=
  match r with
  | EmptyString => []
  | String b r' => (N_of_ascii b - 128)%N :: payload r'
  end.

(** [ord(ch)] for a text of one character; [None] for bytes that are not
    the encoding of a character, which no Python text holds. *)
Definition ord (ch : string) : option N :=
  match ch with
  | EmptyString => None
  | String c r =>
      let n := N_of_ascii c in
      match payload r with
      | [] => if (n <? 128)%N then Some n else None
      | [x] =>
          if (192 <=? n)%N && (n <? 224)%N then Some ((n - 192) * 64 + x)%N else None
      | [x; y] =>
          if (224 <=? n)%N && (n <? 240)%N
          then Some (((n - 224) * 64 + x) * 64 + y)%N else None
      | [x; y; z] =>
          if (240 <=? n)%N && (n <? 248)%N
          then Some ((((n - 240) * 64 + x) * 64 + y) * 64 + z)%N else None
      | _ => None
      end
  end.

(** *** Character classes

    The classes of the Unicode database of CPython 3.11 (Unicode 14.0.0),
    as ranges of code points. *)

(** The characters for which [str.isspace] holds. *)
Definition space_ranges : list (N * N) :=
  [(9, 13); (28, 32); (133, 133); (160, 160); (5760, 5760); (8192, 8202); (8232, 8233);
   (8239, 8239); (8287, 8287); (12288, 12288)]%N.

(** The characters for which [str.isdecimal] holds: runs of the ten digits of
    a script, from its zero on. *)
Definition decimal_ranges : list (N * N) :=
  [(48, 57); (1632, 1641); (1776, 1785); (1984, 1993); (2406, 2415); (2534, 2543);
   (2662, 2671); (2790, 2799); (2918, 2927); (3046, 3055); (3174, 3183); (3302, 3311);
   (3430, 3439); (3558, 3567); (3664, 3673); (3792, 3801); (3872, 3881); (4160, 4169);
   (4240, 4249); (6112, 6121); (6160, 6169); (6470, 6479); (6608, 6617); (6784, 6793);
   (6800, 6809); (6992, 7001); (7088, 7097); (7232, 7241); (7248, 7257); (42528, 42537);
   (43216, 43225); (43264, 43273); (43472, 43481); (43504, 43513); (43600, 43609);
   (44016, 44025); (65296, 65305); (66720, 66729); (68912, 68921); (69734, 69743);
   (69872, 69881); (69942, 69951); (70096, 70105); (70384, 70393); (70736, 70745);
   (70864, 70873); (71248, 71257); (71360, 71369); (71472, 71481); (71904, 71913);
   (72016, 72025); (72784, 72793); (73040, 73049); (73120, 73129); (92768, 92777);
   (92864, 92873); (93008, 93017); (120782, 120831); (123200, 123209); (123632, 123641);
   (125264, 125273); (130032, 130041)]%N.

(** The characters for which [str.isdigit] holds: the decimal digits and the
    other characters with a digit value, such as the superscript and the
    circled digits. *)
Definition digit_ranges : list (N * N) :=
  [(48, 57); (178, 179); (185, 185); (1632, 1641); (1776, 1785); (1984, 1993); (2406, 2415);
   (2534, 2543); (2662, 2671); (2790, 2799); (2918, 2927); (3046, 3055); (3174, 3183);
   (3302, 3311); (3430, 3439); (3558, 3567); (3664, 3673); (3792, 3801); (3872, 3881);
   (4160, 4169); (4240, 4249); (4969, 4977); (6112, 6121); (6160, 6169); (6470, 6479);
   (6608, 6618); (6784, 6793); (6800, 6809); (6992, 7001); (7088, 7097); (7232, 7241);
   (7248, 7257); (8304, 8304); (8308, 8313); (8320, 8329); (9312, 9320); (9332, 9340);
   (9352, 9360); (9450, 9450); (9461, 9469); (9471, 9471); (10102, 10110); (10112, 10120);
   (10122, 10130); (42528, 42537); (43216, 43225); (43264, 43273); (43472, 43481);
   (43504, 43513); (43600, 43609); (44016, 44025); (65296, 65305); (66720, 66729);
   (68160, 68163); (68912, 68921); (69216, 69224); (69714, 69722); (69734, 69743);
   (69872, 69881); (69942, 69951); (70096, 70105); (70384, 70393); (70736, 70745);
   (70864, 70873); (71248, 71257); (71360, 71369); (71472, 71481); (71904, 71913);
   (72016, 72025); (72784, 72793); (73040, 73049); (73120, 73129); (92768, 92777);
   (92864, 92873); (93008, 93017); (120782, 120831); (123200, 123209); (123632, 123641);
   (125264, 125273); (127232, 127242); (130032, 130041)]%N.

(** The characters for which [str.isalnum] holds. *)
Definition alnum_ranges : list (N * N) :=
  [(48, 57); (65, 90); (97, 122); (170, 170); (178, 179); (181, 181); (185, 186); (188, 190);
   (192, 214); (216, 246); (248, 705); (710, 721); (736, 740); (748, 748); (750, 750);
   (880, 884); (886, 887); (890, 893); (895, 895); (902, 902); (904, 906); (908, 908);
   (910, 929); (931, 1013); (1015, 1153); (1162, 1327); (1329, 1366); (1369, 1369);
   (1376, 1416); (1488, 1514); (1519, 1522); (1568, 1610); (1632, 1641); (1646, 1647);
   (1649, 1747); (1749, 1749); (1765, 1766); (1774, 1788); (1791, 1791); (1808, 1808);
   (1810, 1839); (1869, 1957); (1969, 1969); (1984, 2026); (2036, 2037); (2042, 2042);
   (2048, 2069); (2074, 2074); (2084, 2084); (2088, 2088); (2112, 2136); (2144, 2154);
   (2160, 2183); (2185, 2190); (2208, 2249); (2308, 2361); (2365, 2365); (2384, 2384);
   (2392, 2401); (2406, 2415); (2417, 2432); (2437, 2444); (2447, 2448); (2451, 2472);
   (2474, 2480); (2482, 2482); (2486, 2489); (2493, 2493); (2510, 2510); (2524, 2525);
   (2527, 2529); (2534, 2545); (2548, 2553); (2556, 2556); (2565, 2570); (2575, 2576);
   (2579, 2600); (2602, 2608); (2610, 2611); (2613, 2614); (2616, 2617); (2649, 2652);
   (2654, 2654); (2662, 2671); (2674, 2676); (2693, 2701); (2703, 2705); (2707, 2728);
   (2730, 2736); (2738, 2739); (2741, 2745); (2749, 2749); (2768, 2768); (2784, 2785);
   (2790, 2799); (2809, 2809); (2821, 2828); (2831, 2832); (2835, 2856); (2858, 2864);
   (2866, 2867); (2869, 2873); (2877, 2877); (2908, 2909); (2911, 2913); (2918, 2927);
   (2929, 2935); (2947, 2947); (2949, 2954); (2958, 2960); (2962, 2965); (2969, 2970);
   (2972, 2972); (2974, 2975); (2979, 2980); (2984, 2986); (2990, 3001); (3024, 3024);
   (3046, 3058); (3077, 3084); (3086, 3088); (3090, 3112); (3114, 3129); (3133, 3133);
   (3160, 3162); (3165, 3165); (3168, 3169); (3174, 3183); (3192, 3198); (3200, 3200);
   (3205, 3212); (3214, 3216); (3218, 3240); (3242, 3251); (3253, 3257); (3261, 3261);
   (3293, 3294); (3296, 3297); (3302, 3311); (3313, 3314); (3332, 3340); (3342, 3344);
   (3346, 3386); (3389, 3389); (3406, 3406); (3412, 3414); (3416, 3425); (3430, 3448);
   (3450, 3455); (3461, 3478); (3482, 3505); (3507, 3515); (3517, 3517); (3520, 3526);
   (3558, 3567); (3585, 3632); (3634, 3635); (3648, 3654); (3664, 3673); (3713, 3714);
   (3716, 3716); (3718, 3722); (3724, 3747); (3749, 3749); (3751, 3760); (3762, 3763);
   (3773, 3773); (3776, 3780); (3782, 3782); (3792, 3801); (3804, 3807); (3840, 3840);
   (3872, 3891); (3904, 3911); (3913, 3948); (3976, 3980); (4096, 4138); (4159, 4169);
   (4176, 4181); (4186, 4189); (4193, 4193); (4197, 4198); (4206, 4208); (4213, 4225);
   (4238, 4238); (4240, 4249); (4256, 4293); (4295, 4295); (4301, 4301); (4304, 4346);
   (4348, 4680); (4682, 4685); (4688, 4694); (4696, 4696); (4698, 4701); (4704, 4744);
   (4746, 4749); (4752, 4784); (4786, 4789); (4792, 4798); (4800, 4800); (4802, 4805);
   (4808, 4822); (4824, 4880); (4882, 4885); (4888, 4954); (4969, 4988); (4992, 5007);
   (5024, 5109); (5112, 5117); (5121, 5740); (5743, 5759); (5761, 5786); (5792, 5866);
   (5870, 5880); (5888, 5905); (5919, 5937); (5952, 5969); (5984, 5996); (5998, 6000);
   (6016, 6067); (6103, 6103); (6108, 6108); (6112, 6121); (6128, 6137); (6160, 6169);
   (6176, 6264); (6272, 6276); (6279, 6312); (6314, 6314); (6320, 6389); (6400, 6430);
   (6470, 6509); (6512, 6516); (6528, 6571); (6576, 6601); (6608, 6618); (6656, 6678);
   (6688, 6740); (6784, 6793); (6800, 6809); (6823, 6823); (6917, 6963); (6981, 6988);
   (6992, 7001); (7043, 7072); (7086, 7141); (7168, 7203); (7232, 7241); (7245, 7293);
   (7296, 7304); (7312, 7354); (7357, 7359); (7401, 7404); (7406, 7411); (7413, 7414);
   (7418, 7418); (7424, 7615); (7680, 7957); (7960, 7965); (7968, 8005); (8008, 8013);
   (8016, 8023); (8025, 8025); (8027, 8027); (8029, 8029); (8031, 8061); (8064, 8116);
   (8118, 8124); (8126, 8126); (8130, 8132); (8134, 8140); (8144, 8147); (8150, 8155);
   (8160, 8172); (8178, 8180); (8182, 8188); (8304, 8305); (8308, 8313); (8319, 8329);
   (8336, 8348); (8450, 8450); (8455, 8455); (8458, 8467); (8469, 8469); (8473, 8477);
   (8484, 8484); (8486, 8486); (8488, 8488); (8490, 8493); (8495, 8505); (8508, 8511);
   (8517, 8521); (8526, 8526); (8528, 8585); (9312, 9371); (9450, 9471); (10102, 10131);
   (11264, 11492); (11499, 11502); (11506, 11507); (11517, 11517); (11520, 11557);
   (11559, 11559); (11565, 11565); (11568, 11623); (11631, 11631); (11648, 11670);
   (11680, 11686); (11688, 11694); (11696, 11702); (11704, 11710); (11712, 11718);
   (11720, 11726); (11728, 11734); (11736, 11742); (11823, 11823); (12293, 12295);
   (12321, 12329); (12337, 12341); (12344, 12348); (12353, 12438); (12445, 12447);
   (12449, 12538); (12540, 12543); (12549, 12591); (12593, 12686); (12690, 12693);
   (12704, 12735); (12784, 12799); (12832, 12841); (12872, 12879); (12881, 12895);
   (12928, 12937); (12977, 12991); (13312, 19903); (19968, 42124); (42192, 42237);
   (42240, 42508); (42512, 42539); (42560, 42606); (42623, 42653); (42656, 42735);
   (42775, 42783); (42786, 42888); (42891, 42954); (42960, 42961); (42963, 42963);
   (42965, 42969); (42994, 43009); (43011, 43013); (43015, 43018); (43020, 43042);
   (43056, 43061); (43072, 43123); (43138, 43187); (43216, 43225); (43250, 43255);
   (43259, 43259); (43261, 43262); (43264, 43301); (43312, 43334); (43360, 43388);
   (43396, 43442); (43471, 43481); (43488, 43492); (43494, 43518); (43520, 43560);
   (43584, 43586); (43588, 43595); (43600, 43609); (43616, 43638); (43642, 43642);
   (43646, 43695); (43697, 43697); (43701, 43702); (43705, 43709); (43712, 43712);
   (43714, 43714); (43739, 43741); (43744, 43754); (43762, 43764); (43777, 43782);
   (43785, 43790); (43793, 43798); (43808, 43814); (43816, 43822); (43824, 43866);
   (43868, 43881); (43888, 44002); (44016, 44025); (44032, 55203); (55216, 55238);
   (55243, 55291); (63744, 64109); (64112, 64217); (64256, 64262); (64275, 64279);
   (64285, 64285); (64287, 64296); (64298, 64310); (64312, 64316); (64318, 64318);
   (64320, 64321); (64323, 64324); (64326, 64433); (64467, 64829); (64848, 64911);
   (64914, 64967); (65008, 65019); (65136, 65140); (65142, 65276); (65296, 65305);
   (65313, 65338); (65345, 65370); (65382, 65470); (65474, 65479); (65482, 65487);
   (65490, 65495); (65498, 65500); (65536, 65547); (65549, 65574); (65576, 65594);
   (65596, 65597); (65599, 65613); (65616, 65629); (65664, 65786); (65799, 65843);
   (65856, 65912); (65930, 65931); (66176, 66204); (66208, 66256); (66273, 66299);
   (66304, 66339); (66349, 66378); (66384, 66421); (66432, 66461); (66464, 66499);
   (66504, 66511); (66513, 66517); (66560, 66717); (66720, 66729); (66736, 66771);
   (66776, 66811); (66816, 66855); (66864, 66915); (66928, 66938); (66940, 66954);
   (66956, 66962); (66964, 66965); (66967, 66977); (66979, 66993); (66995, 67001);
   (67003, 67004); (67072, 67382); (67392, 67413); (67424, 67431); (67456, 67461);
   (67463, 67504); (67506, 67514); (67584, 67589); (67592, 67592); (67594, 67637);
   (67639, 67640); (67644, 67644); (67647, 67669); (67672, 67702); (67705, 67742);
   (67751, 67759); (67808, 67826); (67828, 67829); (67835, 67867); (67872, 67897);
   (67968, 68023); (68028, 68047); (68050, 68096); (68112, 68115); (68117, 68119);
   (68121, 68149); (68160, 68168); (68192, 68222); (68224, 68255); (68288, 68295);
   (68297, 68324); (68331, 68335); (68352, 68405); (68416, 68437); (68440, 68466);
   (68472, 68497); (68521, 68527); (68608, 68680); (68736, 68786); (68800, 68850);
   (68858, 68899); (68912, 68921); (69216, 69246); (69248, 69289); (69296, 69297);
   (69376, 69415); (69424, 69445); (69457, 69460); (69488, 69505); (69552, 69579);
   (69600, 69622); (69635, 69687); (69714, 69743); (69745, 69746); (69749, 69749);
   (69763, 69807); (69840, 69864); (69872, 69881); (69891, 69926); (69942, 69951);
   (69956, 69956); (69959, 69959); (69968, 70002); (70006, 70006); (70019, 70066);
   (70081, 70084); (70096, 70106); (70108, 70108); (70113, 70132); (70144, 70161);
   (70163, 70187); (70272, 70278); (70280, 70280); (70282, 70285); (70287, 70301);
   (70303, 70312); (70320, 70366); (70384, 70393); (70405, 70412); (70415, 70416);
   (70419, 70440); (70442, 70448); (70450, 70451); (70453, 70457); (70461, 70461);
   (70480, 70480); (70493, 70497); (70656, 70708); (70727, 70730); (70736, 70745);
   (70751, 70753); (70784, 70831); (70852, 70853); (70855, 70855); (70864, 70873);
   (71040, 71086); (71128, 71131); (71168, 71215); (71236, 71236); (71248, 71257);
   (71296, 71338); (71352, 71352); (71360, 71369); (71424, 71450); (71472, 71483);
   (71488, 71494); (71680, 71723); (71840, 71922); (71935, 71942); (71945, 71945);
   (71948, 71955); (71957, 71958); (71960, 71983); (71999, 71999); (72001, 72001);
   (72016, 72025); (72096, 72103); (72106, 72144); (72161, 72161); (72163, 72163);
   (72192, 72192); (72203, 72242); (72250, 72250); (72272, 72272); (72284, 72329);
   (72349, 72349); (72368, 72440); (72704, 72712); (72714, 72750); (72768, 72768);
   (72784, 72812); (72818, 72847); (72960, 72966); (72968, 72969); (72971, 73008);
   (73030, 73030); (73040, 73049); (73056, 73061); (73063, 73064); (73066, 73097);
   (73112, 73112); (73120, 73129); (73440, 73458); (73648, 73648); (73664, 73684);
   (73728, 74649); (74752, 74862); (74880, 75075); (77712, 77808); (77824, 78894);
   (82944, 83526); (92160, 92728); (92736, 92766); (92768, 92777); (92784, 92862);
   (92864, 92873); (92880, 92909); (92928, 92975); (92992, 92995); (93008, 93017);
   (93019, 93025); (93027, 93047); (93053, 93071); (93760, 93846); (93952, 94026);
   (94032, 94032); (94099, 94111); (94176, 94177); (94179, 94179); (94208, 100343);
   (100352, 101589); (101632, 101640); (110576, 110579); (110581, 110587); (110589, 110590);
   (110592, 110882); (110928, 110930); (110948, 110951); (110960, 111355); (113664, 113770);
   (113776, 113788); (113792, 113800); (113808, 113817); (119520, 119539); (119648, 119672);
   (119808, 119892); (119894, 119964); (119966, 119967); (119970, 119970); (119973, 119974);
   (119977, 119980); (119982, 119993); (119995, 119995); (119997, 120003); (120005, 120069);
   (120071, 120074); (120077, 120084); (120086, 120092); (120094, 120121); (120123, 120126);
   (120128, 120132); (120134, 120134); (120138, 120144); (120146, 120485); (120488, 120512);
   (120514, 120538); (120540, 120570); (120572, 120596); (120598, 120628); (120630, 120654);
   (120656, 120686); (120688, 120712); (120714, 120744); (120746, 120770); (120772, 120779);
   (120782, 120831); (122624, 122654); (123136, 123180); (123191, 123197); (123200, 123209);
   (123214, 123214); (123536, 123565); (123584, 123627); (123632, 123641); (124896, 124902);
   (124904, 124907); (124909, 124910); (124912, 124926); (124928, 125124); (125127, 125135);
   (125184, 125251); (125259, 125259); (125264, 125273); (126065, 126123); (126125, 126127);
   (126129, 126132); (126209, 126253); (126255, 126269); (126464, 126467); (126469, 126495);
   (126497, 126498); (126500, 126500); (126503, 126503); (126505, 126514); (126516, 126519);
   (126521, 126521); (126523, 126523); (126530, 126530); (126535, 126535); (126537, 126537);
   (126539, 126539); (126541, 126543); (126545, 126546); (126548, 126548); (126551, 126551);
   (126553, 126553); (126555, 126555); (126557, 126557); (126559, 126559); (126561, 126562);
   (126564, 126564); (126567, 126570); (126572, 126578); (126580, 126583); (126585, 126588);
   (126590, 126590); (126592, 126601); (126603, 126619); (126625, 126627); (126629, 126633);
   (126635, 126651); (127232, 127244); (130032, 130041); (131072, 173791); (173824, 177976);
   (177984, 178205); (178208, 183969); (183984, 191456); (194560, 195101); (196608, 201546)]%N.

(** The characters for which [str.isprintable] holds. *)
Definition printable_ranges : list (N * N) :=
  [(32, 126); (161, 172); (174, 887); (890, 895); (900, 906); (908, 908); (910, 929);
   (931, 1327); (1329, 1366); (1369, 1418); (1421, 1423); (1425, 1479); (1488, 1514);
   (1519, 1524); (1542, 1563); (1565, 1756); (1758, 1805); (1808, 1866); (1869, 1969);
   (1984, 2042); (2045, 2093); (2096, 2110); (2112, 2139); (2142, 2142); (2144, 2154);
   (2160, 2190); (2200, 2273); (2275, 2435); (2437, 2444); (2447, 2448); (2451, 2472);
   (2474, 2480); (2482, 2482); (2486, 2489); (2492, 2500); (2503, 2504); (2507, 2510);
   (2519, 2519); (2524, 2525); (2527, 2531); (2534, 2558); (2561, 2563); (2565, 2570);
   (2575, 2576); (2579, 2600); (2602, 2608); (2610, 2611); (2613, 2614); (2616, 2617);
   (2620, 2620); (2622, 2626); (2631, 2632); (2635, 2637); (2641, 2641); (2649, 2652);
   (2654, 2654); (2662, 2678); (2689, 2691); (2693, 2701); (2703, 2705); (2707, 2728);
   (2730, 2736); (2738, 2739); (2741, 2745); (2748, 2757); (2759, 2761); (2763, 2765);
   (2768, 2768); (2784, 2787); (2790, 2801); (2809, 2815); (2817, 2819); (2821, 2828);
   (2831, 2832); (2835, 2856); (2858, 2864); (2866, 2867); (2869, 2873); (2876, 2884);
   (2887, 2888); (2891, 2893); (2901, 2903); (2908, 2909); (2911, 2915); (2918, 2935);
   (2946, 2947); (2949, 2954); (2958, 2960); (2962, 2965); (2969, 2970); (2972, 2972);
   (2974, 2975); (2979, 2980); (2984, 2986); (2990, 3001); (3006, 3010); (3014, 3016);
   (3018, 3021); (3024, 3024); (3031, 3031); (3046, 3066); (3072, 3084); (3086, 3088);
   (3090, 3112); (3114, 3129); (3132, 3140); (3142, 3144); (3146, 3149); (3157, 3158);
   (3160, 3162); (3165, 3165); (3168, 3171); (3174, 3183); (3191, 3212); (3214, 3216);
   (3218, 3240); (3242, 3251); (3253, 3257); (3260, 3268); (3270, 3272); (3274, 3277);
   (3285, 3286); (3293, 3294); (3296, 3299); (3302, 3311); (3313, 3314); (3328, 3340);
   (3342, 3344); (3346, 3396); (3398, 3400); (3402, 3407); (3412, 3427); (3430, 3455);
   (3457, 3459); (3461, 3478); (3482, 3505); (3507, 3515); (3517, 3517); (3520, 3526);
   (3530, 3530); (3535, 3540); (3542, 3542); (3544, 3551); (3558, 3567); (3570, 3572);
   (3585, 3642); (3647, 3675); (3713, 3714); (3716, 3716); (3718, 3722); (3724, 3747);
   (3749, 3749); (3751, 3773); (3776, 3780); (3782, 3782); (3784, 3789); (3792, 3801);
   (3804, 3807); (3840, 3911); (3913, 3948); (3953, 3991); (3993, 4028); (4030, 4044);
   (4046, 4058); (4096, 4293); (4295, 4295); (4301, 4301); (4304, 4680); (4682, 4685);
   (4688, 4694); (4696, 4696); (4698, 4701); (4704, 4744); (4746, 4749); (4752, 4784);
   (4786, 4789); (4792, 4798); (4800, 4800); (4802, 4805); (4808, 4822); (4824, 4880);
   (4882, 4885); (4888, 4954); (4957, 4988); (4992, 5017); (5024, 5109); (5112, 5117);
   (5120, 5759); (5761, 5788); (5792, 5880); (5888, 5909); (5919, 5942); (5952, 5971);
   (5984, 5996); (5998, 6000); (6002, 6003); (6016, 6109); (6112, 6121); (6128, 6137);
   (6144, 6157); (6159, 6169); (6176, 6264); (6272, 6314); (6320, 6389); (6400, 6430);
   (6432, 6443); (6448, 6459); (6464, 6464); (6468, 6509); (6512, 6516); (6528, 6571);
   (6576, 6601); (6608, 6618); (6622, 6683); (6686, 6750); (6752, 6780); (6783, 6793);
   (6800, 6809); (6816, 6829); (6832, 6862); (6912, 6988); (6992, 7038); (7040, 7155);
   (7164, 7223); (7227, 7241); (7245, 7304); (7312, 7354); (7357, 7367); (7376, 7418);
   (7424, 7957); (7960, 7965); (7968, 8005); (8008, 8013); (8016, 8023); (8025, 8025);
   (8027, 8027); (8029, 8029); (8031, 8061); (8064, 8116); (8118, 8132); (8134, 8147);
   (8150, 8155); (8157, 8175); (8178, 8180); (8182, 8190); (8208, 8231); (8240, 8286);
   (8304, 8305); (8308, 8334); (8336, 8348); (8352, 8384); (8400, 8432); (8448, 8587);
   (8592, 9254); (9280, 9290); (9312, 11123); (11126, 11157); (11159, 11507); (11513, 11557);
   (11559, 11559); (11565, 11565); (11568, 11623); (11631, 11632); (11647, 11670);
   (11680, 11686); (11688, 11694); (11696, 11702); (11704, 11710); (11712, 11718);
   (11720, 11726); (11728, 11734); (11736, 11742); (11744, 11869); (11904, 11929);
   (11931, 12019); (12032, 12245); (12272, 12283); (12289, 12351); (12353, 12438);
   (12441, 12543); (12549, 12591); (12593, 12686); (12688, 12771); (12784, 12830);
   (12832, 42124); (42128, 42182); (42192, 42539); (42560, 42743); (42752, 42954);
   (42960, 42961); (42963, 42963); (42965, 42969); (42994, 43052); (43056, 43065);
   (43072, 43127); (43136, 43205); (43214, 43225); (43232, 43347); (43359, 43388);
   (43392, 43469); (43471, 43481); (43486, 43518); (43520, 43574); (43584, 43597);
   (43600, 43609); (43612, 43714); (43739, 43766); (43777, 43782); (43785, 43790);
   (43793, 43798); (43808, 43814); (43816, 43822); (43824, 43883); (43888, 44013);
   (44016, 44025); (44032, 55203); (55216, 55238); (55243, 55291); (63744, 64109);
   (64112, 64217); (64256, 64262); (64275, 64279); (64285, 64310); (64312, 64316);
   (64318, 64318); (64320, 64321); (64323, 64324); (64326, 64450); (64467, 64911);
   (64914, 64967); (64975, 64975); (65008, 65049); (65056, 65106); (65108, 65126);
   (65128, 65131); (65136, 65140); (65142, 65276); (65281, 65470); (65474, 65479);
   (65482, 65487); (65490, 65495); (65498, 65500); (65504, 65510); (65512, 65518);
   (65532, 65533); (65536, 65547); (65549, 65574); (65576, 65594); (65596, 65597);
   (65599, 65613); (65616, 65629); (65664, 65786); (65792, 65794); (65799, 65843);
   (65847, 65934); (65936, 65948); (65952, 65952); (66000, 66045); (66176, 66204);
   (66208, 66256); (66272, 66299); (66304, 66339); (66349, 66378); (66384, 66426);
   (66432, 66461); (66463, 66499); (66504, 66517); (66560, 66717); (66720, 66729);
   (66736, 66771); (66776, 66811); (66816, 66855); (66864, 66915); (66927, 66938);
   (66940, 66954); (66956, 66962); (66964, 66965); (66967, 66977); (66979, 66993);
   (66995, 67001); (67003, 67004); (67072, 67382); (67392, 67413); (67424, 67431);
   (67456, 67461); (67463, 67504); (67506, 67514); (67584, 67589); (67592, 67592);
   (67594, 67637); (67639, 67640); (67644, 67644); (67647, 67669); (67671, 67742);
   (67751, 67759); (67808, 67826); (67828, 67829); (67835, 67867); (67871, 67897);
   (67903, 67903); (67968, 68023); (68028, 68047); (68050, 68099); (68101, 68102);
   (68108, 68115); (68117, 68119); (68121, 68149); (68152, 68154); (68159, 68168);
   (68176, 68184); (68192, 68255); (68288, 68326); (68331, 68342); (68352, 68405);
   (68409, 68437); (68440, 68466); (68472, 68497); (68505, 68508); (68521, 68527);
   (68608, 68680); (68736, 68786); (68800, 68850); (68858, 68903); (68912, 68921);
   (69216, 69246); (69248, 69289); (69291, 69293); (69296, 69297); (69376, 69415);
   (69424, 69465); (69488, 69513); (69552, 69579); (69600, 69622); (69632, 69709);
   (69714, 69749); (69759, 69820); (69822, 69826); (69840, 69864); (69872, 69881);
   (69888, 69940); (69942, 69959); (69968, 70006); (70016, 70111); (70113, 70132);
   (70144, 70161); (70163, 70206); (70272, 70278); (70280, 70280); (70282, 70285);
   (70287, 70301); (70303, 70313); (70320, 70378); (70384, 70393); (70400, 70403);
   (70405, 70412); (70415, 70416); (70419, 70440); (70442, 70448); (70450, 70451);
   (70453, 70457); (70459, 70468); (70471, 70472); (70475, 70477); (70480, 70480);
   (70487, 70487); (70493, 70499); (70502, 70508); (70512, 70516); (70656, 70747);
   (70749, 70753); (70784, 70855); (70864, 70873); (71040, 71093); (71096, 71133);
   (71168, 71236); (71248, 71257); (71264, 71276); (71296, 71353); (71360, 71369);
   (71424, 71450); (71453, 71467); (71472, 71494); (71680, 71739); (71840, 71922);
   (71935, 71942); (71945, 71945); (71948, 71955); (71957, 71958); (71960, 71989);
   (71991, 71992); (71995, 72006); (72016, 72025); (72096, 72103); (72106, 72151);
   (72154, 72164); (72192, 72263); (72272, 72354); (72368, 72440); (72704, 72712);
   (72714, 72758); (72760, 72773); (72784, 72812); (72816, 72847); (72850, 72871);
   (72873, 72886); (72960, 72966); (72968, 72969); (72971, 73014); (73018, 73018);
   (73020, 73021); (73023, 73031); (73040, 73049); (73056, 73061); (73063, 73064);
   (73066, 73102); (73104, 73105); (73107, 73112); (73120, 73129); (73440, 73464);
   (73648, 73648); (73664, 73713); (73727, 74649); (74752, 74862); (74864, 74868);
   (74880, 75075); (77712, 77810); (77824, 78894); (82944, 83526); (92160, 92728);
   (92736, 92766); (92768, 92777); (92782, 92862); (92864, 92873); (92880, 92909);
   (92912, 92917); (92928, 92997); (93008, 93017); (93019, 93025); (93027, 93047);
   (93053, 93071); (93760, 93850); (93952, 94026); (94031, 94087); (94095, 94111);
   (94176, 94180); (94192, 94193); (94208, 100343); (100352, 101589); (101632, 101640);
   (110576, 110579); (110581, 110587); (110589, 110590); (110592, 110882); (110928, 110930);
   (110948, 110951); (110960, 111355); (113664, 113770); (113776, 113788); (113792, 113800);
   (113808, 113817); (113820, 113823); (118528, 118573); (118576, 118598); (118608, 118723);
   (118784, 119029); (119040, 119078); (119081, 119154); (119163, 119274); (119296, 119365);
   (119520, 119539); (119552, 119638); (119648, 119672); (119808, 119892); (119894, 119964);
   (119966, 119967); (119970, 119970); (119973, 119974); (119977, 119980); (119982, 119993);
   (119995, 119995); (119997, 120003); (120005, 120069); (120071, 120074); (120077, 120084);
   (120086, 120092); (120094, 120121); (120123, 120126); (120128, 120132); (120134, 120134);
   (120138, 120144); (120146, 120485); (120488, 120779); (120782, 121483); (121499, 121503);
   (121505, 121519); (122624, 122654); (122880, 122886); (122888, 122904); (122907, 122913);
   (122915, 122916); (122918, 122922); (123136, 123180); (123184, 123197); (123200, 123209);
   (123214, 123215); (123536, 123566); (123584, 123641); (123647, 123647); (124896, 124902);
   (124904, 124907); (124909, 124910); (124912, 124926); (124928, 125124); (125127, 125142);
   (125184, 125259); (125264, 125273); (125278, 125279); (126065, 126132); (126209, 126269);
   (126464, 126467); (126469, 126495); (126497, 126498); (126500, 126500); (126503, 126503);
   (126505, 126514); (126516, 126519); (126521, 126521); (126523, 126523); (126530, 126530);
   (126535, 126535); (126537, 126537); (126539, 126539); (126541, 126543); (126545, 126546);
   (126548, 126548); (126551, 126551); (126553, 126553); (126555, 126555); (126557, 126557);
   (126559, 126559); (126561, 126562); (126564, 126564); (126567, 126570); (126572, 126578);
   (126580, 126583); (126585, 126588); (126590, 126590); (126592, 126601); (126603, 126619);
   (126625, 126627); (126629, 126633); (126635, 126651); (126704, 126705); (126976, 127019);
   (127024, 127123); (127136, 127150); (127153, 127167); (127169, 127183); (127185, 127221);
   (127232, 127405); (127462, 127490); (127504, 127547); (127552, 127560); (127568, 127569);
   (127584, 127589); (127744, 128727); (128733, 128748); (128752, 128764); (128768, 128883);
   (128896, 128984); (128992, 129003); (129008, 129008); (129024, 129035); (129040, 129095);
   (129104, 129113); (129120, 129159); (129168, 129197); (129200, 129201); (129280, 129619);
   (129632, 129645); (129648, 129652); (129656, 129660); (129664, 129670); (129680, 129708);
   (129712, 129722); (129728, 129733); (129744, 129753); (129760, 129767); (129776, 129782);
   (129792, 129938); (129940, 129994); (130032, 130041); (131072, 173791); (173824, 177976);
   (177984, 178205); (178208, 183969); (183984, 191456); (194560, 195101); (196608, 201546);
   (917760, 917999)]%N.

Definition in_ranges (table : list (N * N)) (n : N) : bool :=
  existsb (fun r => (fst r <=? n)%N && (n <=? snd r)%N) table.

(** The test of a class on a text of one character. *)
Definition char_in (table : list (N * N)) (ch : string) : bool :=
  match ord ch with
  | Some n => in_ranges table n
  | None => false
  end.

(** [ch.isspace()]: the white space of [str.strip()]. *)
Definition isspace (ch : string) : bool := char_in space_ranges ch.

(** [ch.isdigit()] *)
Definition isdigit_char (ch : string) : bool := char_in digit_ranges ch.

(** [ch.isalnum()] *)
Definition isalnum (ch : string) : bool := char_in alnum_ranges ch.

(** [ch.isprintable()] *)
Definition isprintable (ch : string) : bool := char_in printable_ranges ch.

(** The value of a decimal digit, [None] for any other character. *)
Definition decimal (ch : string) : option N :=
  match ord ch with
  | Some n =>
      match List.find (fun r => (fst r <=? n)%N && (n <=? snd r)%N) decimal_ranges with
      | Some r => Some ((n - fst r) mod 10)%N
      | None => None
      end
  | None => None
  end.

(** *** Methods of [str] *)

Fixpoint lstrip_list {A : Type} (space : A -> bool) (l : list A) : list A :=
  match l with
  | [] => []
  | x :: l' => if space x then lstrip_list space l' else l
  end.

Fixpoint rstrip_list {A : Type} (space : A -> bool) (l : list A) : list A :=
  match l with
  | [] => []
  | x :: l' =>
      match rstrip_list space l' with
      | [] => if space x then [] else [x]
      | r => x :: r
      end
  end.

(** [s.strip()] *)
Definition strip (s : string) : string :=
  String.concat "" (rstrip_list isspace (lstrip_list isspace (chars s))).

(** [s.split(sep)] for a one-character separator: never the empty list. *)
Fixpoint split (sep : ascii) (s : string) : list string :=
  match s with
  | EmptyString => [EmptyString]
  | String c s' =>
      if Ascii.eqb c sep then EmptyString :: split sep s'
      else match split sep s' with
           | h :: t => String c h :: t
           | [] => [str1 c]
           end
  end.

(** [sep.join(l)] *)
Definition join (sep : string) (l : list string) : string := String.concat sep l.

(** [needle in hay] *)
Fixpoint contains (needle hay : string) : bool :=
  prefix needle hay ||
  match hay with
  | EmptyString => false
  | String _ hay' => contains needle hay'
  end.

(** [s.replace(c, r)] for a one-character [c]. *)
Fixpoint replace (c : ascii) (r : string) (s : string) : string :=
  match s with
  | EmptyString => EmptyString
  | String x s' => (if Ascii.eqb x c then r else str1 x) ++ replace c r s'
  end.

(** [s.isdigit()]: at least one character, all of them digits. *)
Definition isdigit (s : string) : bool := truthy s && forallb isdigit_char (chars s).

(** *** [int] of a text

    [int(s)] first rewrites a text that is not ASCII: a character below 127
    stays, white space becomes a space, a decimal digit becomes the ASCII
    digit of its value and any other character a question mark, which no
    literal holds.  The result is read as an ASCII literal. *)

Fixpoint is_ascii (s : string) : bool :=
  match s with
  | EmptyString => true
  | String c s' => (N_of_ascii c <? 128)%N && is_ascii s'
  end.

Definition to_ascii (ch : string) : string :=
  match ord ch with
  | Some n =>
      if (n <? 127)%N then ch
      else if isspace ch then " "
      else match decimal ch with
           | Some d => str1 (ascii_of_N (48 + d))
           | None => "?"
           end
  | None => "?"
  end.

Definition decimal_and_space_to_ascii (s : string) : string :=
  if is_ascii s then s else String.concat "" (map to_ascii (chars s)).

(** White space that [int()] skips around an ASCII literal: TAB, LF, VT,
    FF, CR and the space, not FS to US. *)
Definition isspace_int (c : ascii) : bool :=
  let n := nat_of_ascii c in
  ((9 <=? n)%nat && (n <=? 13)%nat) || (n =? 32)%nat.

Fixpoint lstrip_by (space : ascii -> bool) (s : string) : string :=
  match s with
  | EmptyString => EmptyString
  | String c s' => if space c then lstrip_by space s' else s
  end.

Fixpoint rstrip_by (space : ascii -> bool) (s : string) : string :=
  match s with
  | EmptyString => EmptyString
  | String c s' =>
      match rstrip_by space s' with
      | EmptyString => if space c then EmptyString else str1 c
      | r => String c r
      end
  end.

Definition is_digit (c : ascii) : bool :=
  let n := nat_of_ascii c in (48 <=? n)%nat && (n <=? 57)%nat.

Definition digit_value (c : ascii) : Z := Z.of_nat (nat_of_ascii c - 48).

Fixpoint all_digits (s : string) : bool :=
  match s with
  | EmptyString => true
  | String c s' => is_digit c && all_digits s'
  end.

(** The digits of an integer literal, most significant first.  A single
    underscore may separate two digits; [prev] tells whether the previous
    character was a digit. *)
Fixpoint int_digits (acc : Z) (prev : bool) (s : string) : option Z :=
  match s with
  | EmptyString => if prev then Some acc else None
  | String c s' =>
      if is_digit c then int_digits (10 * acc + digit_value c) true s'
      else if Ascii.eqb c "_" && prev then int_digits acc false s'
      else None
  end.

(** The value of an ASCII literal: surrounding white space is ignored, one
    sign is allowed; [None] where the literal is invalid. *)
Definition int_literal (s : string) : option Z :=
  match rstrip_by isspace_int (lstrip_by isspace_int s) with
  | String "+" r => int_digits 0 false r
  | String "-" r => option_map Z.opp (int_digits 0 false r)
  | t => int_digits 0 false t
  end.

(** [int(s)] for a [str]; [None] stands for the ValueError.  The limit
    that CPython sets on the number of digits of a literal (4300 unless
    configured otherwise) is not part of the model. *)
Definition int (s : string) : option Z := int_literal (decimal_and_space_to_ascii s).

(** [str(z)] for an [int]. *)
Definition str (z : Z) : string := NilZero.string_of_int (Z.to_int z).

Definition upper_char (c : ascii) : ascii :=
  let n := nat_of_ascii c in
  if (97 <=? n)%nat && (n <=? 122)%nat then ascii_of_nat (n - 32) else c.

Definition lower_char (c : ascii) : ascii :=
  let n := nat_of_ascii c in
  if (65 <=? n)%nat && (n <=? 90)%nat then ascii_of_nat (n + 32) else c.

Fixpoint map_chars (f : ascii -> ascii) (s : string) : string :=
  match s with
  | EmptyString => EmptyString
  | String c s' => String (f c) (map_chars f s')
  end.

(** [s.upper()], for the ASCII texts on which the source calls it (the
    ability names). *)
Definition upper : string -> string := map_chars upper_char.

(** The lower case of one character.  The source only compares a lowered
    text with ASCII names, so the characters that matter are those whose
    lower case holds an ASCII letter: the ASCII capitals, the Kelvin sign
    (U+212A, lowered to [k]) and the dotted capital I (U+0130, lowered to
    [i] and the combining dot U+0307).  Every other character is left as it
    is: it is not ASCII before or after lowering. *)
Definition lower_one (ch : string) : string :=
  match ord ch with
  | Some n =>
      if (n <? 128)%N then str1 (lower_char (ascii_of_N n))
      else if (n =? 8490)%N then "k"
      else if (n =? 304)%N then String "i" (String "204" (String "135" EmptyString))
      else ch
  | None => ch
  end.

(** [s.lower()] *)
Definition lower (s : string) : string := String.concat "" (map lower_one (chars s)).

(** [s.capitalize()], for the ASCII texts on which the source calls it. *)
Definition capitalize (s : string) : string :=
  match s with
  | EmptyString => EmptyString
  | String c s' => String (upper_char c) (map_chars lower_char s')
  end.

(** [s[:n]] *)
Definition take (n : nat) (s : string) : string := String.concat "" (firstn n (chars s)).

(** [html.escape(s)], with [quote=True]: five replacements, the ampersand
    first. *)
Definition escape (s : string) : string :=
  replace squote "&#x27;"
    (replace dquote "&quot;"
      (replace ">" "&gt;"
        (replace "<" "&lt;"
          (replace "&" "&amp;" s)))).

Definition hex_digit (n : N) : ascii :=
  if (n <? 10)%N then ascii_of_N (48 + n) else ascii_of_N (87 + n).

(** [n] in hexadecimal, on [width] digits. *)
Fixpoint hex (width : nat) (n : N) : string :=
  match width with
  | O => EmptyString
  | S w => hex w (n / 16) ++ str1 (hex_digit (n mod 16))
  end.

(** One character of [repr(s)] inside the quote [q]: the quote and the
    backslash are escaped, and so is every character that is not
    printable. *)
Definition repr_char (q : ascii) (ch : string) : string :=
  match ord ch with
  | Some n =>
      if (n =? N_of_ascii q)%N || (n =? 92)%N then String backslash ch
      else if (n =? 9)%N then String backslash "t"
      else if (n =? 10)%N then String backslash "n"
      else if (n =? 13)%N then String backslash "r"
      else if (n <? 32)%N || (n =? 127)%N then String backslash (String "x" (hex 2 n))
      else if (n <? 127)%N then ch
      else if isprintable ch then ch
      else if (n <? 256)%N then String backslash (String "x" (hex 2 n))
      else if (n <? 65536)%N then String backslash (String "u" (hex 4 n))
      else String backslash (String "U" (hex 8 n))
  | None => ch
  end.

Definition repr_body (q : ascii) (s : string) : string :=
  String.concat "" (map (repr_char q) (chars s)).

(** [repr(s)]: single quotes unless the text holds one and no double
    quote. *)
Definition repr (s : string) : string :=
  let q := if contains (str1 squote) s && negb (contains (str1 dquote) s)
           then dquote else squote in
  String q (repr_body q s ++ str1 q).

(** [int(s)], raising as Python does: the message quotes the first 200
    characters of [repr(s)]. *)
Definition int_or_raise (s : string) : Result Z :=
  match int s with
  | Some z => Ok z
  | None => Raise (ValueError ("invalid literal for int() with base 10: " ++ take 200 (repr s)))
  end.

End Py.

(** Templates are written with a backquote wherever the source has a double
    quote; [tpl] puts the double quotes back. *)
Definition tpl (s : string) : string :=
  Py.map_chars (fun c => if Ascii.eqb c "`" then Py.dquote else c) s.

(** ** Ordering of sort keys and the stable sort

    [list.sort(key=...)] and [sorted(..., key=...)] compute the key of every
    element first, then sort with [<] on the keys, stably.  On keys that [<]
    orders totally a stable sort has one possible result, so an insertion
    sort that never moves an element past an equal key computes it. *)

Class PyOrd (K : Type) : Type := {
  py_eqb : K -> K -> bool;
  py_ltb : K -> K -> bool
}.

#[global] Instance PyOrd_Z : PyOrd Z := {| py_eqb := Z.eqb; py_ltb := Z.ltb |}.

#[global] Instance PyOrd_string : PyOrd string :=
  {| py_eqb := String.eqb; py_ltb := String.ltb |}.

(** [False < True] *)
#[global] Instance PyOrd_bool : PyOrd bool :=
  {| py_eqb := Bool.eqb; py_ltb := fun a b => negb a && b |}.

(** Tuples compare at the first component that differs. *)
#[global] Instance PyOrd_pair {A B : Type} `{PyOrd A} `{PyOrd B} : PyOrd (A * B) := {|
  py_eqb := fun x y => py_eqb (fst x) (fst y) && py_eqb (snd x) (snd y);
  py_ltb := fun x y =>
    if py_eqb (fst x) (fst y) then py_ltb (snd x) (snd y)
    else py_ltb (fst x) (fst y)
|}.

Section StableSort.
Context {K A : Type} `{PyOrd K}.

Fixpoint insert_keyed (x : K * A) (l : list (K * A)) : list (K * A) :=
  match l with
  | [] => [x]
  | y :: l' => if py_ltb (fst y) (fst x) then y :: insert_keyed x l' else x :: l
  end.

Fixpoint sort_keyed (l : list (K * A)) : list (K * A) :=
  match l with
  | [] => []
  | x :: l' => insert_keyed x (sort_keyed l')
  end.

(** Sorting with a key that cannot raise. *)
Definition sorted_by (key : A -> K) (l : list A) : list A :=
  map snd (sort_keyed (map (fun x => (key x, x)) l)).

(** Sorting with a key that can raise: no list is produced then. *)
Definition sorted_by_raising (key : A -> Result K) (l : list A) : Result (list A) :=
  keyed <- mapM (fun x => k <- key x ;; Ok (k, x)) l ;;
  Ok (map snd (sort_keyed keyed)).
End StableSort.

(** ** Insertion-ordered dictionaries *)

Section Dict.
Context {V : Type}.

Definition dict : Type := list (string * V).

Fixpoint dict_get (k : string) (d : dict) : option V :=
  match d with
  | [] => None
  | (k', v) :: d' => if String.eqb k' k then Some v else dict_get k d'
  end.

(** [d[k] = v]: a key already present keeps its position. *)
Fixpoint dict_set (k : string) (v : V) (d : dict) : dict :=
  match d with
  | [] => [(k, v)]
  | (k', v') :: d' =>
      if String.eqb k' k then (k, v) :: d' else (k', v') :: dict_set k v d'
  end.

Definition dict_mem (k : string) (d : dict) : bool :=
  match dict_get k d with
  | Some _ => true
  | None => false
  end.

Definition dict_keys (d : dict) : list string := map fst d.
End Dict.

Arguments dict V : clear implicits.

(** ** The element tree *)

Set Warnings "-register-all".

Inductive Element : Type :=
  Elem (tag : string) (attrib : list (string * string)) (text : option string)
       (children : list Element) (tail : option string).

Definition tag (e : Element) : string := let 'Elem t _ _ _ _ := e in t.
Definition attrib (e : Element) : list (string * string) := let 'Elem _ a _ _ _ := e in a.
Definition text (e : Element) : option string := let 'Elem _ _ t _ _ := e in t.
Definition children (e : Element) : list Element := let 'Elem _ _ _ c _ := e in c.
Definition tail (e : Element) : option string := let 'Elem _ _ _ _ t := e in t.

(** [elem.iterfind(path)] for a path of plain tag names separated by [/]:
    each step selects, in document order, the children with that tag of
    every element selected so far. *)
Definition iterfind (e : Element) (path : string) : list Element :=
  fold_left
    (fun result step =>
       flat_map (fun x => filter (fun c => String.eqb (tag c) step) (children x)) result)
    (Py.split "/" path) [e].

(** [elem.find(path)]: the first match, or [None]. *)
Definition find (e : Element) (path : string) : option Element :=
  hd_error (iterfind e path).

(** [for child in elem], for an [elem] that may be [None] where the source
    guards the loop. *)
Definition iter (o : option Element) : list Element :=
  match o with
  | Some e => children e
  | None => []
  end.

Module ET.

Definition escape_cdata (s : string) : string :=
  Py.replace ">" "&gt;" (Py.replace "<" "&lt;" (Py.replace "&" "&amp;" s)).

Definition escape_attrib_html (s : string) : string :=
  Py.replace Py.dquote "&quot;" (Py.replace ">" "&gt;" (Py.replace "&" "&amp;" s)).

Definition HTML_EMPTY : list string :=
  ["area"; "base"; "basefont"; "br"; "col"; "embed"; "frame"; "hr"; "img";
   "input"; "isindex"; "link"; "meta"; "param"; "source"; "track"; "wbr"].

Definition mem (s : string) (l : list string) : bool := existsb (String.eqb s) l.

(** [ET.tostring(elem, encoding='unicode', method='html')]: the start tag
    with its attributes, the text, the children, the end tag unless the
    element is a void one, then the tail. *)
Fixpoint tostring (e : Element) : string :=
  match e with
  | Elem tag attrib text children tail =>
      let ltag := Py.lower tag in
      "<" ++ tag
      ++ String.concat ""
           (map (fun kv => " " ++ fst kv ++ tpl "=`" ++ escape_attrib_html (snd kv) ++ tpl "`")
                attrib)
      ++ ">"
      ++ (if Py.truthy_opt text then
            if String.eqb ltag "script" || String.eqb ltag "style"
            then Py.or_empty text else escape_cdata (Py.or_empty text)
          else "")
      ++ String.concat "" (map tostring children)
      ++ (if mem ltag HTML_EMPTY then "" else "</" ++ tag ++ ">")
      ++ (if Py.truthy_opt tail then escape_cdata (Py.or_empty tail) else "")
  end.

End ET.

(** [l.append(x)] *)
Definition append {A : Type} (l : list A) (x : A) : list A := (l ++ [x])%list.

(** ** Helpers of the source *)

(** A value that is an [int] or a [str]: [format_modifier] and
    [get_proficiency_bonus] are called with both. *)
Inductive pyval : Type :=
| VInt (z : Z)
| VStr (s : string).

(** [int(value)], [None] when it raises. *)
Definition int_of (value : pyval) : option Z :=
  match value with
  | VInt z => Some z
  | VStr s => Py.int s
  end.

(** The text that an f-string or a concatenation shows for the value. *)
Definition str_of (value : pyval) : string :=
  match value with
  | VInt z => Py.str z
  | VStr s => s
  end.

Definition safe_get_text (element : option Element) (path : string) (default : string)
  : string :=
  match element with
  | None => default
  | Some element =>
      match find element path with
      | Some sub => if Py.truthy_opt (text sub) then Py.or_empty (text sub) else default
      | None => default
      end
  end.

(** One turn of the loop over [lines]: the state is [(seen, unique_lines)],
    the set [seen] kept as the list of its members. *)
Definition dedup_step (st : list string * list string) (line : string)
  : list string * list string :=
  let '(seen, unique_lines) := st in
  let line_stripped := Py.strip line in
  if Py.truthy line_stripped && ET.mem line_stripped seen then (seen, unique_lines)
  else
    let seen := if Py.truthy line_stripped then line_stripped :: seen else seen in
    (seen, append unique_lines line).

Definition unique_lines_of (lines : list string) : list string :=
  snd (fold_left dedup_step lines ([], [])).

Definition formatted_html (element : option Element) : string :=
  match element with
  | None => ""
  | Some element =>
      let parts := [] in
      let text := Py.strip (Py.or_empty (text element)) in
      let parts := if Py.truthy text then append parts text else parts in
      let parts :=
        fold_left (fun parts child => append parts (ET.tostring child)) (children element) parts in
      let html_str := Py.strip (Py.join "" parts) in
      let lines := Py.split Py.newline html_str in
      let unique_lines := unique_lines_of lines in
      Py.strip (Py.join (Py.str1 Py.newline) unique_lines)
  end.

Definition format_modifier (value : pyval) : string :=
  match int_of value with
  | Some val => if (val >=? 0)%Z then "+" ++ Py.str val else Py.str val
  | None => str_of value
  end.

Definition get_proficiency_bonus (level : pyval) : Z :=
  match int_of level with
  | Some lvl => (2 + ((lvl - 1) / 4))%Z
  | None => 2%Z
  end.

Definition escape_html (text : string) : string :=
  if negb (Py.truthy text) then "" else Py.escape text.

(** ** The character model: the values that the extraction binds *)

Module ClassInfo.
Record t : Type := { name : string; level : string; specialization : string }.
End ClassInfo.

Module Ability.
Record t : Type := { score : string; bonus : string; save : string; saveprof : bool }.
End Ability.

Module Skill.
Record t : Type := { name : string; total : string; prof : bool; stat : string }.
End Skill.

Module Feature.
Record t : Type := { name : string; level : string }.
End Feature.

Module Feat.
Record t : Type := { name : string; category : string; level : string }.
End Feat.

Module Item.
Record t : Type := { name : string; count : string; cost : string }.
End Item.

Module Spell.
Record t : Type := {
  name : string;
  level : string;
  prepared : string;
  school : string;
  casting_time : string;
  range : string;
  components : string;
  duration : string;
  ritual : bool;
  description : string
}.
End Spell.

(** The [{"max": ..., "used": ...}] of a spell-slot level and of the sorcery
    points. *)
Module Slots.
Record t : Type := { max : string; used : string }.
End Slots.

Module Character.
Record t : Type := {
  name : string;
  race : string;
  subrace : string;
  alignment : string;
  background : string;
  gender : string;
  age : string;
  total_level : Z;
  classes_info : list ClassInfo.t;
  prof_bonus : Z;
  abilities : dict Ability.t;
  hp_total : string;
  hp_wounds : string;
  hp_temp : string;
  ac_total : string;
  speed_total : string;
  initiative : string;
  skills : list Skill.t;
  features : list Feature.t;
  feats : list Feat.t;
  inventory : list Item.t;
  coins : dict string;
  personality : string;
  ideals : string;
  bonds : string;
  flaws : string;
  spell_ability : string;
  spell_save_dc : string;
  spell_attack_bonus : string;
  spells : list Spell.t;
  (** [None] is the empty dictionary *)
  sorcery_points : option Slots.t;
  spell_slots : dict Slots.t
}.
End Character.

(** ** Extraction *)

Definition ability_names : list string :=
  ["strength"; "dexterity"; "constitution"; "intelligence"; "wisdom"; "charisma"].

(** One turn of the loop over the class entries; the state is
    [(total_level, classes_info)]. *)
Definition classes_step (st : Z * list ClassInfo.t) (cls : Element)
  : Z * list ClassInfo.t :=
  let '(total_level, classes_info) := st in
  let cls_name := safe_get_text (Some cls) "name" "" in
  let cls_level := safe_get_text (Some cls) "level" "" in
  let cls_spec := safe_get_text (Some cls) "specialization" "" in
  let total_level :=
    match Py.int cls_level with
    | Some n => (total_level + n)%Z
    | None => total_level
    end in
  (total_level,
   append classes_info {| ClassInfo.name := cls_name;
                          ClassInfo.level := cls_level;
                          ClassInfo.specialization := cls_spec |}).

Definition extract_classes (char : Element) : Z * list ClassInfo.t :=
  fold_left classes_step (iter (find char "classes")) (0%Z, []).

Definition abilities_step (char : Element) (abilities : dict Ability.t) (abil_name : string)
  : dict Ability.t :=
  match find char ("abilities/" ++ abil_name) with
  | Some abil_elem =>
      dict_set abil_name
        {| Ability.score := safe_get_text (Some abil_elem) "score" "";
           Ability.bonus := safe_get_text (Some abil_elem) "bonus" "";
           Ability.save := safe_get_text (Some abil_elem) "save" "";
           Ability.saveprof := String.eqb (safe_get_text (Some abil_elem) "saveprof" "0") "1" |}
        abilities
  | None => abilities
  end.

Definition extract_abilities (char : Element) : dict Ability.t :=
  fold_left (abilities_step char) ability_names [].

(** [safe_get_text(elem, path) if elem is not None else default] *)
Definition text_if_present (elem : option Element) (path : string) (default : string)
  : string :=
  match elem with
  | Some _ => safe_get_text elem path ""
  | None => default
  end.

Definition skill_of (skill : Element) : Skill.t :=
  {| Skill.name := safe_get_text (Some skill) "name" "";
     Skill.total := safe_get_text (Some skill) "total" "";
     Skill.prof := String.eqb (safe_get_text (Some skill) "prof" "0") "1";
     Skill.stat := safe_get_text (Some skill) "stat" "" |}.

Definition extract_skills (char : Element) : list Skill.t :=
  let skills :=
    fold_left (fun skills skill => append skills (skill_of skill)) (iter (find char "skilllist")) [] in
  sorted_by Skill.name skills.

Definition feature_of (feature : Element) : Feature.t :=
  {| Feature.name := safe_get_text (Some feature) "name" "";
     Feature.level := safe_get_text (Some feature) "level" "" |}.

Definition extract_features (char : Element) : list Feature.t :=
  fold_left (fun features feature => append features (feature_of feature))
            (iter (find char "featurelist")) [].

Definition feat_of (feat : Element) : Feat.t :=
  {| Feat.name := safe_get_text (Some feat) "name" "";
     Feat.category := safe_get_text (Some feat) "category" "";
     Feat.level := safe_get_text (Some feat) "level" "" |}.

Definition extract_feats (char : Element) : list Feat.t :=
  fold_left (fun feats feat => append feats (feat_of feat)) (iter (find char "featlist")) [].

Definition item_of (item : Element) : Item.t :=
  {| Item.name := safe_get_text (Some item) "name" "";
     Item.count := safe_get_text (Some item) "count" "1";
     Item.cost := safe_get_text (Some item) "cost" "" |}.

Definition extract_inventory (char : Element) : list Item.t :=
  fold_left (fun inventory item => append inventory (item_of item))
            (iter (find char "inventorylist")) [].

Definition extract_coins (char : Element) : dict string :=
  fold_left
    (fun coins coin =>
       dict_set (safe_get_text (Some coin) "name" "") (safe_get_text (Some coin) "amount" "0")
                coins)
    (iter (find char "coins")) [].

(** The loop that stops at the first class entry declaring a spell
    ability. *)
Fixpoint first_spell_ability (classes : list Element) (spell_ability : string) : string :=
  match classes with
  | [] => spell_ability
  | cls :: rest =>
      let spell_abil := safe_get_text (Some cls) "spellability" "" in
      if Py.truthy spell_abil then spell_abil else first_spell_ability rest spell_ability
  end.

(** The test that admits a power entry as a spell. *)
Definition is_spell_entry (power : Element) : bool :=
  let group := safe_get_text (Some power) "group" "" in
  let spell_level := safe_get_text (Some power) "level" "" in
  let spell_school := safe_get_text (Some power) "school" "" in
  (Py.contains "Spells" group || Py.truthy spell_school) && Py.truthy spell_level.

Definition spell_of (power : Element) : Spell.t :=
  {| Spell.name := safe_get_text (Some power) "name" "";
     Spell.level := safe_get_text (Some power) "level" "";
     Spell.prepared := safe_get_text (Some power) "prepared" "0";
     Spell.school := safe_get_text (Some power) "school" "";
     Spell.casting_time := safe_get_text (Some power) "castingtime" "";
     Spell.range := safe_get_text (Some power) "range" "";
     Spell.components := safe_get_text (Some power) "components" "";
     Spell.duration := safe_get_text (Some power) "duration" "";
     Spell.ritual := String.eqb (safe_get_text (Some power) "ritual" "0") "1";
     Spell.description := formatted_html (find power "description") |}.

Definition spells_step (spells : list Spell.t) (power : Element) : list Spell.t :=
  if is_spell_entry power then append spells (spell_of power) else spells.

(** The key of [spells.sort]: [int(level)] is evaluated only when
    [level.isdigit()] holds. *)
Definition spell_sort_key (x : Spell.t) : Result (Z * string) :=
  lvl <- (if Py.isdigit (Spell.level x) then Py.int_or_raise (Spell.level x) else Ok 99%Z) ;;
  Ok (lvl, Spell.name x).

Definition extract_spells (char : Element) : Result (list Spell.t) :=
  let spells := fold_left spells_step (iter (find char "powers")) [] in
  sorted_by_raising spell_sort_key spells.

(** The loop that stops at the first power named [Sorcery Points]. *)
Fixpoint find_sorcery_points (powers : list Element) (sorcery_points : option Slots.t)
  : option Slots.t :=
  match powers with
  | [] => sorcery_points
  | power :: rest =>
      let power_name := safe_get_text (Some power) "name" "" in
      if String.eqb power_name "Sorcery Points" then
        let sorcery_max := safe_get_text (Some power) "prepared" "0" in
        let sorcery_used := safe_get_text (Some power) "locked" "0" in
        if Py.truthy sorcery_max && negb (String.eqb sorcery_max "0")
        then Some {| Slots.max := sorcery_max; Slots.used := sorcery_used |}
        else sorcery_points
      else find_sorcery_points rest sorcery_points
  end.

Definition slots_step (powermeta_elem : Element) (spell_slots : dict Slots.t) (slot_level : Z)
  : dict Slots.t :=
  match find powermeta_elem ("spellslots" ++ Py.str slot_level) with
  | Some slot_elem =>
      let max_slots := safe_get_text (Some slot_elem) "max" "0" in
      let used_slots := safe_get_text (Some slot_elem) "used" "0" in
      if Py.truthy max_slots && negb (String.eqb max_slots "0")
      then dict_set (Py.str slot_level)
                    {| Slots.max := max_slots; Slots.used := used_slots |} spell_slots
      else spell_slots
  | None => spell_slots
  end.

(** [range(1, 10)] *)
Definition slot_levels : list Z := [1; 2; 3; 4; 5; 6; 7; 8; 9]%Z.

Definition extract_spell_slots (char : Element) : dict Slots.t :=
  match find char "powermeta" with
  | Some powermeta_elem => fold_left (slots_step powermeta_elem) slot_levels []
  | None => []
  end.

(** Lines 98 to 316 of the source: everything bound before the document is
    built.  Only the sort of the spells can raise. *)
Definition extract (char : Element) : Result Character.t :=
  let name := safe_get_text (Some char) "name" "" in
  let race := safe_get_text (Some char) "race" "" in
  let subrace := safe_get_text (Some char) "subrace" "" in
  let alignment := safe_get_text (Some char) "alignment" "" in
  let background := safe_get_text (Some char) "background" "" in
  let gender := safe_get_text (Some char) "gender" "" in
  let age := safe_get_text (Some char) "age" "" in
  let '(total_level, classes_info) := extract_classes char in
  let prof_bonus := get_proficiency_bonus (VInt total_level) in
  let abilities := extract_abilities char in
  let hp_elem := find char "hp" in
  let hp_total := text_if_present hp_elem "total" "0" in
  let hp_wounds := text_if_present hp_elem "wounds" "0" in
  let hp_temp := text_if_present hp_elem "temporary" "0" in
  let hp_wounds := Py.strip hp_wounds in
  let hp_temp := Py.strip hp_temp in
  let ac_total := text_if_present (find char "defenses/ac") "total" "10" in
  let speed_total := text_if_present (find char "speed") "total" "30" in
  let initiative := text_if_present (find char "initiative") "total" "" in
  let initiative :=
    if negb (Py.truthy initiative) then
      match dict_get "dexterity" abilities with
      | Some dexterity => Ability.bonus dexterity
      | None => initiative
      end
    else initiative in
  let skills := extract_skills char in
  let features := extract_features char in
  let feats := extract_feats char in
  let inventory := extract_inventory char in
  let coins := extract_coins char in
  let personality := safe_get_text (Some char) "personality" "" in
  let ideals := safe_get_text (Some char) "ideals" "" in
  let bonds := safe_get_text (Some char) "bonds" "" in
  let flaws := safe_get_text (Some char) "flaws" "" in
  let spell_ability := first_spell_ability (iter (find char "classes")) "" in
  let spellcasting_elem := find char "spellcasting" in
  let spell_save_dc := text_if_present spellcasting_elem "saveDC" "" in
  let spell_attack_bonus := text_if_present spellcasting_elem "attackbonus" "" in
  spells <- extract_spells char ;;
  let sorcery_points := find_sorcery_points (iter (find char "powers")) None in
  let spell_slots := extract_spell_slots char in
  Ok {| Character.name := name;
        Character.race := race;
        Character.subrace := subrace;
        Character.alignment := alignment;
        Character.background := background;
        Character.gender := gender;
        Character.age := age;
        Character.total_level := total_level;
        Character.classes_info := classes_info;
        Character.prof_bonus := prof_bonus;
        Character.abilities := abilities;
        Character.hp_total := hp_total;
        Character.hp_wounds := hp_wounds;
        Character.hp_temp := hp_temp;
        Character.ac_total := ac_total;
        Character.speed_total := speed_total;
        Character.initiative := initiative;
        Character.skills := skills;
        Character.features := features;
        Character.feats := feats;
        Character.inventory := inventory;
        Character.coins := coins;
        Character.personality := personality;
        Character.ideals := ideals;
        Character.bonds := bonds;
        Character.flaws := flaws;
        Character.spell_ability := spell_ability;
        Character.spell_save_dc := spell_save_dc;
        Character.spell_attack_bonus := spell_attack_bonus;
        Character.spells := spells;
        Character.sorcery_points := sorcery_points;
        Character.spell_slots := spell_slots |}.

(** ** The literal text of the document

    The constant pieces of the f-strings and string literals from which
    the source assembles the page, in the order of the source. *)

Module Tpl.

(** line 319 *)
Definition doc_open : string := tpl "<!DOCTYPE html>
<html lang=`en`>
<head>
    <meta charset=`UTF-8`>
    <meta name=`viewport` content=`width=device-width, initial-scale=1.0`>
    <title>Character Sheet - ".

(** line 319 *)
Definition doc_style : string := tpl "</title>
    <style>
        * {
            margin: 0;
            padding: 0;
            box-sizing: border-box;
        }
        
        html {
            font-size: 16px;
        }
        
        body {
            font-family: 'Book Antiqua', 'Palatino Linotype', Palatino, serif;
            background: linear-gradient(135deg, #f5f1e8 0%, #e8ddd4 100%);
            padding: 20px;
            color: #2c1810;
            line-height: 1.4;
            min-width: 280px;
            word-wrap: break-word;
            overflow-x: hidden;
        }
        
        .character-sheet {
            max-width: 1200px;
            margin: 0 auto;
            background: white;
            border: 3px solid #8b6914;
            border-radius: 8px;
            box-shadow: 0 4px 20px rgba(0,0,0,0.2);
            padding: 25px;
            box-sizing: border-box;
            width: 100%;
        }
        
        .header {
            border-bottom: 3px solid #8b6914;
            padding-bottom: 15px;
            margin-bottom: 20px;
        }
        
        .header h1 {
            font-size: 2.5em;
            color: #8b6914;
            text-align: center;
            margin-bottom: 10px;
            text-shadow: 2px 2px 4px rgba(0,0,0,0.1);
        }
        
        .header-info {
            display: grid;
            grid-template-columns: repeat(auto-fit, minmax(200px, 1fr));
            gap: 10px;
            font-size: 1.1em;
        }
        
        .header-info div {
            background: #f5f1e8;
            padding: 8px 12px;
            border-radius: 4px;
            border-left: 4px solid #8b6914;
        }
        
        .header-info strong {
            color: #8b6914;
            margin-right: 5px;
        }
        
        .sidebar {
            display: flex;
            flex-direction: column;
            gap: 5px;
            width: 100%;
            min-width: 0;
        }
        
        .stat-box {
            background: #f5f1e8;
            border: 1px solid #8b6914;
            border-radius: 3px;
            padding: 3px;
            text-align: center;
            margin-bottom: 4px;
            min-width: 0;
            box-sizing: border-box;
            overflow-wrap: break-word;
            word-break: break-word;
        }
        
        .stat-box h3 {
            color: #8b6914;
            font-size: 0.7em;
            margin-bottom: 2px;
            text-transform: uppercase;
            letter-spacing: 0.3px;
        }
        
        .ability-score {
            font-size: 1.2em;
            font-weight: bold;
            color: #2c1810;
            margin: 2px 0;
        }
        
        .ability-modifier {
            font-size: 0.95em;
            color: #8b6914;
            font-weight: bold;
            margin: 2px 0;
        }
        
        .save-box {
            font-size: 0.85em;
            margin-top: 5px;
        }
        
        .skill-item {
            display: flex;
            justify-content: space-between;
            padding: 4px 0;
            border-bottom: 1px dotted #ccc;
        }
        
        .skill-item label {
            display: flex;
            align-items: center;
            gap: 5px;
            cursor: pointer;
        }
        
        .section {
            background: #f5f1e8;
            border: 2px solid #8b6914;
            border-radius: 6px;
            padding: 15px;
        }
        
        .section h2 {
            color: #8b6914;
            font-size: 1.3em;
            margin-bottom: 12px;
            padding-bottom: 8px;
            border-bottom: 2px solid #8b6914;
            text-transform: uppercase;
            letter-spacing: 1px;
        }
        
        .page {
            background: white;
            border: 3px solid #8b6914;
            border-radius: 24px;
            padding: 30px 20px;
            margin: 30px auto;
            max-width: 900px;
            box-shadow: 0 4px 20px rgba(0,0,0,0.1);
            box-sizing: border-box;
            width: 100%;
        }
        
        .page-layout {
            display: grid;
            grid-template-columns: 250px 1fr;
            gap: 20px;
            margin-bottom: 20px;
        }
        
        .hp-box {
            text-align: center;
            padding: 15px;
            background: white;
            border-radius: 4px;
            margin-bottom: 10px;
        }
        
        .hp-box .hp-total {
            font-size: 2em;
            font-weight: bold;
            color: #c12727;
        }
        
        .hp-box .hp-current {
            font-size: 1.5em;
            color: #2c1810;
        }
        
        .hp-details {
            display: flex;
            justify-content: space-around;
            margin-top: 10px;
            font-size: 0.9em;
        }
        
        .features-list, .feats-list, .inventory-list {
            list-style: none;
        }
        
        .features-list li, .feats-list li {
            padding: 6px 0;
            border-bottom: 1px dotted #ccc;
        }
        
        .inventory-list li {
            padding: 6px 0;
            display: flex;
            justify-content: space-between;
            gap: 12px;
            border-bottom: 1px dotted #ccc;
            white-space: normal;
        }
        
        .spell-slot-level {
            display: flex;
            align-items: center;
            gap: 6px;
            margin-bottom: 6px;
        }
        
        .spell-slot-level strong {
            min-width: 70px;
            font-size: 0.9em;
            color: #8b6914;
        }
        
        .spell-slot-bubbles {
            display: flex;
            gap: 4px;
            flex-wrap: wrap;
        }
        
        .spell-description {
            font-size: 0.9em;
            color: #333;
            margin-top: 6px;
            padding-top: 6px;
            border-top: 1px dotted #ccc;
            word-wrap: break-word;
            overflow-wrap: break-word;
            white-space: normal;
        }
        
        .coins {
            display: flex;
            gap: 15px;
            justify-content: center;
            flex-wrap: wrap;
            padding: 10px;
        }
        
        .coin-item {
            text-align: center;
            padding: 8px 15px;
            background: white;
            border-radius: 4px;
            border: 1px solid #8b6914;
        }
        
        .coin-item .amount {
            font-size: 1.3em;
            font-weight: bold;
            color: #8b6914;
            margin-top: 8px;
        }
        
        .coin-item input[type=`text`] {
            width: 80px;
            padding: 6px;
            border: 1px solid #8b6914;
            border-radius: 3px;
            text-align: center;
            font-size: 1.1em;
            font-weight: bold;
            color: #8b6914;
            margin-top: 8px;
        }
        
        .spell-level-toggle {
            background: white;
            border: 2px solid #8b6914;
            border-radius: 4px;
            padding: 12px;
            margin-bottom: 10px;
            cursor: pointer;
            display: flex;
            justify-content: space-between;
            align-items: center;
            user-select: none;
            transition: background-color 0.2s;
        }
        
        .spell-level-toggle:hover {
            background-color: #f5f1e8;
        }
        
        .spell-level-toggle h3 {
            color: #8b6914;
            font-size: 1.1em;
            margin: 0;
        }
        
        .spell-level-content {
            display: none;
        }
        
        .spell-level-content.active {
            display: block;
        }
        
        @media (max-width: 900px) {
            body {
                padding: 8px;
            }
            
            .character-sheet {
                padding: 10px;
                border: 2px solid #8b6914;
            }
            
            .header h1 {
                font-size: 1.3em;
                margin-bottom: 8px;
            }
            
            .header-info {
                grid-template-columns: 1fr;
                gap: 6px;
            }
            
            .page-layout {
                grid-template-columns: 1fr !important;
                gap: 12px !important;
            }
            
            .stat-box {
                padding: 2px 5px;
                margin-bottom: 2px;
            }
            
            .section {
                padding: 8px;
            }
            
            .section h2 {
                font-size: 1em;
                margin-bottom: 8px;
            }
            
            .page {
                border: 2px solid #8b6914;
                padding: 12px 8px;
                margin: 15px 0;
            }
        }
        
        @media (max-width: 600px) {
            html {
                font-size: 14px;
            }
            
            body {
                padding: 4px;
                margin: 0;
            }
            
            .character-sheet {
                padding: 6px;
                border: 1px solid #8b6914;
            }
            
            .header h1 {
                font-size: 1.1em;
                margin: 0;
            }
            
            .page {
                border: 1px solid #8b6914;
                padding: 8px;
                margin: 10px 0;
            }
        }
    </style>
</head>
<body>
    <div class=`character-sheet`>
        <div class=`header`>
            <h1>".

(** line 319 *)
Definition header_info_open : string := tpl "</h1>
            <div class=`header-info`>
".

(** line 716 *)
Definition race_open : string := tpl "                <div><strong>Race:</strong> ".

(** line 716 *)
Definition div_close : string := tpl "</div>
".

(** line 720 *)
Definition classes_open : string := tpl "                <div><strong>Class & Level:</strong> ".

(** line 723 *)
Definition background_open : string := tpl "                <div><strong>Background:</strong> ".

(** line 726 *)
Definition alignment_open : string := tpl "                <div><strong>Alignment:</strong> ".

(** line 728 *)
Definition prof_bonus_open : string := tpl "                <div><strong>Proficiency Bonus:</strong> ".

(** line 730 *)
Definition sidebar_open : string := tpl "            </div>
        </div>
        
        <div class=`page`>
            <div class=`page-layout`>
                <div class=`sidebar`>
".

(** line 747 *)
Definition stat_box_open : string := tpl "                    <div class=`stat-box`>
                        <h3>".

(** line 747 *)
Definition ability_score_open : string := tpl "</h3>
                        <div class=`ability-score`>".

(** line 747 *)
Definition ability_modifier_open : string := tpl "</div>
                        <div class=`ability-modifier`>".

(** line 747 *)
Definition save_box_open : string := tpl "</div>
                        <div class=`save-box`>
                            SAVE ".

(** line 747 *)
Definition space : string := tpl " ".

(** line 747 *)
Definition stat_box_close : string := tpl "
                        </div>
                    </div>
".

(** line 758 *)
Definition skills_open : string := tpl "                    <div class=`stat-box`>
                        <h3>Skills</h3>
                        <div style=`text-align: left; font-size: 0.85em;`>
".

(** line 765 *)
Definition skill_item_open : string := tpl "                            <div class=`skill-item`>
                                <span>".

(** line 765 *)
Definition skill_total_open : string := tpl "</span>
                                <span>".

(** line 765 *)
Definition skill_item_close : string := tpl "</span>
                            </div>
".

(** line 771 *)
Definition hp_total_open : string := tpl "                        </div>
                    </div>
                </div>
                
                <div style=`display: grid; grid-template-columns: 1fr 1fr; gap: 15px;`>
                    <div class=`section`>
                        <h2>Hit Points</h2>
                        <div class=`hp-box`>
                            <div class=`hp-total`>".

(** line 771 *)
Definition hp_wounds_open : string := tpl "</div>
                            <div class=`hp-current`>Current HP</div>
                            <div class=`hp-details`>
                                <div style=`display: flex; align-items: center; gap: 10px;`>
                                    <span>Wounds:</span>
                                    <input type=`text` value='".

(** line 771 *)
Definition hp_temp_open : string := tpl "' style=`width: 60px; padding: 4px; border: 1px solid #8b6914; text-align: center;`>
                                </div>
                                <div style=`display: flex; align-items: center; gap: 10px;`>
                                    <span>Temp:</span>
                                    <input type=`text` value='".

(** line 771 *)
Definition ac_open : string := tpl "' style=`width: 60px; padding: 4px; border: 1px solid #8b6914; text-align: center;`>
                                </div>
                            </div>
                        </div>
                    </div>
                    
                    <div class=`section`>
                        <h2>Combat Stats</h2>
                        <div style=`text-align: center; padding: 15px;`>
                            <div style=`margin-bottom: 15px;`>
                                <strong>Armor Class:</strong>
                                <div style=`font-size: 1.8em; font-weight: bold; color: #8b6914;`>".

(** line 771 *)
Definition initiative_open : string := tpl "</div>
                            </div>
                            <div style=`margin-bottom: 15px;`>
                                <strong>Initiative:</strong>
                                <div style=`font-size: 1.5em; font-weight: bold; color: #8b6914;`>".

(** line 771 *)
Definition speed_open : string := tpl "</div>
                            </div>
                            <div>
                                <strong>Speed:</strong>
                                <div style=`font-size: 1.5em; font-weight: bold; color: #8b6914;`>".

(** line 771 *)
Definition features_open : string := tpl " ft</div>
                            </div>
                        </div>
                    </div>
                    
                    <div class=`section`>
                        <h2>Features</h2>
                        <ul class=`features-list`>
".

(** line 818 *)
Definition li_strong_open : string := tpl "                            <li><strong>".

(** line 818 *)
Definition feature_level_open : string := tpl "</strong> (Lvl ".

(** line 818 *)
Definition feature_close : string := tpl ")</li>
".

(** line 822 *)
Definition no_features : string := tpl "                            <li><em>No features</em></li>
".

(** line 825 *)
Definition feats_open : string := tpl "                        </ul>
                    </div>
                    
                    <div class=`section`>
                        <h2>Feats</h2>
                        <ul class=`feats-list`>
".

(** line 834 *)
Definition feat_close : string := tpl "</strong></li>
".

(** line 838 *)
Definition no_feats : string := tpl "                            <li><em>No feats</em></li>
".

(** line 841 *)
Definition inventory_open : string := tpl "                        </ul>
                    </div>
                </div>
            </div>
        </div>
        
        <div class=`page`>
            <div class=`section`>
                <h2>Equipment</h2>
                <ul class=`inventory-list`>
".

(** line 855 *)
Definition item_open : string := tpl "                    <li>
                        <span>".

(** line 855 *)
Definition item_close : string := tpl "</span>
                    </li>
".

(** line 861 *)
Definition no_equipment : string := tpl "                    <li><em>No equipment</em></li>
".

(** line 864 *)
Definition coins_open : string := tpl "                </ul>
            </div>
            
            <div class=`section`>
                <h2>Wealth</h2>
                <div class=`coins`>
".

(** line 875 *)
Definition coin_open : string := tpl "                    <div class=`coin-item`>
                        <strong>".

(** line 875 *)
Definition coin_value_open : string := tpl "</strong>
                        <input type=`text` value=`".

(** line 875 *)
Definition coin_close : string := tpl "` />
                    </div>
".

(** line 881 *)
Definition spell_page_open : string := tpl "                </div>
            </div>
        </div>
        
        <div class=`page`>
".

(** line 889 *)
Definition slots_open : string := tpl "            <div class=`section`>
                <h2>Spell Slots</h2>
                <div style=`display: grid; grid-template-columns: 1fr 1fr; gap: 30px;`>
".

(** line 896 *)
Definition column_open : string := tpl "                    <div>
".

(** line 901 *)
Definition slot_level_open : string := tpl "                        <div class=`spell-slot-level`>
                            <strong>Level ".

(** line 901 *)
Definition slot_bubbles_open : string := tpl ":</strong>
                            <div class=`spell-slot-bubbles`>
".

(** line 907 *)
Definition bubble_open : string := tpl "                                <input type=`checkbox` ".

(** line 907 *)
Definition bubble_close : string := tpl ">
".

(** line 909 *)
Definition slot_level_close : string := tpl "                            </div>
                        </div>
".

(** line 912 *)
Definition column_break : string := tpl "                    </div>
                    <div>
".

(** line 929 *)
Definition slots_close : string := tpl "                    </div>
                </div>
            </div>
".

(** line 935 *)
Definition spells_open : string := tpl "            <div class=`section`>
                <h2>Spells</h2>
".

(** line 950 *)
Definition spell_group_open : string := tpl "                <div class=`spell-level-toggle` onclick=`toggleSpell(this)`>
                    <h3>Level ".

(** line 950 *)
Definition count_open : string := tpl " (".

(** line 950 *)
Definition spell_group_content_open : string := tpl " spells)</h3>
                    <span>▼</span>
                </div>
                <div class=`spell-level-content`>
".

(** line 958 *)
Definition spell_open : string := tpl "                    <div style=`background: #f5f1e8; padding: 8px; border-radius: 3px; border-left: 3px solid #8b6914; margin-bottom: 8px;`>
                        <div><strong>".

(** line 958 *)
Definition spell_name_close : string := tpl "</strong></div>
".

(** line 962 *)
Definition spell_school_open : string := tpl "                        <div style=`font-size: 0.85em;`><strong>School:</strong> ".

(** line 965 *)
Definition spell_description_open : string := tpl "                        <div class=`spell-description`>".

(** line 967 *)
Definition spell_close : string := tpl "                    </div>
".

(** line 969 *)
Definition spell_group_close : string := tpl "                </div>
".

(** line 972 *)
Definition spells_close : string := tpl "                <script>
                function toggleSpell(elem) {
                    const content = elem.nextElementSibling;
                    content.classList.toggle('active');
                }
                </script>
            </div>
".

(** line 981 *)
Definition doc_close : string := tpl "        </div>
    </div>
</body>
</html>".

End Tpl.

(** ** Rendering *)

(** [d[k]], raising KeyError on a missing key. *)
Definition dict_lookup {V : Type} (k : string) (d : dict V) : Result V :=
  match dict_get k d with
  | Some v => Ok v
  | None => Raise (KeyError k)
  end.

(** A [for] loop whose body can raise. *)
Fixpoint foldM {A S : Type} (body : S -> A -> Result S) (l : list A) (s : S) : Result S :=
  match l with
  | [] => Ok s
  | x :: l' => s' <- body s x ;; foldM body l' s'
  end.

(** [range(n)] *)
Definition py_range (n : Z) : list Z := map Z.of_nat (seq 0 (Z.to_nat n)).

(** The page head, the character name and the header lines (lines 319 to
    736). *)
Definition render_header (c : Character.t) : string :=
  let name := Character.name c in
  let html :=
    Tpl.doc_open ++ (if Py.truthy name then escape_html name else "Unknown")
    ++ Tpl.doc_style ++ (if Py.truthy name then escape_html name else "Character Name")
    ++ Tpl.header_info_open in
  let html :=
    if Py.truthy (Character.race c) then
      let race_display := Character.race c in
      let race_display :=
        if Py.truthy (Character.subrace c)
        then race_display ++ " (" ++ Character.subrace c ++ ")"
        else race_display in
      html ++ Tpl.race_open ++ escape_html race_display ++ Tpl.div_close
    else html in
  let html :=
    match Character.classes_info c with
    | [] => html
    | _ :: _ =>
        let classes_str :=
          Py.join ", "
            (map (fun c => ClassInfo.name c ++ " " ++ ClassInfo.level c)
                 (Character.classes_info c)) in
        html ++ Tpl.classes_open ++ escape_html classes_str ++ Tpl.div_close
    end in
  let html :=
    if Py.truthy (Character.background c)
    then html ++ Tpl.background_open ++ escape_html (Character.background c) ++ Tpl.div_close
    else html in
  let html :=
    if Py.truthy (Character.alignment c)
    then html ++ Tpl.alignment_open ++ escape_html (Character.alignment c) ++ Tpl.div_close
    else html in
  let html :=
    html ++ Tpl.prof_bonus_open ++ format_modifier (VInt (Character.prof_bonus c))
    ++ Tpl.div_close in
  html ++ Tpl.sidebar_open.

(** One turn of the loop over [ability_names]; a missing ability reads the
    defaults of [abil_data.get]. *)
Definition ability_step (abilities : dict Ability.t) (html : string) (abil_name : string)
  : string :=
  let abil_data := dict_get abil_name abilities in
  let abil_display := Py.upper (Py.take 3 (Py.capitalize abil_name)) in
  let score := match abil_data with Some a => Ability.score a | None => "10" end in
  let bonus := match abil_data with Some a => Ability.bonus a | None => "0" end in
  let save := match abil_data with Some a => Ability.save a | None => "0" end in
  let is_prof := match abil_data with Some a => Ability.saveprof a | None => false end in
  html ++ Tpl.stat_box_open ++ abil_display
  ++ Tpl.ability_score_open ++ escape_html score
  ++ Tpl.ability_modifier_open ++ format_modifier (VStr bonus)
  ++ Tpl.save_box_open ++ format_modifier (VStr save)
  ++ Tpl.space ++ (if is_prof then "✓" else "")
  ++ Tpl.stat_box_close.

Definition render_abilities (c : Character.t) (html : string) : string :=
  fold_left (ability_step (Character.abilities c)) ability_names html.

Definition skill_step (html : string) (skill : Skill.t) : string :=
  let prof_indicator := if Skill.prof skill then "●" else "○" in
  html ++ Tpl.skill_item_open ++ prof_indicator ++ Tpl.space ++ escape_html (Skill.name skill)
  ++ Tpl.skill_total_open ++ format_modifier (VStr (Skill.total skill))
  ++ Tpl.skill_item_close.

Definition render_skills (c : Character.t) (html : string) : string :=
  let html := html ++ Tpl.skills_open in
  fold_left skill_step (Character.skills c) html.

(** Hit points, armor class, initiative and speed (lines 771 to 815). *)
Definition render_vitals (c : Character.t) (html : string) : string :=
  html ++ Tpl.hp_total_open ++ escape_html (Character.hp_total c)
  ++ Tpl.hp_wounds_open ++ Character.hp_wounds c
  ++ Tpl.hp_temp_open ++ Character.hp_temp c
  ++ Tpl.ac_open ++ escape_html (Character.ac_total c)
  ++ Tpl.initiative_open ++ format_modifier (VStr (Character.initiative c))
  ++ Tpl.speed_open ++ escape_html (Character.speed_total c)
  ++ Tpl.features_open.

Definition feature_step (html : string) (feature : Feature.t) : string :=
  html ++ Tpl.li_strong_open ++ escape_html (Feature.name feature)
  ++ Tpl.feature_level_open ++ escape_html (Feature.level feature) ++ Tpl.feature_close.

Definition render_features (c : Character.t) (html : string) : string :=
  let html := fold_left feature_step (Character.features c) html in
  let html :=
    match Character.features c with
    | [] => html ++ Tpl.no_features
    | _ :: _ => html
    end in
  html ++ Tpl.feats_open.

Definition feat_step (html : string) (feat : Feat.t) : string :=
  html ++ Tpl.li_strong_open ++ escape_html (Feat.name feat) ++ Tpl.feat_close.

Definition render_feats (c : Character.t) (html : string) : string :=
  let html := fold_left feat_step (Character.feats c) html in
  let html :=
    match Character.feats c with
    | [] => html ++ Tpl.no_feats
    | _ :: _ => html
    end in
  html ++ Tpl.inventory_open.

Definition item_step (html : string) (item : Item.t) : string :=
  let count_text :=
    if negb (String.eqb (Item.count item) "1") then " x" ++ Item.count item else "" in
  html ++ Tpl.item_open ++ escape_html (Item.name item) ++ escape_html count_text
  ++ Tpl.item_close.

Definition render_inventory (c : Character.t) (html : string) : string :=
  let html := fold_left item_step (Character.inventory c) html in
  let html :=
    match Character.inventory c with
    | [] => html ++ Tpl.no_equipment
    | _ :: _ => html
    end in
  html ++ Tpl.coins_open.

Definition coin_order : list string := ["PP"; "GP"; "EP"; "SP"; "CP"].

Definition coin_step (coins : dict string) (html : string) (coin_type : string) : string :=
  let coin_value := match dict_get coin_type coins with Some v => v | None => "0" end in
  html ++ Tpl.coin_open ++ coin_type ++ Tpl.coin_value_open ++ escape_html coin_value
  ++ Tpl.coin_close.

Definition render_coins (c : Character.t) (html : string) : string :=
  let html := fold_left (coin_step (Character.coins c)) coin_order html in
  html ++ Tpl.spell_page_open.

(** One marker of a spell-slot level. *)
Definition bubble_step (used_slots : Z) (html : string) (i : Z) : string :=
  let is_checked := (i <? used_slots)%Z in
  html ++ Tpl.bubble_open ++ (if is_checked then "checked" else "") ++ Tpl.bubble_close.

(** One spell-slot level of a column: both [int] calls run before anything
    is appended. *)
Definition slot_level_step (spell_slots : dict Slots.t) (html : string) (level : string)
  : Result string :=
  entry <- dict_lookup level spell_slots ;;
  max_slots <- Py.int_or_raise (Slots.max entry) ;;
  used_slots <- Py.int_or_raise (Slots.used entry) ;;
  let html := html ++ Tpl.slot_level_open ++ level ++ Tpl.slot_bubbles_open in
  let html := fold_left (bubble_step used_slots) (py_range max_slots) html in
  Ok (html ++ Tpl.slot_level_close).

Definition render_spell_slots (c : Character.t) (html : string) : Result string :=
  let spell_slots := Character.spell_slots c in
  match spell_slots with
  | [] => Ok html
  | _ :: _ =>
      let html := html ++ Tpl.slots_open in
      spell_levels <- sorted_by_raising Py.int_or_raise (dict_keys spell_slots) ;;
      let mid_point := ((length spell_levels + 1) / 2)%nat in
      let html := html ++ Tpl.column_open in
      html <- foldM (slot_level_step spell_slots) (firstn mid_point spell_levels) html ;;
      let html := html ++ Tpl.column_break in
      html <- foldM (slot_level_step spell_slots) (skipn mid_point spell_levels) html ;;
      Ok (html ++ Tpl.slots_close)
  end.

(** One turn of the grouping loop: a level missing from [spells_by_level]
    enters it, at the end, with the spell as its only member. *)
Definition group_step (spells_by_level : dict (list Spell.t)) (spell : Spell.t)
  : dict (list Spell.t) :=
  let level :=
    if Py.truthy (Spell.level spell) && negb (String.eqb (Spell.level spell) "0")
    then Spell.level spell else "Cantrip" in
  let level_spells :=
    match dict_get level spells_by_level with
    | Some l => l
    | None => []
    end in
  dict_set level (append level_spells spell) spells_by_level.

Definition level_order_key (x : string) : Result (bool * Z) :=
  let not_cantrip := negb (String.eqb x "Cantrip") in
  n <- (if Py.isdigit x then Py.int_or_raise x else Ok 0%Z) ;;
  Ok (not_cantrip, n).

Definition spell_step (html : string) (spell : Spell.t) : string :=
  let prepared_mark :=
    if Py.truthy (Spell.prepared spell) && negb (String.eqb (Spell.prepared spell) "0")
    then "●" else "○" in
  let html :=
    html ++ Tpl.spell_open ++ prepared_mark ++ Tpl.space ++ escape_html (Spell.name spell)
    ++ Tpl.spell_name_close in
  let html :=
    if Py.truthy (Spell.school spell)
    then html ++ Tpl.spell_school_open ++ escape_html (Spell.school spell) ++ Tpl.div_close
    else html in
  let html :=
    if Py.truthy (Spell.description spell)
    then html ++ Tpl.spell_description_open ++ Spell.description spell ++ Tpl.div_close
    else html in
  html ++ Tpl.spell_close.

Definition spell_group_step (spells_by_level : dict (list Spell.t)) (html : string)
                            (level : string) : Result string :=
  level_spells <- dict_lookup level spells_by_level ;;
  let html :=
    html ++ Tpl.spell_group_open ++ escape_html level ++ Tpl.count_open
    ++ Py.str (Z.of_nat (length level_spells)) ++ Tpl.spell_group_content_open in
  let html := fold_left spell_step level_spells html in
  Ok (html ++ Tpl.spell_group_close).

Definition render_spells (c : Character.t) (html : string) : Result string :=
  match Character.spells c with
  | [] => Ok html
  | _ :: _ =>
      let html := html ++ Tpl.spells_open in
      let spells_by_level := fold_left group_step (Character.spells c) [] in
      level_order <- sorted_by_raising level_order_key (dict_keys spells_by_level) ;;
      html <- foldM (spell_group_step spells_by_level) level_order html ;;
      Ok (html ++ Tpl.spells_close)
  end.

(** Lines 319 to 984: the document built from the extracted values. *)
Definition render (c : Character.t) : Result string :=
  let html := render_header c in
  let html := render_abilities c html in
  let html := render_skills c html in
  let html := render_vitals c html in
  let html := render_features c html in
  let html := render_feats c html in
  let html := render_inventory c html in
  let html := render_coins c html in
  html <- render_spell_slots c html ;;
  html <- render_spells c html ;;
  Ok (html ++ Tpl.doc_close).

(** ** The pipeline *)

(** [str(e)] *)
Definition str_exn (e : exn) : string :=
  match e with
  | ValueError msg => msg
  | KeyError key => Py.repr key
  | ParseError msg => msg
  end.

Definition no_character_error : string := "Error: No character data found in XML".

(** [parse_fgu_character_to_html(xml_content)], on the outcome [parsed] of
    [ET.fromstring(xml_content)]: the pair [(html, error)]. *)
Definition parse_fgu_character_to_html (parsed : Result Element)
  : option string * option string :=
  let body :=
    root <- parsed ;;
    match find root "character" with
    | None => Ok (None, Some no_character_error)
    | Some char =>
        c <- extract char ;;
        html <- render c ;;
        Ok (Some html, None)
    end in
  match body with
  | Ok r => r
  | Raise e => (None, Some (str_exn e))
  end.

(** ** The upload route

    [generate] reads the uploaded file from the request, runs the pipeline
    on its content and answers with the document as a download or with an
    error.  The request is the dictionary [request.files]; an upload is its
    client file name and, for its content, the outcome of
    [ET.fromstring] on the bytes that [file.read()] returns (the route
    parses the same bytes twice).  Failures of the transport itself are
    outside the model. *)

(** [s.endswith(suffix)] *)
Fixpoint endswith (s suffix : string) : bool :=
  String.eqb s suffix
  || match s with
     | EmptyString => false
     | String _ s' => endswith s' suffix
     end.

(** [c.isalnum() or c in (' ', '_', '-')] *)
Definition filename_char (c : string) : bool :=
  Py.isalnum c || String.eqb c " " || String.eqb c "_" || String.eqb c "-".

(** [[''.join(c for c in s if keep(c))]]: the characters of [s] that pass
    the test [keep]. *)
Definition filter_chars (keep : string -> bool) (s : string) : string :=
  String.concat "" (filter keep (Py.chars s)).

Module Upload.
Record t : Type := { filename : string; parsed : Result Element }.
End Upload.

(** What the route returns: [jsonify({'error': error}), status], or
    [send_file] of the encoded document as an attachment of type
    [text/html] under [download_name]. *)
Inductive response : Type :=
| JsonError (error : string) (status : Z)
| SendFile (body : string) (download_name : string).

Definition default_filename : string := "character_sheet.html".

(** Lines 1247 to 1262: the download name from the character name; every
    failure of the inner [try] leaves the default. *)
Definition download_filename (parsed : Result Element) : string :=
  let filename := default_filename in
  match parsed with
  | Raise _ => filename
  | Ok root =>
      match find root "character" with
      | None => filename
      | Some char =>
          match find char "name" with
          | None => filename
          | Some name_elem =>
              if Py.truthy_opt (text name_elem) then
                let char_name := Py.strip (Py.or_empty (text name_elem)) in
                if Py.truthy char_name then
                  let clean_name := Py.strip (filter_chars filename_char char_name) in
                  if Py.truthy clean_name then clean_name ++ ".html" else filename
                else filename
              else filename
          end
      end
  end.

(** [str(e)] of the AttributeError that [html.encode] raises on [None]. *)
Definition none_encode_error : string :=
  "'NoneType' object has no attribute 'encode'".

Definition generate (files : dict Upload.t) : response :=
  match dict_get "file" files with
  | None => JsonError "No file uploaded" 400
  | Some file =>
      if String.eqb (Upload.filename file) "" then JsonError "No file selected" 400
      else if negb (endswith (Py.lower (Upload.filename file)) ".xml")
      then JsonError "File must be XML format" 400
      else
        let '(html, error) := parse_fgu_character_to_html (Upload.parsed file) in
        if Py.truthy_opt error then JsonError (Py.or_empty error) 400
        else
          let filename := download_filename (Upload.parsed file) in
          match html with
          | Some html => SendFile html filename
          | None => JsonError none_encode_error 500
          end
  end.

(** * Vocabulary of the properties

    The laws of the key orders, the descriptions against which the code is
    compared, and the sample trees. *)

(** [<] on the keys is a strict total order and [==] is equality. *)
Class PyOrdLaws (K : Type) `{PyOrd K} : Prop := {
  py_eqb_eq : forall a b : K, py_eqb a b = true <-> a = b;
  py_ltb_asym : forall a b : K, py_ltb a b = true -> py_ltb b a = false;
  py_ltb_trans : forall a b c : K, py_ltb a b = true -> py_ltb b c = true -> py_ltb a c = true;
  py_ltb_connex : forall a b : K, py_ltb a b = false -> py_ltb b a = false -> a = b
}.

(** [a <= b] on keys: not [b < a]. *)
Definition py_le {K : Type} `{PyOrd K} (a b : K) : Prop := py_ltb b a = false.

(** Order of two decorated items: by key. *)
Definition keyed_le {K A : Type} `{PyOrd K} (x y : K * A) : Prop := py_le (fst x) (fst y).

(** [<t>s</t>] *)
Definition leaf (t s : string) : Element := Elem t [] (Some s) [] None.

(** [<t>...</t>] with child elements only *)
Definition node (t : string) (l : list Element) : Element := Elem t [] None l None.

(** The integer that [int(s)] returns, 0 where it raises. *)
Definition int_or_zero (s : string) : Z :=
  match Py.int s with
  | Some n => n
  | None => 0%Z
  end.

(** The first component of the key of [spells.sort], where it does not
    raise. *)
Definition spell_level_key (level : string) : Z :=
  if Py.isdigit level
  then match Py.int level with Some n => n | None => 99%Z end
  else 99%Z.

(** The key of [spells.sort], where it does not raise. *)
Definition spell_key (x : Spell.t) : Z * string :=
  (spell_level_key (Spell.level x), Spell.name x).

(** The key of the sort of the spell groups, where it does not raise. *)
Definition level_order_key_value (x : string) : bool * Z :=
  (negb (String.eqb x "Cantrip"), if Py.isdigit x then int_or_zero x else 0%Z).

(** The integer that a class entry adds to the total level. *)
Definition level_value (cls : Element) : Z :=
  match Py.int (safe_get_text (Some cls) "level" "") with
  | Some n => n
  | None => 0%Z
  end.

(** The entry of [classes_info] for a class element. *)
Definition class_info_of (cls : Element) : ClassInfo.t :=
  {| ClassInfo.name := safe_get_text (Some cls) "name" "";
     ClassInfo.level := safe_get_text (Some cls) "level" "";
     ClassInfo.specialization := safe_get_text (Some cls) "specialization" "" |}.


(** A level has a rank unless [isdigit] accepts it and [int] rejects it, as
    for the superscript two. *)
Definition readable (level : string) : bool :=
  negb (Py.isdigit level)
  || match Py.int level with Some _ => true | None => false end.


(** The test of the specification on a power entry. *)
Definition qualifies_as_spell (power : Element) : Prop :=
  (Py.contains "Spells" (safe_get_text (Some power) "group" "") = true
   \/ safe_get_text (Some power) "school" "" <> "")
  /\ safe_get_text (Some power) "level" "" <> "".

(** [h'] is [h] with some text appended. *)
Definition extends (h h' : string) : Prop := exists s, h' = h ++ s.

(** The text that one skill entry adds to the document. *)
Definition skill_item (skill : Skill.t) : string := skill_step "" skill.

(** The lines that survive, in the words of the specification: a line is
    dropped when it is not blank and the trimmed content of some earlier
    line of the block equals its own; [earlier] holds the lines already
    passed, dropped or not. *)
Fixpoint first_occurrences (earlier lines : list string) : list string :=
  match lines with
  | [] => []
  | line :: rest =>
      let blank := negb (Py.truthy (Py.strip line)) in
      let repeated :=
        existsb (fun e => String.eqb (Py.strip e) (Py.strip line)) earlier in
      ((if blank || negb repeated then [line] else [])
       ++ first_occurrences (earlier ++ [line]) rest)%list
  end.

(** The flattening as the claim words it: no trimming anywhere. *)
Definition flatten_as_stated (element : Element) : string :=
  Py.join (Py.str1 Py.newline)
    (first_occurrences []
       (Py.split Py.newline
          (Py.or_empty (text element)
           ++ String.concat "" (map ET.tostring (children element))))).

(** [seen] holds the trimmed content of the non-blank lines of [earlier]. *)
Definition seen_tracks (seen earlier : list string) : Prop :=
  forall t, t <> "" ->
    (ET.mem t seen = true <-> exists e, In e earlier /\ Py.strip e = t).

(** One marker, checked or not. *)
Definition marker (checked : bool) : string :=
  Tpl.bubble_open ++ (if checked then "checked" else "") ++ Tpl.bubble_close.




(** The entry that the extraction stores for a spell-slot element. *)
Definition slots_of (slot_elem : Element) : Slots.t :=
  {| Slots.max := safe_get_text (Some slot_elem) "max" "0";
     Slots.used := safe_get_text (Some slot_elem) "used" "0" |}.

(** Where an entry of [spell_slots] comes from. *)
Definition slot_source (powermeta_elem : Element) (level : string) (entry : Slots.t) : Prop :=
  exists (slot_level : Z) (slot_elem : Element),
    In slot_level slot_levels
    /\ level = Py.str slot_level
    /\ find powermeta_elem ("spellslots" ++ Py.str slot_level) = Some slot_elem
    /\ entry = slots_of slot_elem.


(** The model [c] with its sorcery points replaced by [sp]. *)
Definition with_sorcery_points (sp : option Slots.t) (c : Character.t) : Character.t :=
  {| Character.name := Character.name c;
     Character.race := Character.race c;
     Character.subrace := Character.subrace c;
     Character.alignment := Character.alignment c;
     Character.background := Character.background c;
     Character.gender := Character.gender c;
     Character.age := Character.age c;
     Character.total_level := Character.total_level c;
     Character.classes_info := Character.classes_info c;
     Character.prof_bonus := Character.prof_bonus c;
     Character.abilities := Character.abilities c;
     Character.hp_total := Character.hp_total c;
     Character.hp_wounds := Character.hp_wounds c;
     Character.hp_temp := Character.hp_temp c;
     Character.ac_total := Character.ac_total c;
     Character.speed_total := Character.speed_total c;
     Character.initiative := Character.initiative c;
     Character.skills := Character.skills c;
     Character.features := Character.features c;
     Character.feats := Character.feats c;
     Character.inventory := Character.inventory c;
     Character.coins := Character.coins c;
     Character.personality := Character.personality c;
     Character.ideals := Character.ideals c;
     Character.bonds := Character.bonds c;
     Character.flaws := Character.flaws c;
     Character.spell_ability := Character.spell_ability c;
     Character.spell_save_dc := Character.spell_save_dc c;
     Character.spell_attack_bonus := Character.spell_attack_bonus c;
     Character.spells := Character.spells c;
     Character.sorcery_points := sp;
     Character.spell_slots := Character.spell_slots c |}.

(** The message of the ValueError that [int(s)] raises. *)
Definition invalid_literal (s : string) : exn :=
  ValueError ("invalid literal for int() with base 10: " ++ Py.take 200 (Py.repr s)).

(** A field of [element] that is present, with a text that is not empty
    and that [int] rejects. *)
Definition present_non_integer (element : Element) (path : string) : Prop :=
  exists sub t,
    find element path = Some sub /\ text sub = Some t /\ t <> "" /\ Py.int t = None.

(** A field of [element] that is present, with a text that [isdigit]
    accepts and [int] rejects. *)
Definition present_unreadable (element : Element) (path : string) : Prop :=
  exists sub t,
    find element path = Some sub /\ text sub = Some t
    /\ Py.isdigit t = true /\ Py.int t = None.

(** A tree whose only power is a spell of the level superscript two. *)
Definition sample_superscript_level : Element :=
  node "root"
    [node "character"
       [leaf "name" "Mira";
        node "powers"
          [node "id-00001" [leaf "name" "Web"; leaf "group" "Spells"; leaf "level" "²"]]]].

(** A character record with three classes: the levels are [3], the
    Arabic-Indic digit two and the text [third]. *)
Definition sample_classes : Element :=
  node "character"
    [node "classes"
       [node "id-00001" [leaf "name" "Fighter"; leaf "level" "3"];
        node "id-00002" [leaf "name" "Wizard"; leaf "level" "٢"];
        node "id-00003" [leaf "name" "Bard"; leaf "level" "third"]]].

(** A character record with the skills Stealth, Arcana, Stealth, in that
    order. *)
Definition sample_skills : Element :=
  node "character"
    [node "skilllist"
       [node "id-00001" [leaf "name" "Stealth"; leaf "total" "5"; leaf "prof" "1"];
        node "id-00002" [leaf "name" "Arcana"; leaf "total" "-1"];
        node "id-00003" [leaf "name" "Stealth"; leaf "total" "2"]]].

(** An element whose text is the three lines [a], blank, [a]. *)
Definition sample_repeated_line : Element :=
  Elem "description" [] (Some "a

a") [] None.


(** A character record whose only power is the sorcery-points resource,
    with the given maximum. *)
Definition sample_sorcerer (prepared : string) : Element :=
  node "character"
    [leaf "name" "Mira";
     node "powers"
       [node "id-00001" [leaf "name" "Sorcery Points"; leaf "prepared" prepared;
                         leaf "locked" "2"]]].

(** A tree whose wounds field closes the quoted attribute value and whose
    skill total is markup. *)
Definition sample_injection : Element :=
  node "root"
    [node "character"
       [leaf "name" "<b>Mira</b>";
        node "hp" [leaf "total" "12"; leaf "wounds" "' autofocus onfocus='alert(1)"];
        node "skilllist"
          [node "id-00001" [leaf "name" "Stealth";
                            leaf "total" "<script>alert(2)</script>"]]]].

(** A tree whose first spell-slot level has the maximum [many]. *)
Definition sample_bad_slot : Element :=
  node "root"
    [node "character"
       [leaf "name" "Mira";
        node "powermeta" [node "spellslots1" [leaf "max" "many"; leaf "used" "1"]]]].

(** ** Vocabulary of the further properties *)

(** [c in s] for one character. *)
Fixpoint occurs (c : ascii) (s : string) : bool :=
  match s with
  | EmptyString => false
  | String x s' => Ascii.eqb x c || occurs c s'
  end.

(** The trimmed contents of the lines that are not blank. *)
Definition line_keys (lines : list string) : list string :=
  filter Py.truthy (map Py.strip lines).

(** The text that [formatted_html] splits into lines. *)
Definition flat_content (element : Element) : string :=
  Py.strip (Py.strip (Py.or_empty (text element))
            ++ String.concat "" (map ET.tostring (children element))).

(** The entry of [abilities] for an ability element. *)
Definition ability_of (abil_elem : Element) : Ability.t :=
  {| Ability.score := safe_get_text (Some abil_elem) "score" "";
     Ability.bonus := safe_get_text (Some abil_elem) "bonus" "";
     Ability.save := safe_get_text (Some abil_elem) "save" "";
     Ability.saveprof := String.eqb (safe_get_text (Some abil_elem) "saveprof" "0") "1" |}.

(** The last element of [l] that passes [test]. *)
Definition find_last {A : Type} (test : A -> bool) (l : list A) : option A :=
  List.find test (rev l).

(** The test for a child element whose [name] field is [k]. *)
Definition named (k : string) (e : Element) : bool :=
  String.eqb (safe_get_text (Some e) "name" "") k.

(** The entry of a populated spell-slot element, nothing for one whose
    maximum is [0]. *)
Definition populated_slots (slot_elem : Element) : option Slots.t :=
  if String.eqb (safe_get_text (Some slot_elem) "max" "0") "0"
  then None else Some (slots_of slot_elem).

(** The label of the group that the rendering puts a spell in. *)
Definition spell_group_label (spell : Spell.t) : string :=
  if Py.truthy (Spell.level spell) && negb (String.eqb (Spell.level spell) "0")
  then Spell.level spell else "Cantrip".

(** The spells of a list that go in the group [label], in the order of the
    list. *)
Definition spells_of_group (label : string) (spells : list Spell.t) : list Spell.t :=
  filter (fun spell => String.eqb (spell_group_label spell) label) spells.

(** The number by which a group is ordered: the number that a label made
    of digits denotes, and 0 for every other label. *)
Definition group_number (label : string) : Z :=
  if Py.isdigit label then int_or_zero label else 0%Z.

(** The order of the groups: [Cantrip] before every other label, the other
    labels by number. *)
Definition group_before (a b : string) : Prop :=
  a = "Cantrip" \/ (b <> "Cantrip" /\ (group_number a <= group_number b)%Z).

(** The collapsible block of a group: its heading with the label and the
    number of spells, then the spells. *)
Definition group_block (label : string) (level_spells : list Spell.t) : string :=
  Tpl.spell_group_open ++ escape_html label ++ Tpl.count_open
  ++ Py.str (Z.of_nat (length level_spells)) ++ Tpl.spell_group_content_open
  ++ String.concat "" (map (spell_step "") level_spells)
  ++ Tpl.spell_group_close.

(** The layout of the spells section appended to [html]. *)
Definition spell_groups_layout (c : Character.t) (html : string) : Prop :=
  exists labels : list string,
    NoDup labels
    /\ (forall label,
          In label labels
          <-> exists spell, In spell (Character.spells c) /\ spell_group_label spell = label)
    /\ StronglySorted group_before labels
    /\ render_spells c html
       = Ok (html ++ Tpl.spells_open
             ++ String.concat ""
                  (map (fun label => group_block label (spells_of_group label (Character.spells c)))
                       labels)
             ++ Tpl.spells_close).

(** A character record with two of the six abilities, no initiative of
    its own, three coin entries of which two are gold, a feature, a feat,
    two items, two resources named [Sorcery Points], a spell and two
    spell-slot elements of which one is empty. *)
Definition sample_sheet : Element :=
  node "character"
    [leaf "name" "Mira";
     node "abilities"
       [node "strength" [leaf "score" "8"; leaf "bonus" "-1"; leaf "save" "-1"];
        node "dexterity" [leaf "score" "14"; leaf "bonus" "2"; leaf "save" "4";
                          leaf "saveprof" "1"]];
     node "coins"
       [node "slot1" [leaf "name" "GP"; leaf "amount" "5"];
        node "slot2" [leaf "name" "SP"; leaf "amount" "3"];
        node "slot3" [leaf "name" "GP"; leaf "amount" "7"]];
     node "featurelist" [node "id-00001" [leaf "name" "Rage"; leaf "level" "1"]];
     node "featlist" [node "id-00001" [leaf "name" "Alert"]];
     node "inventorylist"
       [node "id-00001" [leaf "name" "Torch"];
        node "id-00002" [leaf "name" "Arrow"; leaf "count" "20"]];
     node "powers"
       [node "id-00001" [leaf "name" "Sorcery Points"; leaf "prepared" "0"];
        node "id-00002" [leaf "name" "Sorcery Points"; leaf "prepared" "3"];
        node "id-00003" [leaf "name" "Web"; leaf "group" "Spells"; leaf "level" "2"]];
     node "powermeta"
       [node "spellslots1" [leaf "max" "4"; leaf "used" "1"];
        node "spellslots2" [leaf "max" "0"]]].

(** A character record with spells of the levels 2, 0, 1 and 2. *)
Definition sample_spells : Element :=
  node "character"
    [node "powers"
       [node "id-00001" [leaf "name" "Web"; leaf "group" "Spells"; leaf "level" "2"];
        node "id-00002" [leaf "name" "Light"; leaf "group" "Spells"; leaf "level" "0"];
        node "id-00003" [leaf "name" "Shield"; leaf "school" "Abjuration"; leaf "level" "1"];
        node "id-00004" [leaf "name" "Blur"; leaf "group" "Spells"; leaf "level" "2"]]].

(** The text in the title of the page and the one in its heading. *)
Definition title_text (c : Character.t) : string :=
  if Py.truthy (Character.name c) then escape_html (Character.name c) else "Unknown".

Definition heading_text (c : Character.t) : string :=
  if Py.truthy (Character.name c) then escape_html (Character.name c) else "Character Name".

(** The field of a currency in the wealth section. *)
Definition coin_item (coin_type value : string) : string :=
  Tpl.coin_open ++ coin_type ++ Tpl.coin_value_open ++ value ++ Tpl.coin_close.

(** The amount that the wealth section shows for a currency: the escaped
    amount of the last coin entry of that name, [0] when there is none. *)
Definition shown_amount (char : Element) (coin_type : string) : string :=
  escape_html
    (match find_last (named coin_type) (iter (find char "coins")) with
     | Some coin => safe_get_text (Some coin) "amount" "0"
     | None => "0"
     end).

(** The box of an ability: its abbreviation, its score, its modifier and
    its saving throw with the mark of proficiency. *)
Definition stat_box (abbreviation score bonus save : string) (proficient : bool) : string :=
  Tpl.stat_box_open ++ abbreviation
  ++ Tpl.ability_score_open ++ score
  ++ Tpl.ability_modifier_open ++ bonus
  ++ Tpl.save_box_open ++ save
  ++ Tpl.space ++ (if proficient then "✓" else "")
  ++ Tpl.stat_box_close.

(** The box that the page shows for an ability name of the record. *)
Definition stat_box_of (char : Element) (abil_name : string) : string :=
  let abbreviation := Py.upper (Py.take 3 (Py.capitalize abil_name)) in
  match find char ("abilities/" ++ abil_name) with
  | Some abil_elem =>
      let a := ability_of abil_elem in
      stat_box abbreviation (escape_html (Ability.score a))
               (format_modifier (VStr (Ability.bonus a)))
               (format_modifier (VStr (Ability.save a))) (Ability.saveprof a)
  | None => stat_box abbreviation "10" "+0" "+0" false
  end.

(** The lines of a list section: the placeholder for an empty list, the
    items otherwise. *)
Definition list_lines {A : Type} (placeholder : string) (item : A -> string) (l : list A)
  : string :=
  match l with
  | [] => placeholder
  | _ :: _ => String.concat "" (map item l)
  end.

(** Every trimmed content of [small] is one of [big]. *)
Definition keys_within (small big : list string) : Prop :=
  forall e, In e small -> exists e', In e' big /\ Py.strip e' = Py.strip e.

(** The character name that the route reads: the text of the first [name]
    element of the first character record, empty where the content does
    not parse or has no such element. *)
Definition character_name (parsed : Result Element) : string :=
  match parsed with
  | Ok root =>
      match find root "character" with
      | Some char =>
          match find char "name" with
          | Some name_elem => Py.or_empty (text name_elem)
          | None => ""
          end
      | None => ""
      end
  | Raise _ => ""
  end.

(** The stem of a download name: the characters of the name that a file
    name may hold, in their order, trimmed. *)
Definition file_stem (name : string) : string :=
  Py.strip (filter_chars filename_char name).

(** A record whose character name holds accented letters, a path and a
    dot. *)
Definition sample_named : Element :=
  node "root" [node "character" [leaf "name" " José Ñuñez/../x.y "]].

(** The shape of the characters of a text: a first byte followed by
    continuation bytes; every character of a text but the first starts
    with a byte that is not a continuation byte. *)
Fixpoint all_continuation (r : string) : bool :=
  match r with
  | EmptyString => true
  | String b r' => Py.is_continuation b && all_continuation r'
  end.

Definition is_char (ch : string) : bool :=
  match ch with
  | EmptyString => false
  | String _ r => all_continuation r
  end.

Definition starts_char (ch : string) : bool :=
  match ch with
  | EmptyString => false
  | String c _ => negb (Py.is_continuation c)
  end.

Definition chars_ok (l : list string) : Prop :=
  Forall (fun ch => is_char ch = true) l
  /\ Forall (fun ch => starts_char ch = true) (tl l).

(** Trimming a list at both ends. *)
Definition strip_list {A : Type} (space : A -> bool) (l : list A) : list A :=
  Py.rstrip_list space (Py.lstrip_list space l).

(** * Properties *)

(** ** Strings and loops that append *)

Lemma append_nil_r (s : string) : s ++ "" = s.
Proof. induction s as [|c s IH]; simpl; [reflexivity | now rewrite IH]. Qed.

Lemma append_assoc (a b c : string) : (a ++ b) ++ c = a ++ (b ++ c).
Proof. induction a as [|x a IH]; simpl; [reflexivity | now rewrite IH]. Qed.

Lemma concat_cons (x : string) (l : list string) :
  String.concat "" (x :: l) = x ++ String.concat "" l.
Proof. destruct l; simpl; [now rewrite append_nil_r | reflexivity]. Qed.

Lemma concat_app (l1 l2 : list string) :
  String.concat "" (l1 ++ l2)%list = String.concat "" l1 ++ String.concat "" l2.
Proof.
  induction l1 as [|x l1 IH]; [reflexivity |].
  change ((x :: l1) ++ l2)%list with (x :: (l1 ++ l2)%list).
  now rewrite !concat_cons, IH, append_assoc.
Qed.

(** A loop whose body appends to [html] a text that depends on the item
    only. *)
Lemma fold_left_appends {A : Type} (f : string -> A -> string) (l : list A) :
  (forall h x, f h x = h ++ f "" x) ->
  forall h, fold_left f l h = h ++ String.concat "" (map (f "") l).
Proof.
  intros Hf. induction l as [|x l IH]; intros h.
  - simpl. now rewrite append_nil_r.
  - cbn [fold_left map]. rewrite IH, concat_cons, Hf. apply append_assoc.
Qed.

Lemma fold_left_append_list {A B : Type} (g : A -> B) (l : list A) (acc : list B) :
  fold_left (fun acc x => append acc (g x)) l acc = (acc ++ map g l)%list.
Proof.
  revert acc. induction l as [|x l IH]; intros acc; simpl.
  - now rewrite app_nil_r.
  - rewrite IH. unfold append. now rewrite <- app_assoc.
Qed.

(** ** Laws of the key orders and correctness of the stable sort *)

Lemma py_eqb_true {K : Type} `{PyOrdLaws K} (a b : K) : py_eqb a b = true -> a = b.
Proof. apply (proj1 (py_eqb_eq a b)). Qed.

Lemma py_eqb_refl {K : Type} `{PyOrdLaws K} (a : K) : py_eqb a a = true.
Proof. now apply (proj2 (py_eqb_eq a a)). Qed.

Lemma py_ltb_irrefl {K : Type} `{PyOrdLaws K} (a : K) : py_ltb a a = false.
Proof.
  destruct (py_ltb a a) eqn:E; [| reflexivity].
  now rewrite (py_ltb_asym _ _ E) in E.
Qed.

Lemma py_le_trans {K : Type} `{PyOrdLaws K} (a b c : K) :
  py_le a b -> py_le b c -> py_le a c.
Proof.
  unfold py_le. intros Hab Hbc.
  destruct (py_ltb c a) eqn:Hca; [| reflexivity].
  destruct (py_ltb a b) eqn:Hlt.
  - now rewrite (py_ltb_trans _ _ _ Hca Hlt) in Hbc.
  - rewrite (py_ltb_connex _ _ Hlt Hab) in Hca. congruence.
Qed.

#[global] Instance PyOrdLaws_Z : PyOrdLaws Z.
Proof.
  split; simpl; intros.
  - apply Z.eqb_eq.
  - apply Z.ltb_ge. apply Z.ltb_lt in H. lia.
  - apply Z.ltb_lt. apply Z.ltb_lt in H, H0. lia.
  - apply Z.ltb_ge in H, H0. lia.
Qed.

#[global] Instance PyOrdLaws_bool : PyOrdLaws bool.
Proof.
  split; simpl.
  - intros [] []; simpl; split; congruence.
  - intros [] []; simpl; congruence.
  - intros [] [] []; simpl; congruence.
  - intros [] []; simpl; congruence.
Qed.

Lemma ascii_compare_lt_trans (a b c : ascii) :
  Ascii.compare a b = Lt -> Ascii.compare b c = Lt -> Ascii.compare a c = Lt.
Proof.
  unfold Ascii.compare. rewrite !N.compare_lt_iff. apply N.lt_trans.
Qed.

Lemma string_compare_lt_trans (a b c : string) :
  String.compare a b = Lt -> String.compare b c = Lt -> String.compare a c = Lt.
Proof.
  revert b c. induction a as [|x a IH]; intros [|y b] [|z c]; simpl;
    try congruence.
  destruct (Ascii.compare x y) eqn:Exy; try discriminate;
    destruct (Ascii.compare y z) eqn:Eyz; try discriminate; intros Hab Hbc.
  - apply Ascii.compare_eq_iff in Exy, Eyz. subst.
    assert (E : Ascii.compare z z = Eq).
    { unfold Ascii.compare. apply N.compare_refl. }
    rewrite E. eauto.
  - apply Ascii.compare_eq_iff in Exy. subst. now rewrite Eyz.
  - apply Ascii.compare_eq_iff in Eyz. subst. now rewrite Exy.
  - now rewrite (ascii_compare_lt_trans _ _ _ Exy Eyz).
Qed.

#[global] Instance PyOrdLaws_string : PyOrdLaws string.
Proof.
  split; simpl; unfold String.ltb.
  - apply String.eqb_eq.
  - intros a b. rewrite (String.compare_antisym a b).
    destruct (String.compare b a); simpl; congruence.
  - intros a b c.
    destruct (String.compare a b) eqn:Eab; try discriminate.
    destruct (String.compare b c) eqn:Ebc; try discriminate.
    now rewrite (string_compare_lt_trans _ _ _ Eab Ebc).
  - intros a b. rewrite (String.compare_antisym b a).
    destruct (String.compare a b) eqn:E; simpl; try discriminate.
    intros _ _. now apply String.compare_eq_iff.
Qed.

#[global] Instance PyOrdLaws_pair {A B : Type} `{PyOrdLaws A} `{PyOrdLaws B} :
  PyOrdLaws (A * B).
Proof.
  split; simpl.
  - intros [a b] [a' b']; simpl. rewrite andb_true_iff. split.
    + intros [E1 E2]. apply py_eqb_true in E1, E2. now subst.
    + intros E. inversion E. split; apply py_eqb_refl.
  - intros [a b] [a' b']; simpl.
    destruct (py_eqb a a') eqn:E.
    + apply py_eqb_true in E. subst a'.
      rewrite (py_eqb_refl a). apply py_ltb_asym.
    + intros Hlt. destruct (py_eqb a' a) eqn:E'.
      * apply py_eqb_true in E'. subst a'. now rewrite py_ltb_irrefl in Hlt.
      * now apply py_ltb_asym.
  - intros [a b] [a' b'] [a'' b'']; simpl.
    destruct (py_eqb a a') eqn:E1.
    + apply py_eqb_true in E1. subst a'.
      destruct (py_eqb a a''); [apply py_ltb_trans | auto].
    + destruct (py_eqb a' a'') eqn:E2.
      * apply py_eqb_true in E2. subst a''. rewrite E1. auto.
      * intros Hx Hy. pose proof (py_ltb_trans _ _ _ Hx Hy) as H3.
        destruct (py_eqb a a'') eqn:E3; [| exact H3].
        apply py_eqb_true in E3. subst a''. now rewrite py_ltb_irrefl in H3.
  - intros [a b] [a' b']; simpl.
    destruct (py_eqb a a') eqn:E.
    + apply py_eqb_true in E. subst a'.
      rewrite (py_eqb_refl a).
      intros Hx Hy. now rewrite (py_ltb_connex _ _ Hx Hy).
    + destruct (py_eqb a' a) eqn:E'.
      * apply py_eqb_true in E'. subst a'.
        rewrite (py_eqb_refl a) in E. discriminate.
      * intros Hx Hy. rewrite (py_ltb_connex _ _ Hx Hy) in E.
        rewrite (py_eqb_refl a') in E. discriminate.
Qed.

Section StableSortCorrect.
Context {K A : Type} `{PyOrdLaws K}.

Lemma insert_keyed_perm (x : K * A) (l : list (K * A)) :
  Permutation (x :: l) (insert_keyed x l).
Proof.
  induction l as [|y l IH]; simpl; [reflexivity |].
  destruct (py_ltb (fst y) (fst x)); [| reflexivity].
  rewrite perm_swap. now apply perm_skip.
Qed.

Lemma sort_keyed_perm (l : list (K * A)) : Permutation l (sort_keyed l).
Proof.
  induction l as [|x l IH]; simpl; [reflexivity |].
  rewrite <- insert_keyed_perm. now apply perm_skip.
Qed.

Lemma insert_keyed_sorted (x : K * A) (l : list (K * A)) :
  StronglySorted keyed_le l -> StronglySorted keyed_le (insert_keyed x l).
Proof.
  induction 1 as [|y l Hl IH Hy]; simpl.
  - constructor; constructor.
  - destruct (py_ltb (fst y) (fst x)) eqn:E.
    + constructor; [exact IH |].
      rewrite <- insert_keyed_perm. constructor; [| exact Hy].
      unfold keyed_le, py_le. now apply py_ltb_asym.
    + constructor; [now constructor |].
      constructor; [exact E |].
      rewrite Forall_forall in *. intros z Hz.
      eapply py_le_trans; [exact E | now apply Hy].
Qed.

Lemma sort_keyed_sorted (l : list (K * A)) : StronglySorted keyed_le (sort_keyed l).
Proof.
  induction l as [|x l IH]; simpl; [constructor | now apply insert_keyed_sorted].
Qed.

(** Stability: the items of one key keep their relative order. *)
Lemma insert_keyed_stable (k : K) (x : K * A) (l : list (K * A)) :
  filter (fun y => py_eqb (fst y) k) (insert_keyed x l)
  = filter (fun y => py_eqb (fst y) k) (x :: l).
Proof.
  induction l as [|y l IH]; [reflexivity |].
  cbn [insert_keyed]. destruct (py_ltb (fst y) (fst x)) eqn:E; [| reflexivity].
  cbn [filter] in *. rewrite IH.
  destruct (py_eqb (fst x) k) eqn:Ex, (py_eqb (fst y) k) eqn:Ey; try reflexivity.
  apply py_eqb_true in Ex, Ey. rewrite Ex, Ey in E.
  now rewrite py_ltb_irrefl in E.
Qed.

Lemma sort_keyed_stable (k : K) (l : list (K * A)) :
  filter (fun y => py_eqb (fst y) k) (sort_keyed l)
  = filter (fun y => py_eqb (fst y) k) l.
Proof.
  induction l as [|x l IH]; [reflexivity |].
  cbn [sort_keyed]. rewrite insert_keyed_stable. cbn [filter]. now rewrite IH.
Qed.

Lemma sort_keyed_keys (key : A -> K) (l : list (K * A)) :
  Forall (fun y => fst y = key (snd y)) l ->
  Forall (fun y => fst y = key (snd y)) (sort_keyed l).
Proof.
  intros Hl. rewrite Forall_forall in *. intros y Hy.
  apply Hl. now rewrite (sort_keyed_perm l).
Qed.

Variable key : A -> K.

Lemma sorted_by_perm (l : list A) : Permutation l (sorted_by key l).
Proof.
  unfold sorted_by. rewrite <- sort_keyed_perm, map_map. simpl.
  now rewrite map_id.
Qed.

Lemma decorated_keys (l : list A) :
  Forall (fun y => fst y = key (snd y)) (map (fun x => (key x, x)) l).
Proof. induction l; simpl; constructor; auto. Qed.

Lemma sorted_map_snd (l : list (K * A)) :
  Forall (fun y => fst y = key (snd y)) l ->
  StronglySorted keyed_le l ->
  StronglySorted (fun a b => py_le (key a) (key b)) (map snd l).
Proof.
  intros Hk Hs. induction Hs as [|y l Hl IH Hy]; simpl; [constructor |].
  inversion Hk as [|? ? Ey Hk']; subst.
  constructor; [now apply IH |].
  rewrite Forall_forall in *. intros b Hb.
  apply in_map_iff in Hb. destruct Hb as [z [<- Hz]].
  rewrite <- Ey, <- (Hk' z Hz). now apply Hy.
Qed.

Lemma sorted_by_sorted (l : list A) :
  StronglySorted (fun a b => py_le (key a) (key b)) (sorted_by key l).
Proof.
  unfold sorted_by. apply sorted_map_snd.
  - apply sort_keyed_keys, decorated_keys.
  - apply sort_keyed_sorted.
Qed.

Lemma filter_map_snd (k : K) (l : list (K * A)) :
  Forall (fun y => fst y = key (snd y)) l ->
  filter (fun a => py_eqb (key a) k) (map snd l)
  = map snd (filter (fun y => py_eqb (fst y) k) l).
Proof.
  induction 1 as [|y l Ey Hl IH]; [reflexivity |].
  cbn [map filter]. rewrite IH, <- Ey.
  now destruct (py_eqb (fst y) k).
Qed.

Lemma sorted_by_stable (k : K) (l : list A) :
  filter (fun a => py_eqb (key a) k) (sorted_by key l)
  = filter (fun a => py_eqb (key a) k) l.
Proof.
  unfold sorted_by.
  rewrite filter_map_snd by apply sort_keyed_keys, decorated_keys.
  rewrite sort_keyed_stable.
  rewrite <- filter_map_snd by apply decorated_keys.
  rewrite map_map. simpl. now rewrite map_id.
Qed.
End StableSortCorrect.

(** A comprehension none of whose items raises. *)
Lemma mapM_ok {A B : Type} (f : A -> Result B) (g : A -> B) (l : list A) :
  Forall (fun x => f x = Ok (g x)) l -> mapM f l = Ok (map g l).
Proof.
  induction 1 as [|x l Hx Hl IH]; [reflexivity |].
  simpl. now rewrite Hx, IH.
Qed.

(** A sort none of whose keys raises is the sort by these keys. *)
Lemma sorted_by_raising_ok {K A : Type} `{PyOrd K}
      (key : A -> Result K) (key' : A -> K) (l : list A) :
  Forall (fun x => key x = Ok (key' x)) l ->
  sorted_by_raising key l = Ok (sorted_by key' l).
Proof.
  intros Hl. unfold sorted_by_raising, sorted_by.
  rewrite (mapM_ok _ (fun x => (key' x, x))); [reflexivity |].
  eapply Forall_impl; [| exact Hl]. intros x Hx. simpl. now rewrite Hx.
Qed.

Lemma mapM_inv_ok {A B : Type} (f : A -> Result B) (l : list A) (ys : list B) :
  mapM f l = Ok ys -> Forall (fun x => exists y, f x = Ok y) l.
Proof.
  revert ys. induction l as [|x l IH]; intros ys; cbn [mapM]; [constructor |].
  destruct (f x) as [y |] eqn:E; cbn [bind]; [| discriminate].
  destruct (mapM f l) as [ys' |]; cbn [bind]; [| discriminate].
  intros _. constructor; eauto.
Qed.

Lemma mapM_inv_raise {A B : Type} (f : A -> Result B) (l : list A) (e : exn) :
  mapM f l = Raise e -> exists x, In x l /\ f x = Raise e.
Proof.
  induction l as [|x l IH]; cbn [mapM]; [discriminate |].
  destruct (f x) as [y |e'] eqn:E; cbn [bind].
  - destruct (mapM f l) as [ys' |e'']; cbn [bind]; [discriminate |].
    intros [= <-]. destruct (IH eq_refl) as (z & Hz & Hf). exists z. split; [now right | exact Hf].
  - intros [= <-]. exists x. split; [now left | exact E].
Qed.

(** A sort that returns has computed every key. *)
Lemma sorted_by_raising_inv_ok {K A : Type} `{PyOrd K}
      (key : A -> Result K) (l r : list A) :
  sorted_by_raising key l = Ok r -> Forall (fun x => exists k, key x = Ok k) l.
Proof.
  unfold sorted_by_raising.
  destruct (mapM _ l) as [keyed |] eqn:E; cbn [bind]; [| discriminate].
  intros _. apply mapM_inv_ok in E. eapply Forall_impl; [| exact E].
  intros x [y Hy]. cbn beta in Hy. destruct (key x) as [k |]; [eauto | discriminate].
Qed.

(** A sort that raises does so on the key of one of the items. *)
Lemma sorted_by_raising_inv_raise {K A : Type} `{PyOrd K}
      (key : A -> Result K) (l : list A) (e : exn) :
  sorted_by_raising key l = Raise e -> exists x, In x l /\ key x = Raise e.
Proof.
  unfold sorted_by_raising.
  destruct (mapM _ l) as [keyed |e'] eqn:E; cbn [bind]; [discriminate |].
  intros [= <-]. apply mapM_inv_raise in E. destruct E as (x & Hx & Hk).
  exists x. split; [exact Hx |]. cbn beta in Hk.
  destruct (key x) as [k |]; [discriminate |]. cbn [bind] in Hk. now injection Hk as ->.
Qed.



(** ** Integer literals *)

Lemma is_digit_not_space (c : ascii) : Py.is_digit c = true -> Py.isspace_int c = false.
Proof.
  unfold Py.is_digit, Py.isspace_int. cbv zeta.
  rewrite andb_true_iff, !Nat.leb_le. intros [H1 H2].
  apply orb_false_iff; split.
  - apply andb_false_iff. right. apply Nat.leb_gt. lia.
  - apply Nat.eqb_neq. lia.
Qed.

Lemma rstrip_all_digits (s : string) :
  Py.all_digits s = true -> Py.rstrip_by Py.isspace_int s = s.
Proof.
  induction s as [|c s IH]; [reflexivity |].
  simpl. rewrite andb_true_iff. intros [Hc Hs].
  rewrite (IH Hs), (is_digit_not_space c Hc). now destruct s.
Qed.

(** [int] finds no white space to skip around a text made of digits. *)
Lemma strip_digits (c : ascii) (s : string) :
  Py.is_digit c = true -> Py.all_digits s = true ->
  Py.rstrip_by Py.isspace_int (Py.lstrip_by Py.isspace_int (String c s)) = String c s.
Proof.
  intros Hc Hs. simpl Py.lstrip_by.
  rewrite (is_digit_not_space c Hc). apply rstrip_all_digits.
  simpl. now rewrite Hc, Hs.
Qed.


(** An ASCII text is read as it stands. *)
Lemma int_ascii (s : string) : Py.is_ascii s = true -> Py.int s = Py.int_literal s.
Proof. unfold Py.int, Py.decimal_and_space_to_ascii. now intros ->. Qed.

Lemma int_or_raise_cases (s : string) :
  (exists z, Py.int s = Some z /\ Py.int_or_raise s = Ok z)
  \/ (Py.int s = None /\ Py.int_or_raise s = Raise (invalid_literal s)).
Proof.
  unfold Py.int_or_raise, invalid_literal. destruct (Py.int s) as [z |]; eauto.
Qed.

(** The guarded [[int(x) if x.isdigit() else default]]: it returns where
    the text has a rank and raises on the other texts. *)
Lemma guarded_int_cases (x : string) (default : Z) :
  (readable x = true
   /\ (if Py.isdigit x then Py.int_or_raise x else Ok default)
      = Ok (if Py.isdigit x then match Py.int x with Some n => n | None => default end
            else default))
  \/ (readable x = false /\ Py.isdigit x = true /\ Py.int x = None
      /\ (if Py.isdigit x then Py.int_or_raise x else Ok default) = Raise (invalid_literal x)).
Proof.
  unfold readable. destruct (Py.isdigit x); cbn [negb orb]; [| now left].
  destruct (int_or_raise_cases x) as [[z [Hz ->]] | [Hz ->]]; rewrite Hz; auto.
Qed.

(** ** Dictionaries *)

Lemma dict_get_in {V : Type} (k : string) (d : dict V) :
  In k (dict_keys d) -> exists v, dict_get k d = Some v /\ In (k, v) d.
Proof.
  induction d as [|[k' v'] d IH]; simpl; [tauto |].
  destruct (String.eqb k' k) eqn:E.
  - apply String.eqb_eq in E. subst. intros _. exists v'. auto.
  - intros [-> | Hin]; [now rewrite String.eqb_refl in E |].
    destruct (IH Hin) as [v [Hv Hin']]. exists v. auto.
Qed.

Lemma dict_get_some_in {V : Type} (k : string) (v : V) (d : dict V) :
  dict_get k d = Some v -> In (k, v) d.
Proof.
  induction d as [|[k' v'] d IH]; simpl; [discriminate |].
  destruct (String.eqb k' k) eqn:E.
  - apply String.eqb_eq in E. intros [= ->]. subst. auto.
  - auto.
Qed.

(** ** What the extraction binds *)

Lemma spell_sort_key_cases (x : Spell.t) :
  (readable (Spell.level x) = true /\ spell_sort_key x = Ok (spell_key x))
  \/ (readable (Spell.level x) = false
      /\ spell_sort_key x = Raise (invalid_literal (Spell.level x))).
Proof.
  unfold spell_sort_key, spell_key, spell_level_key.
  destruct (guarded_int_cases (Spell.level x) 99) as [[Hr ->] | (Hr & _ & _ & ->)];
    cbn [bind]; auto.
Qed.

Lemma spells_loop (powers : list Element) (spells : list Spell.t) :
  fold_left spells_step powers spells
  = (spells ++ map spell_of (filter is_spell_entry powers))%list.
Proof.
  revert spells. induction powers as [|p powers IH]; intros spells; simpl.
  - now rewrite app_nil_r.
  - rewrite IH. unfold spells_step, append.
    destruct (is_spell_entry p); [| reflexivity].
    simpl. now rewrite <- app_assoc.
Qed.

(** The sort of the spells returns when every spell has a level with a
    rank, and raises the ValueError of one that has not otherwise. *)
Lemma extract_spells_cases (char : Element) :
  let spells := map spell_of (filter is_spell_entry (iter (find char "powers"))) in
  (Forall (fun x => readable (Spell.level x) = true) spells
   /\ extract_spells char = Ok (sorted_by spell_key spells))
  \/ (exists x,
        In x spells /\ readable (Spell.level x) = false
        /\ extract_spells char = Raise (invalid_literal (Spell.level x))).
Proof.
  cbv zeta. unfold extract_spells. rewrite spells_loop. cbn [app].
  set (spells := map spell_of _).
  destruct (sorted_by_raising spell_sort_key spells) as [r |e] eqn:E.
  - left. pose proof E as E'. apply sorted_by_raising_inv_ok in E.
    assert (Hall : Forall (fun x => readable (Spell.level x) = true) spells).
    { eapply Forall_impl; [| exact E]. intros x [k Hk].
      destruct (spell_sort_key_cases x) as [[Hr _] | [_ Hx]]; [exact Hr | congruence]. }
    split; [exact Hall |]. rewrite <- E'.
    apply sorted_by_raising_ok. eapply Forall_impl; [| exact Hall].
    intros x Hx. destruct (spell_sort_key_cases x) as [[_ Hk] | [Hr _]]; [exact Hk | congruence].
  - right. apply sorted_by_raising_inv_raise in E. destruct E as (x & Hx & Hk).
    exists x. split; [exact Hx |].
    destruct (spell_sort_key_cases x) as [[_ Hk'] | [Hr Hk']]; [congruence |].
    split; [exact Hr |]. congruence.
Qed.

(** The extraction returns exactly when the sort of the spells does. *)
Lemma extract_cases (char : Element) :
  (exists spells m, extract_spells char = Ok spells /\ extract char = Ok m)
  \/ (exists e, extract_spells char = Raise e /\ extract char = Raise e).
Proof.
  unfold extract. destruct (extract_classes char) as [total_level classes_info].
  destruct (extract_spells char) as [spells |e]; cbn [bind]; eauto.
Qed.

(** The fields of an extracted model, one equation each. *)
Lemma extract_fields (char : Element) (m : Character.t) :
  extract char = Ok m ->
  Character.total_level m = fst (extract_classes char)
  /\ Character.classes_info m = snd (extract_classes char)
  /\ Character.prof_bonus m = get_proficiency_bonus (VInt (fst (extract_classes char)))
  /\ Character.skills m = extract_skills char
  /\ extract_spells char = Ok (Character.spells m)
  /\ Character.spell_slots m = extract_spell_slots char
  /\ Character.sorcery_points m = find_sorcery_points (iter (find char "powers")) None.
Proof.
  unfold extract. destruct (extract_classes char) as [total_level classes_info].
  destruct (extract_spells char) as [spells | e]; cbn [bind]; [| discriminate].
  intros [= <-]. cbn. repeat split; reflexivity.
Qed.

Lemma classes_step_eq (total : Z) (infos : list ClassInfo.t) (cls : Element) :
  classes_step (total, infos) cls
  = ((total + level_value cls)%Z, append infos (class_info_of cls)).
Proof.
  unfold classes_step, level_value, class_info_of. f_equal.
  destruct (Py.int _); lia.
Qed.

Lemma classes_loop (classes : list Element) (total : Z) (infos : list ClassInfo.t) :
  fold_left classes_step classes (total, infos)
  = ((total + fold_right Z.add 0 (map level_value classes))%Z,
     (infos ++ map class_info_of classes)%list).
Proof.
  revert total infos. induction classes as [|cls classes IH]; intros total infos;
    cbn [fold_left map fold_right].
  - now rewrite Z.add_0_r, app_nil_r.
  - rewrite classes_step_eq, IH. f_equal.
    + lia.
    + unfold append. now rewrite <- app_assoc.
Qed.

Lemma extract_classes_spec (char : Element) :
  extract_classes char
  = (fold_right Z.add 0%Z (map level_value (iter (find char "classes"))),
     map class_info_of (iter (find char "classes"))).
Proof. unfold extract_classes. now rewrite classes_loop. Qed.

(** ** Proficiency bonus *)

(** C2, as amended.  In the model that the extraction of a character
    record returns, [total_level] is the sum of the class levels, a level
    that [int] rejects adding 0, and the proficiency bonus is
    [2 + floor((total_level - 1) / 4)] for every total level: there is no
    clamp, so the bonus is at least 2 from total level 1 on and at most 1
    for a total level of 0 or less. *)
Theorem proficiency_bonus_follows_floor_formula (char : Element) (m : Character.t) :
  extract char = Ok m ->
  Character.total_level m
  = fold_right Z.add 0%Z (map level_value (iter (find char "classes")))
  /\ Character.prof_bonus m = (2 + (Character.total_level m - 1) / 4)%Z
  /\ ((1 <= Character.total_level m)%Z -> (2 <= Character.prof_bonus m)%Z)
  /\ ((Character.total_level m <= 0)%Z -> (Character.prof_bonus m <= 1)%Z).
Proof.
  intros Hm.
  destruct (extract_fields char m Hm) as (Ht & _ & Hp & _).
  rewrite extract_classes_spec in Ht, Hp. cbn [fst] in Ht, Hp.
  rewrite <- Ht in Hp. unfold get_proficiency_bonus in Hp. cbn [int_of] in Hp.
  repeat split; auto; rewrite Hp; intros H.
  - assert (0 <= (Character.total_level m - 1) / 4)%Z
      by (apply Z.div_pos; lia). lia.
  - assert ((Character.total_level m - 1) / 4 < 0)%Z
      by (apply Z.div_lt_upper_bound; lia). lia.
Qed.

(** The levels [3], Arabic-Indic two and [third] add up to 5, and the bonus
    is 3. *)
Lemma proficiency_bonus_follows_floor_formula_witness :
  exists m,
    extract sample_classes = Ok m
    /\ Character.total_level m = 5%Z
    /\ Character.prof_bonus m = 3%Z
    /\ Character.total_level m
       = fold_right Z.add 0%Z (map level_value (iter (find sample_classes "classes")))
    /\ Character.prof_bonus m = (2 + (Character.total_level m - 1) / 4)%Z
    /\ ((1 <= Character.total_level m)%Z -> (2 <= Character.prof_bonus m)%Z)
    /\ ((Character.total_level m <= 0)%Z -> (Character.prof_bonus m <= 1)%Z).
Proof.
  eexists. split; [vm_compute; reflexivity |].
  split; [reflexivity |]. split; [reflexivity |].
  apply (proficiency_bonus_follows_floor_formula sample_classes). vm_compute; reflexivity.
Defined.

(** C2, counterexample.  A character record without class entries has total
    level 0 and proficiency bonus 1, not 2; a single class entry of level
    [-7] gives total level -7 and bonus 0. *)
Lemma proficiency_bonus_is_not_clamped :
  (exists m, extract (node "character" []) = Ok m
             /\ Character.total_level m = 0%Z
             /\ Character.prof_bonus m = 1%Z
             /\ Character.prof_bonus m <> 2%Z)
  /\ (exists m, extract (node "character"
                           [node "classes" [node "id-00001" [leaf "level" "-7"]]]) = Ok m
                /\ Character.total_level m = (-7)%Z
                /\ Character.prof_bonus m = 0%Z
                /\ Character.prof_bonus m <> 2%Z).
Proof. split; eexists; (split; [vm_compute; reflexivity |]); repeat split; discriminate. Qed.

(** ** Class entries *)

(** C9, as amended.  The class entries of the model that the extraction
    returns are the class elements of the source in document order; the
    [level] of an entry is the text of the source level, unchanged, and the
    empty text when the source has none.  Only the total level is an
    integer: it adds [int(level)] for a level that parses and 0 for one
    that does not. *)
Theorem class_level_is_the_source_text (char : Element) (m : Character.t) :
  extract char = Ok m ->
  map ClassInfo.level (Character.classes_info m)
  = map (fun cls => safe_get_text (Some cls) "level" "") (iter (find char "classes"))
  /\ Character.classes_info m = map class_info_of (iter (find char "classes"))
  /\ Character.total_level m
     = fold_right Z.add 0%Z (map level_value (iter (find char "classes")))
  /\ (forall cls, Py.int (safe_get_text (Some cls) "level" "") = None ->
                  level_value cls = 0%Z).
Proof.
  intros Hm.
  destruct (extract_fields char m Hm) as (Ht & Hc & _).
  rewrite extract_classes_spec in Ht, Hc. cbn [fst snd] in Ht, Hc.
  repeat split; auto.
  - rewrite Hc, map_map. reflexivity.
  - intros cls H. unfold level_value. now rewrite H.
Qed.

Lemma class_level_is_the_source_text_witness :
  exists m,
    extract sample_classes = Ok m
    /\ map ClassInfo.level (Character.classes_info m) = ["3"; "٢"; "third"]
    /\ map ClassInfo.level (Character.classes_info m)
       = map (fun cls => safe_get_text (Some cls) "level" "")
             (iter (find sample_classes "classes"))
    /\ Character.classes_info m = map class_info_of (iter (find sample_classes "classes"))
    /\ Character.total_level m
       = fold_right Z.add 0%Z (map level_value (iter (find sample_classes "classes")))
    /\ (forall cls, Py.int (safe_get_text (Some cls) "level" "") = None ->
                    level_value cls = 0%Z).
Proof.
  eexists. split; [vm_compute; reflexivity |].
  split; [reflexivity |].
  apply (class_level_is_the_source_text sample_classes). vm_compute; reflexivity.
Defined.

(** C9, counterexample.  A class entry whose level is the text [third] is
    kept with that text: the level of the entry is not an integer, and it is
    not 0. *)
Lemma class_level_is_not_an_integer :
  exists m,
    extract (node "character"
               [node "classes" [node "id-00001" [leaf "name" "Bard"; leaf "level" "third"]]])
    = Ok m
    /\ Character.classes_info m
       = [{| ClassInfo.name := "Bard"; ClassInfo.level := "third";
             ClassInfo.specialization := "" |}]
    /\ Py.int "third" = None
    /\ map ClassInfo.level (Character.classes_info m) <> ["0"].
Proof.
  eexists. split; [vm_compute; reflexivity |].
  repeat split; try (vm_compute; reflexivity). discriminate.
Qed.

(** ** Spells *)

Lemma truthy_iff (s : string) : Py.truthy s = true <-> s <> "".
Proof.
  destruct s; simpl; split; intros H; try discriminate; try reflexivity.
  now contradiction H.
Qed.

Lemma is_spell_entry_iff (power : Element) :
  is_spell_entry power = true <-> qualifies_as_spell power.
Proof.
  unfold is_spell_entry, qualifies_as_spell. cbv zeta.
  now rewrite andb_true_iff, orb_true_iff, !truthy_iff.
Qed.


Lemma string_ltb_false_leb (a b : string) : String.ltb b a = false -> String.leb a b = true.
Proof.
  unfold String.ltb, String.leb. rewrite (String.compare_antisym a b).
  destruct (String.compare b a); simpl; congruence.
Qed.


Lemma StronglySorted_impl {A : Type} (R S : A -> A -> Prop) (l : list A) :
  (forall a b, R a b -> S a b) -> StronglySorted R l -> StronglySorted S l.
Proof.
  intros HRS. induction 1 as [|x l Hl IH Hx]; constructor; auto.
  eapply Forall_impl; [| exact Hx]. auto.
Qed.


(** The spells that the extraction returns all have a level with a rank. *)
Lemma extract_spells_readable (char : Element) (spells : list Spell.t) :
  extract_spells char = Ok spells ->
  spells = sorted_by spell_key
             (map spell_of (filter is_spell_entry (iter (find char "powers"))))
  /\ Forall (fun x => readable (Spell.level x) = true) spells.
Proof.
  intros Hs. destruct (extract_spells_cases char) as [[Hall E] | (x & _ & _ & E)];
    [| congruence].
  rewrite E in Hs. injection Hs as <-. split; [reflexivity |].
  apply Forall_forall. intros x Hx.
  rewrite <- (sorted_by_perm spell_key) in Hx.
  revert x Hx. now apply Forall_forall.
Qed.



(** ** The document only grows *)

Lemma extends_refl (h : string) : extends h h.
Proof. exists "". now rewrite append_nil_r. Qed.

Lemma extends_app (h s : string) : extends h (h ++ s).
Proof. now exists s. Qed.

Lemma extends_trans (a b c : string) : extends a b -> extends b c -> extends a c.
Proof. intros [s ->] [t ->]. exists (s ++ t). apply append_assoc. Qed.

Lemma extends_app_r (a b s : string) : extends a b -> extends a (b ++ s).
Proof. intros H. eapply extends_trans; [exact H | apply extends_app]. Qed.

Lemma fold_left_extends {A : Type} (f : string -> A -> string) (l : list A) :
  (forall h x, extends h (f h x)) -> forall h, extends h (fold_left f l h).
Proof.
  intros Hf. induction l as [|x l IH]; intros h; simpl.
  - apply extends_refl.
  - eapply extends_trans; [apply Hf | apply IH].
Qed.

Lemma foldM_extends {A : Type} (f : string -> A -> Result string) (l : list A) :
  (forall h x h', f h x = Ok h' -> extends h h') ->
  forall h h', foldM f l h = Ok h' -> extends h h'.
Proof.
  intros Hf. induction l as [|x l IH]; intros h h'; simpl.
  - intros [= <-]. apply extends_refl.
  - destruct (f h x) as [h1 |] eqn:E; simpl; [| discriminate].
    intros H. eapply extends_trans; [apply (Hf _ _ _ E) | apply (IH _ _ H)].
Qed.

Create HintDb extends.
#[local] Hint Resolve extends_refl extends_app extends_app_r : extends.

Lemma spell_step_extends (h : string) (spell : Spell.t) : extends h (spell_step h spell).
Proof.
  unfold spell_step. cbv zeta.
  destruct (Py.truthy (Spell.school spell)), (Py.truthy (Spell.description spell));
    auto 6 with extends.
Qed.

Lemma slot_level_step_extends (spell_slots : dict Slots.t) (h : string) (level : string)
      (h' : string) :
  slot_level_step spell_slots h level = Ok h' -> extends h h'.
Proof.
  unfold slot_level_step.
  destruct (dict_lookup level spell_slots) as [entry |]; simpl; [| discriminate].
  destruct (Py.int_or_raise (Slots.max entry)) as [max_slots |]; simpl; [| discriminate].
  destruct (Py.int_or_raise (Slots.used entry)) as [used_slots |]; simpl; [| discriminate].
  intros [= <-]. apply extends_app_r.
  eapply extends_trans; [apply extends_app |].
  apply fold_left_extends. intros h0 i. unfold bubble_step. auto with extends.
Qed.

Lemma spell_group_step_extends (d : dict (list Spell.t)) (h : string) (level : string)
      (h' : string) :
  spell_group_step d h level = Ok h' -> extends h h'.
Proof.
  unfold spell_group_step.
  destruct (dict_lookup level d) as [level_spells |]; simpl; [| discriminate].
  intros [= <-]. apply extends_app_r.
  eapply extends_trans; [apply extends_app |].
  apply fold_left_extends. apply spell_step_extends.
Qed.

Lemma render_spell_slots_extends (c : Character.t) (h h' : string) :
  render_spell_slots c h = Ok h' -> extends h h'.
Proof.
  unfold render_spell_slots.
  destruct (Character.spell_slots c) as [|kv d] eqn:Ed.
  - intros [= <-]. auto with extends.
  - cbv zeta. destruct (sorted_by_raising _ _) as [levels |]; simpl; [| discriminate].
    destruct (foldM _ (firstn _ _) _) as [h1 |] eqn:E1; simpl; [| discriminate].
    destruct (foldM _ (skipn _ _) _) as [h2 |] eqn:E2; simpl; [| discriminate].
    intros [= <-]. apply extends_app_r.
    apply (foldM_extends _ _ (slot_level_step_extends _)) in E1, E2.
    eapply extends_trans; [| exact E2]. apply extends_app_r.
    eapply extends_trans; [| exact E1]. rewrite append_assoc. auto with extends.
Qed.

Lemma render_spells_extends (c : Character.t) (h h' : string) :
  render_spells c h = Ok h' -> extends h h'.
Proof.
  unfold render_spells. destruct (Character.spells c) as [|s l].
  - intros [= <-]. auto with extends.
  - cbv zeta. destruct (sorted_by_raising _ _) as [levels |]; simpl; [| discriminate].
    destruct (foldM _ _ _) as [h1 |] eqn:E1; simpl; [| discriminate].
    intros [= <-]. apply extends_app_r.
    apply (foldM_extends _ _ (spell_group_step_extends _)) in E1.
    eapply extends_trans; [| exact E1]. auto with extends.
Qed.

Lemma render_features_extends (c : Character.t) (h : string) :
  extends h (render_features c h).
Proof.
  unfold render_features. cbv zeta. apply extends_app_r.
  assert (extends h (fold_left feature_step (Character.features c) h)).
  { apply fold_left_extends. intros h0 x. unfold feature_step. auto with extends. }
  destruct (Character.features c); auto with extends.
Qed.

Lemma render_feats_extends (c : Character.t) (h : string) : extends h (render_feats c h).
Proof.
  unfold render_feats. cbv zeta. apply extends_app_r.
  assert (extends h (fold_left feat_step (Character.feats c) h)).
  { apply fold_left_extends. intros h0 x. unfold feat_step. auto with extends. }
  destruct (Character.feats c); auto with extends.
Qed.

Lemma render_inventory_extends (c : Character.t) (h : string) :
  extends h (render_inventory c h).
Proof.
  unfold render_inventory. cbv zeta. apply extends_app_r.
  assert (extends h (fold_left item_step (Character.inventory c) h)).
  { apply fold_left_extends. intros h0 x. unfold item_step. cbv zeta. auto with extends. }
  destruct (Character.inventory c); auto with extends.
Qed.

Lemma render_coins_extends (c : Character.t) (h : string) : extends h (render_coins c h).
Proof.
  unfold render_coins. cbv zeta. apply extends_app_r.
  apply fold_left_extends. intros h0 x. unfold coin_step. cbv zeta. auto with extends.
Qed.

(** Everything after the skills is appended to what the skills loop
    leaves. *)
Lemma render_after_skills (c : Character.t) (doc : string) :
  render c = Ok doc ->
  extends (render_skills c (render_abilities c (render_header c))) doc.
Proof.
  unfold render. cbv zeta.
  set (h0 := render_skills c (render_abilities c (render_header c))).
  set (h1 := render_coins c _).
  assert (H01 : extends h0 h1).
  { subst h1.
    eapply extends_trans; [| apply render_coins_extends].
    eapply extends_trans; [| apply render_inventory_extends].
    eapply extends_trans; [| apply render_feats_extends].
    eapply extends_trans; [| apply render_features_extends].
    unfold render_vitals. auto with extends. }
  destruct (render_spell_slots c h1) as [h2 |] eqn:E2; simpl; [| discriminate].
  destruct (render_spells c h2) as [h3 |] eqn:E3; simpl; [| discriminate].
  intros [= <-]. apply extends_app_r.
  eapply extends_trans; [exact H01 |].
  eapply extends_trans; [apply (render_spell_slots_extends _ _ _ E2) |].
  apply (render_spells_extends _ _ _ E3).
Qed.

(** ** Skills *)

Lemma extract_skills_spec (char : Element) :
  extract_skills char
  = sorted_by Skill.name (map skill_of (iter (find char "skilllist"))).
Proof. unfold extract_skills. now rewrite fold_left_append_list. Qed.

Lemma render_skills_spec (c : Character.t) (html : string) :
  render_skills c html
  = html ++ Tpl.skills_open ++ String.concat "" (map skill_item (Character.skills c)).
Proof.
  unfold render_skills. cbv zeta.
  rewrite (fold_left_appends skill_step) by reflexivity.
  apply append_assoc.
Qed.

(** C8, as amended.  In every document that is produced the skill entries
    stand, right after the abilities and the skills heading, in ascending
    name order, whatever their order in the source; the order is not
    strict: entries of equal name are all rendered, in their source
    order. *)
Theorem skills_are_rendered_in_ascending_name_order
        (char : Element) (m : Character.t) (doc : string) :
  extract char = Ok m ->
  render m = Ok doc ->
  Permutation (map skill_of (iter (find char "skilllist"))) (Character.skills m)
  /\ StronglySorted (fun a b => String.leb (Skill.name a) (Skill.name b) = true)
                    (Character.skills m)
  /\ (forall name,
        filter (fun s => String.eqb (Skill.name s) name) (Character.skills m)
        = filter (fun s => String.eqb (Skill.name s) name)
                 (map skill_of (iter (find char "skilllist"))))
  /\ exists rest,
       doc = render_abilities m (render_header m) ++ Tpl.skills_open
             ++ String.concat "" (map skill_item (Character.skills m)) ++ rest.
Proof.
  intros He Hr.
  destruct (extract_fields char m He) as (_ & _ & _ & Hs & _).
  rewrite extract_skills_spec in Hs. rewrite Hs.
  split; [apply sorted_by_perm |].
  split.
  { eapply StronglySorted_impl; [| apply sorted_by_sorted].
    intros a b. apply string_ltb_false_leb. }
  split.
  { intros name.
    exact (sorted_by_stable Skill.name name (map skill_of (iter (find char "skilllist")))). }
  destruct (render_after_skills m doc Hr) as [rest ->].
  exists rest. rewrite render_skills_spec, Hs.
  now rewrite !append_assoc.
Qed.

Lemma sample_skills_document :
  exists m doc,
    extract sample_skills = Ok m /\ render m = Ok doc
    /\ map Skill.name (Character.skills m) = ["Arcana"; "Stealth"; "Stealth"]
    /\ Py.contains (String.concat "" (map skill_item (Character.skills m))) doc = true.
Proof.
  eexists. eexists. split; [vm_compute; reflexivity |].
  split; [vm_compute; reflexivity |].
  split; vm_compute; reflexivity.
Qed.

Lemma skills_are_rendered_in_ascending_name_order_witness :
  exists m doc,
    extract sample_skills = Ok m /\ render m = Ok doc
    /\ map Skill.name (Character.skills m) = ["Arcana"; "Stealth"; "Stealth"]
    /\ StronglySorted (fun a b => String.leb (Skill.name a) (Skill.name b) = true)
                      (Character.skills m).
Proof.
  eexists. eexists.
  split; [vm_compute; reflexivity |].
  split; [vm_compute; reflexivity |].
  split; [reflexivity |].
  eapply (skills_are_rendered_in_ascending_name_order sample_skills);
    vm_compute; reflexivity.
Defined.

(** C8, counterexample.  The two Stealth entries of [sample_skills] are both
    in the model and both in the document, one after the other: the names
    are not in strictly ascending order. *)
Lemma equal_skill_names_are_not_strictly_ascending :
  exists m doc,
    extract sample_skills = Ok m /\ render m = Ok doc
    /\ map Skill.name (Character.skills m) = ["Arcana"; "Stealth"; "Stealth"]
    /\ ~ StronglySorted (fun a b => String.ltb a b = true)
                        (map Skill.name (Character.skills m))
    /\ Py.contains (String.concat "" (map skill_item (Character.skills m))) doc = true.
Proof.
  destruct sample_skills_document as (m & doc & He & Hr & Hn & Hc).
  exists m, doc. repeat split; auto.
  rewrite Hn. intros H. inversion H as [|? ? H1 H2]; subst.
  inversion H1 as [|? ? H3 H4]; subst. inversion H4 as [|? ? H5 H6]; subst.
  discriminate H5.
Qed.

(** ** Flattening of inline markup *)

Lemma repeated_iff (earlier : list string) (t : string) :
  existsb (fun e => String.eqb (Py.strip e) t) earlier = true
  <-> exists e, In e earlier /\ Py.strip e = t.
Proof.
  rewrite existsb_exists. split; intros [e [Hin He]]; exists e; split; auto.
  - now apply String.eqb_eq.
  - now apply String.eqb_eq.
Qed.

Lemma mem_cons (t x : string) (l : list string) :
  ET.mem t (x :: l) = String.eqb t x || ET.mem t l.
Proof. reflexivity. Qed.

Lemma seen_tracks_step (seen earlier : list string) (line : string) :
  seen_tracks seen earlier ->
  seen_tracks (if Py.truthy (Py.strip line) && negb (ET.mem (Py.strip line) seen)
               then Py.strip line :: seen else seen)
              (earlier ++ [line]).
Proof.
  intros Hs t Ht. specialize (Hs t Ht).
  assert (Hin : (exists e, In e (earlier ++ [line])%list /\ Py.strip e = t)
                <-> (exists e, In e earlier /\ Py.strip e = t) \/ Py.strip line = t).
  { split.
    - intros [e [Hin He]]. apply in_app_iff in Hin. destruct Hin as [Hin | [<- | []]].
      + left. now exists e.
      + now right.
    - intros [[e [Hin He]] | He].
      + exists e. split; [apply in_app_iff; now left | exact He].
      + exists line. split; [apply in_app_iff; right; now left | exact He]. }
  rewrite Hin. clear Hin.
  destruct (Py.truthy (Py.strip line)) eqn:Et; cbn [andb].
  - destruct (ET.mem (Py.strip line) seen) eqn:Em; cbn [negb].
    + rewrite Hs. split; [tauto |]. intros [H | <-]; [exact H |].
      now apply Hs.
    + rewrite mem_cons, orb_true_iff, String.eqb_eq, Hs. split.
      * intros [-> | H]; tauto.
      * intros [H | <-]; tauto.
  - rewrite Hs. split; [tauto |]. intros [H | He]; [exact H |].
    rewrite He in Et. apply truthy_iff in Ht. congruence.
Qed.

(** The loop with its set [seen] computes the first occurrences. *)
Lemma dedup_loop (lines seen earlier unique_lines : list string) :
  seen_tracks seen earlier ->
  snd (fold_left dedup_step lines (seen, unique_lines))
  = (unique_lines ++ first_occurrences earlier lines)%list.
Proof.
  revert seen earlier unique_lines.
  induction lines as [|line lines IH]; intros seen earlier unique_lines Hs.
  - simpl. now rewrite app_nil_r.
  - cbn [fold_left first_occurrences].
    pose proof (seen_tracks_step seen earlier line Hs) as Hs'.
    unfold dedup_step at 2. cbv beta iota zeta.
    destruct (Py.truthy (Py.strip line)) eqn:Et; cbn [andb negb orb] in *.
    + destruct (ET.mem (Py.strip line) seen) eqn:Em; cbn [negb] in *.
      * rewrite (IH _ _ _ Hs').
        assert (Hr : existsb (fun e => String.eqb (Py.strip e) (Py.strip line)) earlier
                     = true).
        { apply repeated_iff. apply Hs; [now apply truthy_iff | exact Em]. }
        rewrite Hr. reflexivity.
      * rewrite (IH _ _ _ Hs').
        assert (Hr : existsb (fun e => String.eqb (Py.strip e) (Py.strip line)) earlier
                     = false).
        { destruct (existsb _ earlier) eqn:E; [| reflexivity].
          apply repeated_iff in E. apply Hs in E; [congruence | now apply truthy_iff]. }
        rewrite Hr. unfold append. cbn [negb]. now rewrite <- app_assoc.
    + rewrite (IH _ _ _ Hs'). unfold append. now rewrite <- app_assoc.
Qed.

Lemma unique_lines_spec (lines : list string) :
  unique_lines_of lines = first_occurrences [] lines.
Proof.
  unfold unique_lines_of. rewrite (dedup_loop lines [] [] []); [reflexivity |].
  intros t _. cbn. split; [discriminate | intros [e [[] _]]].
Qed.

Lemma parts_joined (element : Element) (text : string) :
  Py.join ""
    (fold_left (fun parts child => append parts (ET.tostring child)) (children element)
               (if Py.truthy text then append [] text else []))
  = text ++ String.concat "" (map ET.tostring (children element)).
Proof.
  rewrite fold_left_append_list. unfold Py.join. rewrite concat_app.
  destruct text; reflexivity.
Qed.

(** C5, as amended.  The flattening of a missing element is the empty text.
    Otherwise it takes the element's own leading text, trimmed, followed by
    the serialized markup of each child in document order; trims the whole;
    splits it at the line feeds; keeps a line when it is blank or when no
    earlier line has the same trimmed content, in the order of the lines;
    joins the kept lines with line feeds and trims the result, so that a
    blank line left at the end by a dropped last line is removed. *)
Theorem formatted_html_keeps_first_occurrences :
  formatted_html None = ""
  /\ forall element : Element,
       formatted_html (Some element)
       = Py.strip
           (Py.join (Py.str1 Py.newline)
              (first_occurrences []
                 (Py.split Py.newline
                    (Py.strip
                       (Py.strip (Py.or_empty (text element))
                        ++ String.concat "" (map ET.tostring (children element))))))).
Proof.
  split; [reflexivity |]. intros element.
  unfold formatted_html. cbv zeta.
  now rewrite unique_lines_spec, parts_joined.
Qed.

(** C5, counterexample.  Of the lines [a], blank, [a] the claim keeps the
    first and the blank one; the code returns [a] alone, the blank line
    being trimmed away after the second [a] is dropped.  A leading space of
    the element's text is trimmed too. *)
Lemma formatted_html_trims_kept_blank_lines :
  formatted_html (Some sample_repeated_line) = "a"
  /\ flatten_as_stated sample_repeated_line = "a
"
  /\ formatted_html (Some sample_repeated_line) <> flatten_as_stated sample_repeated_line
  /\ formatted_html (Some (leaf "description" " a")) = "a"
  /\ flatten_as_stated (leaf "description" " a") = " a".
Proof. repeat split; try reflexivity. discriminate. Qed.

(** ** Spell slots *)




(** A loop whose body, on the items of the list, appends a text that
    depends on the item only. *)
Lemma foldM_appends {A : Type} (f : string -> A -> Result string) (g : A -> string)
      (l : list A) :
  (forall h x, In x l -> f h x = Ok (h ++ g x)) ->
  forall h, foldM f l h = Ok (h ++ String.concat "" (map g l)).
Proof.
  induction l as [|x l IH]; intros Hf h.
  - simpl. now rewrite append_nil_r.
  - cbn [foldM map]. rewrite (Hf h x) by now left. cbn [bind].
    rewrite IH by (intros; apply Hf; now right).
    now rewrite concat_cons, append_assoc.
Qed.

Lemma dict_set_keys {V : Type} (k k' : string) (v : V) (d : dict V) :
  In k' (dict_keys (dict_set k v d)) -> k' = k \/ In k' (dict_keys d).
Proof.
  induction d as [|[k0 v0] d IH]; simpl.
  - intros [<- | []]. now left.
  - destruct (String.eqb k0 k) eqn:E; simpl.
    + intros [<- | H]; auto.
    + intros [<- | H]; auto. destruct (IH H); auto.
Qed.

Lemma dict_set_entries {V : Type} (k k' : string) (v v' : V) (d : dict V) :
  In (k', v') (dict_set k v d) -> (k' = k /\ v' = v) \/ In (k', v') d.
Proof.
  induction d as [|[k0 v0] d IH]; simpl.
  - intros [[= <- <-] | []]. now left.
  - destruct (String.eqb k0 k) eqn:E; simpl.
    + intros [[= <- <-] | H]; auto.
    + intros [H | H]; auto. destruct (IH H); auto.
Qed.

Lemma slots_loop (powermeta_elem : Element) (levels : list Z) (d : dict Slots.t) :
  (forall z, In z levels -> In z slot_levels) ->
  forall level entry,
    In (level, entry) (fold_left (slots_step powermeta_elem) levels d) ->
    In (level, entry) d \/ slot_source powermeta_elem level entry.
Proof.
  revert d. induction levels as [|z levels IH]; intros d Hz level entry; simpl; [auto |].
  intros H. apply IH in H; [| intros; apply Hz; now right].
  destruct H as [H | H]; [| now right].
  unfold slots_step in H.
  destruct (find powermeta_elem ("spellslots" ++ Py.str z)) as [slot_elem |] eqn:Ef;
    [| now left].
  cbv zeta in H.
  destruct (Py.truthy _ && negb _); [| now left].
  apply dict_set_entries in H. destruct H as [[-> ->] | H]; [| now left].
  right. exists z, slot_elem. repeat split; auto. apply Hz. now left.
Qed.

Lemma extract_spell_slots_source (char : Element) (level : string) (entry : Slots.t) :
  In (level, entry) (extract_spell_slots char) ->
  exists powermeta_elem,
    find char "powermeta" = Some powermeta_elem
    /\ slot_source powermeta_elem level entry.
Proof.
  unfold extract_spell_slots.
  destruct (find char "powermeta") as [powermeta_elem |]; [| intros []].
  intros H. exists powermeta_elem. split; [reflexivity |].
  apply slots_loop in H; [| auto]. destruct H as [[] | H]. exact H.
Qed.

Lemma slot_level_int (z : Z) : In z slot_levels -> Py.int (Py.str z) = Some z.
Proof.
  unfold slot_levels. cbn [In].
  intros H. repeat (destruct H as [<- | H]; [reflexivity |]). destruct H.
Qed.

Lemma in_dict_keys {V : Type} (k : string) (v : V) (d : dict V) :
  In (k, v) d -> In k (dict_keys d).
Proof. intros H. apply in_map_iff. now exists (k, v). Qed.

(** The labels of the extracted spell-slot levels are integer literals. *)
Lemma extract_spell_slots_keys (char : Element) (level : string) :
  In level (dict_keys (extract_spell_slots char)) ->
  Py.int_or_raise level = Ok (int_or_zero level) /\ exists z, Py.int level = Some z.
Proof.
  intros H. apply dict_get_in in H. destruct H as [entry [_ H]].
  apply extract_spell_slots_source in H.
  destruct H as (pm & _ & z & slot_elem & Hz & -> & _).
  unfold Py.int_or_raise, int_or_zero. rewrite (slot_level_int z Hz). eauto.
Qed.


Lemma in_firstn {A : Type} (n : nat) (l : list A) (x : A) : In x (firstn n l) -> In x l.
Proof. intros H. rewrite <- (firstn_skipn n l). apply in_or_app. now left. Qed.

Lemma in_skipn {A : Type} (n : nat) (l : list A) (x : A) : In x (skipn n l) -> In x l.
Proof. intros H. rewrite <- (firstn_skipn n l). apply in_or_app. now right. Qed.


(** The slot section of a model with populated levels. *)
Lemma render_spell_slots_nonempty (c : Character.t) (html : string) :
  Character.spell_slots c <> [] ->
  render_spell_slots c html
  = (spell_levels <-
       sorted_by_raising Py.int_or_raise (dict_keys (Character.spell_slots c)) ;;
     let mid_point := ((length spell_levels + 1) / 2)%nat in
     html1 <- foldM (slot_level_step (Character.spell_slots c))
                    (firstn mid_point spell_levels)
                    ((html ++ Tpl.slots_open) ++ Tpl.column_open) ;;
     html2 <- foldM (slot_level_step (Character.spell_slots c))
                    (skipn mid_point spell_levels)
                    (html1 ++ Tpl.column_break) ;;
     Ok (html2 ++ Tpl.slots_close)).
Proof.
  unfold render_spell_slots.
  destruct (Character.spell_slots c); [congruence | reflexivity].
Qed.

(** The sort of the spell-slot levels does not raise: the labels are the
    decimal texts of 1 to 9. *)
Lemma spell_levels_ok (char : Element) :
  sorted_by_raising Py.int_or_raise (dict_keys (extract_spell_slots char))
  = Ok (sorted_by int_or_zero (dict_keys (extract_spell_slots char))).
Proof.
  apply sorted_by_raising_ok. apply Forall_forall. intros level H.
  apply (proj1 (extract_spell_slots_keys char level H)).
Qed.


(** The example of the specification: a level with [max=4] and [used=2]
    renders exactly 4 markers, the first 2 of them checked. *)
Example four_slots_two_used :
  fold_left (bubble_step 2) (py_range 4) ""
  = marker true ++ marker true ++ marker false ++ marker false.
Proof. reflexivity. Qed.


(** ** Sorcery points *)

(** No stage of the rendering reads the sorcery points. *)
Lemma render_ignores_sorcery_points (sp : option Slots.t) (c : Character.t) :
  render (with_sorcery_points sp c) = render c.
Proof. reflexivity. Qed.

(** C10.  Two extracted models that differ at most in their sorcery points
    (present or absent, whatever the values) render alike: the same document,
    or the same failure. *)
Theorem sorcery_points_do_not_reach_the_document
        (char1 char2 : Element) (m1 m2 : Character.t) :
  extract char1 = Ok m1 ->
  extract char2 = Ok m2 ->
  with_sorcery_points None m1 = with_sorcery_points None m2 ->
  render m1 = render m2.
Proof.
  intros _ _ H.
  rewrite <- (render_ignores_sorcery_points None m1).
  rewrite <- (render_ignores_sorcery_points None m2).
  now rewrite H.
Qed.

Lemma sorcery_points_do_not_reach_the_document_witness :
  exists m1 m2,
    extract (sample_sorcerer "5") = Ok m1
    /\ extract (sample_sorcerer "0") = Ok m2
    /\ Character.sorcery_points m1 = Some {| Slots.max := "5"; Slots.used := "2" |}
    /\ Character.sorcery_points m2 = None
    /\ render m1 = render m2.
Proof.
  eexists. eexists.
  split; [vm_compute; reflexivity |].
  split; [vm_compute; reflexivity |].
  split; [reflexivity |]. split; [reflexivity |].
  apply (sorcery_points_do_not_reach_the_document (sample_sorcerer "5") (sample_sorcerer "0"));
    vm_compute; reflexivity.
Defined.

(** ** Failures of the pipeline *)

Lemma foldM_ok {A S : Type} (f : S -> A -> Result S) (l : list A) :
  (forall s x, In x l -> exists s', f s x = Ok s') ->
  forall s, exists s', foldM f l s = Ok s'.
Proof.
  induction l as [|x l IH]; intros Hf s; simpl; [eauto |].
  destruct (Hf s x) as [s1 H1]; [now left |]. rewrite H1. cbn [bind].
  apply IH. intros s0 y Hy. apply Hf. now right.
Qed.

Lemma foldM_raise {A S : Type} (f : S -> A -> Result S) (l : list A) (s : S) (e : exn) :
  foldM f l s = Raise e -> exists x s0, In x l /\ f s0 x = Raise e.
Proof.
  revert s. induction l as [|x l IH]; intros s; simpl; [discriminate |].
  destruct (f s x) as [s1 |e1] eqn:E; cbn [bind].
  - intros H. destruct (IH _ H) as (y & s0 & Hy & Hf). exists y, s0. auto.
  - intros [= <-]. exists x, s. auto.
Qed.

Lemma level_order_key_cases (x : string) :
  (readable x = true /\ level_order_key x = Ok (level_order_key_value x))
  \/ (readable x = false /\ level_order_key x = Raise (invalid_literal x)).
Proof.
  unfold level_order_key, level_order_key_value, int_or_zero. cbv zeta.
  destruct (guarded_int_cases x 0) as [[Hr ->] | (Hr & _ & _ & ->)]; cbn [bind]; auto.
Qed.

(** The label of a group is the level of one of the spells, or [Cantrip]. *)
Lemma group_labels (spells : list Spell.t) (d : dict (list Spell.t)) (label : string) :
  In label (dict_keys (fold_left group_step spells d)) ->
  In label (dict_keys d) \/ label = "Cantrip"
  \/ exists spell, In spell spells /\ label = Spell.level spell.
Proof.
  revert d. induction spells as [|spell spells IH]; intros d; cbn [fold_left]; [auto |].
  intros H. destruct (IH _ H) as [Hd | [Hc | (s & Hs & Hl)]].
  - unfold group_step in Hd. cbv zeta in Hd. apply dict_set_keys in Hd.
    destruct Hd as [-> | Hd]; [| now left].
    right. destruct (_ && _); [| now left].
    right. exists spell. split; [now left | reflexivity].
  - auto.
  - right. right. exists s. split; [now right | exact Hl].
Qed.

(** The key of every group is computed when every spell has a level with a
    rank. *)
Lemma group_keys_ok (spells : list Spell.t) :
  Forall (fun x => readable (Spell.level x) = true) spells ->
  Forall (fun label => level_order_key label = Ok (level_order_key_value label))
         (dict_keys (fold_left group_step spells [])).
Proof.
  intros Hall. apply Forall_forall. intros label Hin.
  assert (Hr : readable label = true).
  { apply group_labels in Hin. destruct Hin as [[] | [-> | (x & Hx & ->)]].
    - vm_compute. reflexivity.
    - rewrite Forall_forall in Hall. now apply Hall. }
  destruct (level_order_key_cases label) as [[_ Hk] | [Hr' _]]; [exact Hk | congruence].
Qed.

(** The spells section returns when every spell has a level with a rank,
    as the spells of an extracted model have. *)
Lemma render_spells_ok (c : Character.t) (html : string) :
  Forall (fun x => readable (Spell.level x) = true) (Character.spells c) ->
  exists html', render_spells c html = Ok html'.
Proof.
  intros Hall.
  unfold render_spells. destruct (Character.spells c) as [|s l] eqn:Es; [eauto |].
  cbv zeta. set (d := fold_left group_step (s :: l) []).
  rewrite (sorted_by_raising_ok level_order_key level_order_key_value)
    by now apply group_keys_ok.
  cbn [bind].
  destruct (foldM_ok (spell_group_step d)
                     (sorted_by level_order_key_value (dict_keys d))) with
    (s := html ++ Tpl.spells_open) as [h1 H1].
  - intros h level Hin.
    rewrite <- (sorted_by_perm level_order_key_value) in Hin.
    destruct (dict_get_in level d Hin) as [level_spells [Hg _]].
    unfold spell_group_step, dict_lookup. rewrite Hg. cbn [bind]. eauto.
  - rewrite H1. cbn [bind]. eauto.
Qed.

(** A spell-slot level makes the rendering raise only through the text of
    its maximum or of its used count. *)
Lemma slot_level_step_raise (spell_slots : dict Slots.t) (html level : string) (e : exn) :
  In level (dict_keys spell_slots) ->
  slot_level_step spell_slots html level = Raise e ->
  exists entry s,
    In (level, entry) spell_slots
    /\ (s = Slots.max entry \/ s = Slots.used entry)
    /\ Py.int s = None /\ e = invalid_literal s.
Proof.
  intros Hin. destruct (dict_get_in level spell_slots Hin) as [entry [Hg Hi]].
  unfold slot_level_step, dict_lookup. rewrite Hg. cbn [bind].
  destruct (int_or_raise_cases (Slots.max entry)) as [[mx [_ ->]] | [Hm ->]]; cbn [bind].
  - destruct (int_or_raise_cases (Slots.used entry)) as [[us [_ ->]] | [Hu ->]]; cbn [bind].
    + discriminate.
    + intros [= <-]. exists entry, (Slots.used entry). auto.
  - intros [= <-]. exists entry, (Slots.max entry). auto.
Qed.

Lemma render_spell_slots_raise (char : Element) (c : Character.t) (html : string) (e : exn) :
  Character.spell_slots c = extract_spell_slots char ->
  render_spell_slots c html = Raise e ->
  exists level entry s,
    In (level, entry) (Character.spell_slots c)
    /\ (s = Slots.max entry \/ s = Slots.used entry)
    /\ Py.int s = None /\ e = invalid_literal s.
Proof.
  intros Hs.
  destruct (Character.spell_slots c) as [|kv d] eqn:Ed.
  { unfold render_spell_slots. rewrite Ed. discriminate. }
  rewrite <- Ed in *. rewrite render_spell_slots_nonempty by (rewrite Ed; discriminate).
  rewrite Hs, spell_levels_ok. cbn [bind]. cbv zeta.
  set (levels := sorted_by int_or_zero (dict_keys (extract_spell_slots char))).
  assert (Hl : forall level, In level levels -> In level (dict_keys (extract_spell_slots char))).
  { intros level H. unfold levels in H. now rewrite <- (sorted_by_perm int_or_zero) in H. }
  destruct (foldM _ (firstn _ _) _) as [h1 |e1] eqn:E1; cbn [bind].
  - destruct (foldM _ (skipn _ _) _) as [h2 |e2] eqn:E2; cbn [bind]; [discriminate |].
    intros [= <-]. apply foldM_raise in E2. destruct E2 as (level & h0 & Hin & Hstep).
    apply in_skipn, Hl in Hin.
    destruct (slot_level_step_raise _ _ _ _ Hin Hstep) as (entry & s & H). eauto.
  - intros [= <-]. apply foldM_raise in E1. destruct E1 as (level & h0 & Hin & Hstep).
    apply in_firstn, Hl in Hin.
    destruct (slot_level_step_raise _ _ _ _ Hin Hstep) as (entry & s & H). eauto.
Qed.

(** Rendering an extracted model raises only if the maximum or the used
    count of a populated spell-slot level is not an integer literal. *)
Lemma render_raise (char : Element) (m : Character.t) (e : exn) :
  extract char = Ok m ->
  render m = Raise e ->
  exists level entry s,
    In (level, entry) (extract_spell_slots char)
    /\ (s = Slots.max entry \/ s = Slots.used entry)
    /\ Py.int s = None /\ e = invalid_literal s.
Proof.
  intros He. destruct (extract_fields char m He) as (_ & _ & _ & _ & Hsp & Hs & _).
  apply extract_spells_readable in Hsp. destruct Hsp as [_ Hall].
  unfold render. cbv zeta. set (h1 := render_coins m _).
  destruct (render_spell_slots m h1) as [h2 |e2] eqn:E2; cbn [bind].
  - destruct (render_spells_ok m h2 Hall) as [h3 ->]. cbn [bind]. discriminate.
  - intros [= <-]. rewrite <- Hs. eapply render_spell_slots_raise; eauto.
Qed.

(** The lookup never raises: a missing element, a missing path and a
    missing or empty text all give the default. *)
Lemma safe_get_text_default (element : option Element) (path default : string) :
  (element = None
   \/ exists e, element = Some e
        /\ (find e path = None
            \/ exists sub, find e path = Some sub /\ (text sub = None \/ text sub = Some ""))) ->
  safe_get_text element path default = default.
Proof.
  intros [-> | (e & -> & [H | (sub & H & [Ht | Ht])])]; simpl;
    rewrite ?H; try reflexivity; rewrite Ht; reflexivity.
Qed.

Lemma safe_get_text_cases (element : Element) (path default : string) :
  safe_get_text (Some element) path default = default
  \/ exists sub t,
       find element path = Some sub /\ text sub = Some t /\ t <> ""
       /\ safe_get_text (Some element) path default = t.
Proof.
  unfold safe_get_text. destruct (find element path) as [sub |]; [| now left].
  destruct (text sub) as [t |] eqn:Et; [| now left].
  destruct t as [|c t]; [now left |].
  right. exists sub, (String c t). repeat split; auto. discriminate.
Qed.

Lemma slot_field_present (slot_elem : Element) (path : string) :
  Py.int (safe_get_text (Some slot_elem) path "0") = None ->
  present_non_integer slot_elem path.
Proof.
  destruct (safe_get_text_cases slot_elem path "0") as [-> | (sub & t & Hf & Ht & Hne & ->)].
  - discriminate.
  - intros H. now exists sub, t.
Qed.

(** The extraction raises only on the level of a power entry that passes
    as a spell: a text that is present, that [isdigit] accepts and that
    [int] rejects. *)
Lemma extract_raise (char : Element) (e : exn) :
  extract char = Raise e ->
  exists powers_elem power,
    find char "powers" = Some powers_elem
    /\ In power (children powers_elem)
    /\ is_spell_entry power = true
    /\ readable (safe_get_text (Some power) "level" "") = false
    /\ present_unreadable power "level"
    /\ e = invalid_literal (safe_get_text (Some power) "level" "").
Proof.
  intros He.
  destruct (extract_cases char) as [(spells & m & _ & Hm) | (e' & Hs & He')]; [congruence |].
  assert (e' = e) by congruence. subst e'. clear He'.
  destruct (extract_spells_cases char) as [[_ E] | (x & Hx & Hr & E)]; [congruence |].
  apply in_map_iff in Hx. destruct Hx as (power & <- & Hp).
  apply filter_In in Hp. destruct Hp as [Hin Hq].
  destruct (find char "powers") as [powers_elem |] eqn:Ef; [| destruct Hin].
  exists powers_elem, power. cbn [iter] in Hin.
  change (Spell.level (spell_of power)) with (safe_get_text (Some power) "level" "") in *.
  repeat split; auto; [| congruence].
  unfold readable in Hr. apply orb_false_iff in Hr. destruct Hr as [Hd Hi].
  apply negb_false_iff in Hd.
  destruct (safe_get_text_cases power "level" "") as [E0 | (sub & t & Hf & Ht & _ & Et)].
  - rewrite E0 in Hd. discriminate Hd.
  - rewrite Et in Hd, Hi. exists sub, t. repeat split; auto.
    now destruct (Py.int t).
Qed.

(** C1.  When the parsed tree has no character record the pipeline returns
    no document and the error [Error: No character data found in XML].
    When it has one, the pipeline returns a document, or else an error
    with another message, and that only because a field that is present in
    the tree holds a text that [int] rejects: the level of a power entry
    that passes as a spell, when [isdigit] accepts that level, or the
    maximum or the used count of a spell-slot level.  No missing field
    leads to an error. *)
Theorem malformed_input_iff_no_character_record (root : Element) :
  (find root "character" = None ->
   parse_fgu_character_to_html (Ok root) = (None, Some no_character_error))
  /\ (forall char,
        find root "character" = Some char ->
        (exists html, parse_fgu_character_to_html (Ok root) = (Some html, None))
        \/ (exists msg,
              parse_fgu_character_to_html (Ok root) = (None, Some msg)
              /\ msg <> no_character_error
              /\ ((exists powers_elem power,
                      find char "powers" = Some powers_elem
                      /\ In power (children powers_elem)
                      /\ qualifies_as_spell power
                      /\ present_unreadable power "level")
                  \/ (exists powermeta_elem slot_level slot_elem path,
                        find char "powermeta" = Some powermeta_elem
                        /\ In slot_level slot_levels
                        /\ find powermeta_elem ("spellslots" ++ Py.str slot_level)
                           = Some slot_elem
                        /\ (path = "max" \/ path = "used")
                        /\ present_non_integer slot_elem path)))).
Proof.
  split.
  - intros H. unfold parse_fgu_character_to_html. cbn [bind]. now rewrite H.
  - intros char H. unfold parse_fgu_character_to_html. cbn [bind]. rewrite H.
    destruct (extract char) as [m |e] eqn:Hm; cbn [bind].
    + destruct (render m) as [html |e] eqn:Er; cbn [bind].
      * left. eauto.
      * right.
        destruct (render_raise char m e Hm Er) as (level & entry & s & Hin & Hs & Hi & ->).
        exists (str_exn (invalid_literal s)). split; [reflexivity |].
        split; [discriminate |]. right.
        destruct (extract_spell_slots_source char level entry Hin)
          as (pm & Hpm & z & slot_elem & Hz & _ & Hf & ->).
        exists pm, z, slot_elem.
        destruct Hs as [-> | ->]; [exists "max" | exists "used"];
          repeat split; auto; now apply slot_field_present.
    + right.
      destruct (extract_raise char e Hm) as (pe & power & Hf & Hin & Hq & _ & Hu & ->).
      exists (str_exn (invalid_literal (safe_get_text (Some power) "level" ""))).
      split; [reflexivity |]. split; [discriminate |]. left.
      exists pe, power. repeat split; auto; now apply is_spell_entry_iff.
Qed.

(** A tree without the record gives the error of the missing record, an
    empty record gives a document, and a spell of the level superscript
    two gives the error of [int]. *)
Lemma malformed_input_iff_no_character_record_witness :
  parse_fgu_character_to_html (Ok (node "root" [node "campaign" []]))
  = (None, Some "Error: No character data found in XML")
  /\ (exists html,
        parse_fgu_character_to_html (Ok (node "root" [node "character" []]))
        = (Some html, None))
  /\ parse_fgu_character_to_html (Ok sample_superscript_level)
     = (None, Some "invalid literal for int() with base 10: '²'").
Proof.
  split; [| split].
  - apply (malformed_input_iff_no_character_record (node "root" [node "campaign" []])).
    reflexivity.
  - destruct (malformed_input_iff_no_character_record (node "root" [node "character" []]))
      as [_ H].
    destruct (H (node "character" []) eq_refl) as [Hdoc | (msg & Hmsg & _)].
    + exact Hdoc.
    + vm_compute in Hmsg. discriminate Hmsg.
  - vm_compute. reflexivity.
Defined.

(** ** Escaping *)

(** C3, the code at the failing input.  The document is produced; the
    name, which goes through [escape_html], is escaped, but the wounds
    text stands unescaped inside the single-quoted [value] attribute, and
    the skill total, which [format_modifier] returns unchanged when it is
    not a number, stands unescaped as markup. *)
Theorem unescaped_values_reach_the_document :
  exists doc,
    parse_fgu_character_to_html (Ok sample_injection) = (Some doc, None)
    /\ Py.contains "<h1>&lt;b&gt;Mira&lt;/b&gt;</h1>" doc = true
    /\ Py.contains (tpl "<input type=`text` value='' autofocus onfocus='alert(1)' style=")
                   doc = true
    /\ Py.contains "<span><script>alert(2)</script></span>" doc = true.
Proof.
  eexists. split; [vm_compute; reflexivity |].
  repeat split; vm_compute; reflexivity.
Qed.

(** ** Failure of the rendering *)

(** C4, the code at the failing input.  The extraction accepts the record
    and keeps the maximum as the text [many]; the rendering then raises
    the ValueError of [int('many')], and the pipeline returns no document
    and that message. *)
Theorem rendering_raises_on_slot_maximum :
  exists char m,
    find sample_bad_slot "character" = Some char
    /\ extract char = Ok m
    /\ Character.spell_slots m = [("1", {| Slots.max := "many"; Slots.used := "1" |})]
    /\ render m = Raise (ValueError "invalid literal for int() with base 10: 'many'")
    /\ parse_fgu_character_to_html (Ok sample_bad_slot)
       = (None, Some "invalid literal for int() with base 10: 'many'").
Proof.
  eexists. eexists. split; [reflexivity |].
  split; [vm_compute; reflexivity |].
  repeat split; vm_compute; reflexivity.
Qed.

(** * Further properties *)

(** ** Decimal texts *)

Lemma all_digits_string_of_uint (d : Decimal.uint) :
  Py.all_digits (NilEmpty.string_of_uint d) = true.
Proof. induction d; simpl; auto. Qed.

Lemma int_digits_of_uint_acc (d : Decimal.uint) (acc : positive) :
  Py.int_digits (Z.pos acc) true (NilEmpty.string_of_uint d)
  = Some (Z.pos (Pos.of_uint_acc d acc)).
Proof.
  revert acc. induction d; intros acc; cbn [NilEmpty.string_of_uint Pos.of_uint_acc];
    [reflexivity | ..];
    cbn [Py.int_digits]; change (Py.is_digit _) with true; cbv iota;
    match goal with
    | |- Py.int_digits ?a _ _ = Some (Z.pos (Pos.of_uint_acc _ ?b)) =>
        replace a with (Z.pos b) by (vm_compute (Py.digit_value _); lia)
    end; apply IHd.
Qed.

Lemma int_digits_of_uint (d : Decimal.uint) :
  Py.int_digits 0 true (NilEmpty.string_of_uint d) = Some (Z.of_N (Pos.of_uint d)).
Proof.
  induction d; cbn [NilEmpty.string_of_uint Pos.of_uint];
    [reflexivity | ..];
    cbn [Py.int_digits]; change (Py.is_digit _) with true; cbv iota;
    try (change (10 * 0 + Py.digit_value _)%Z with 0%Z; exact IHd);
    match goal with
    | |- Py.int_digits ?a _ _ = Some (Z.of_N (N.pos (Pos.of_uint_acc _ ?b))) =>
        change a with (Z.pos b)
    end; apply int_digits_of_uint_acc.
Qed.

(** A literal made of ASCII digits is read digit by digit. *)
Lemma int_of_digits (s : string) :
  s <> "" -> Py.all_digits s = true -> Py.int_literal s = Py.int_digits 0 true s.
Proof.
  destruct s as [|c s]; [congruence |]. intros _.
  cbn [Py.all_digits]. rewrite andb_true_iff. intros [Hc Hs].
  unfold Py.int_literal. rewrite (strip_digits c s Hc Hs).
  cbn [Py.int_digits]. rewrite Hc.
  destruct c as [b0 b1 b2 b3 b4 b5 b6 b7].
  destruct b0, b1, b2, b3, b4, b5, b6, b7; try discriminate Hc; reflexivity.
Qed.

Lemma to_uint_nonempty (p : positive) : NilEmpty.string_of_uint (Pos.to_uint p) <> "".
Proof.
  pose proof (Unsigned.to_uint_nonnil p) as H.
  destruct (Pos.to_uint p); [congruence | discriminate ..].
Qed.

Lemma string_of_uint_nonnil (d : Decimal.uint) :
  d <> Decimal.Nil -> NilZero.string_of_uint d = NilEmpty.string_of_uint d.
Proof. destruct d; [congruence | reflexivity ..]. Qed.

Lemma str_pos (p : positive) :
  Py.str (Z.pos p) = NilEmpty.string_of_uint (Pos.to_uint p).
Proof.
  unfold Py.str. cbn [Z.to_int NilZero.string_of_int].
  apply string_of_uint_nonnil, Unsigned.to_uint_nonnil.
Qed.

Lemma str_neg (p : positive) :
  Py.str (Z.neg p) = String "-" (NilEmpty.string_of_uint (Pos.to_uint p)).
Proof.
  unfold Py.str. cbn [Z.to_int NilZero.string_of_int].
  now rewrite string_of_uint_nonnil by apply Unsigned.to_uint_nonnil.
Qed.

Lemma int_to_uint (p : positive) :
  Py.int_literal (NilEmpty.string_of_uint (Pos.to_uint p)) = Some (Z.pos p).
Proof.
  rewrite int_of_digits by (apply to_uint_nonempty || apply all_digits_string_of_uint).
  now rewrite int_digits_of_uint, Unsigned.of_to.
Qed.

(** A sign in front of a literal made of ASCII digits. *)
Lemma int_signed (sign : ascii) (s : string) :
  s <> "" -> Py.all_digits s = true ->
  (sign = "+"%char -> Py.int_literal (String sign s) = Py.int_literal s)
  /\ (sign = "-"%char
      -> Py.int_literal (String sign s) = option_map Z.opp (Py.int_literal s)).
Proof.
  intros Hne Ha. rewrite (int_of_digits s Hne Ha).
  assert (Hr : forall c, Py.isspace_int c = false ->
                 Py.rstrip_by Py.isspace_int (Py.lstrip_by Py.isspace_int (String c s))
                 = String c s).
  { intros c Hc. cbn [Py.lstrip_by]. rewrite Hc. cbn [Py.rstrip_by].
    rewrite (rstrip_all_digits s Ha). destruct s; [congruence | reflexivity]. }
  assert (Hp : Py.int_digits 0 false s = Py.int_digits 0 true s).
  { destruct s as [|c s]; [congruence |]. cbn [Py.int_digits].
    cbn in Ha. apply andb_true_iff in Ha as [Hc _]. now rewrite Hc. }
  split; intros ->; unfold Py.int_literal; rewrite Hr by reflexivity; cbv iota;
    now rewrite Hp.
Qed.

Lemma is_digit_ascii (c : ascii) : Py.is_digit c = true -> (N_of_ascii c <? 128)%N = true.
Proof.
  destruct c as [b0 b1 b2 b3 b4 b5 b6 b7].
  destruct b0, b1, b2, b3, b4, b5, b6, b7; intros H; try discriminate H; reflexivity.
Qed.

Lemma all_digits_ascii (s : string) : Py.all_digits s = true -> Py.is_ascii s = true.
Proof.
  induction s as [|c s IH]; [reflexivity |].
  cbn [Py.all_digits Py.is_ascii]. rewrite andb_true_iff. intros [Hc Hs].
  now rewrite (is_digit_ascii c Hc), (IH Hs).
Qed.

(** The decimal text of an integer is ASCII. *)
Lemma str_ascii (z : Z) : Py.is_ascii (Py.str z) = true.
Proof.
  destruct z as [|p|p]; [reflexivity | |].
  - rewrite str_pos. apply all_digits_ascii, all_digits_string_of_uint.
  - rewrite str_neg. cbn [Py.is_ascii].
    rewrite (all_digits_ascii _ (all_digits_string_of_uint _)). reflexivity.
Qed.

(** The decimal text of an integer reads back as that integer. *)
Lemma int_str (z : Z) : Py.int (Py.str z) = Some z.
Proof.
  rewrite int_ascii by apply str_ascii.
  destruct z as [|p|p].
  - reflexivity.
  - rewrite str_pos. apply int_to_uint.
  - rewrite str_neg.
    rewrite (proj2 (int_signed "-" _ (to_uint_nonempty p) (all_digits_string_of_uint _))
                   eq_refl), int_to_uint.
    reflexivity.
Qed.

Lemma int_plus_str (z : Z) : (0 <= z)%Z -> Py.int ("+" ++ Py.str z) = Some z.
Proof.
  intros Hz. rewrite int_ascii.
  - destruct z as [|p|p]; [reflexivity | | lia].
    rewrite str_pos. cbn [String.append].
    rewrite (proj1 (int_signed "+" _ (to_uint_nonempty p) (all_digits_string_of_uint _))
                   eq_refl).
    apply int_to_uint.
  - cbn [String.append Py.is_ascii]. now rewrite str_ascii.
Qed.

(** ** Modifier formatting *)

(** X1.  [format_modifier] writes a value that [int] accepts as a signed
    decimal that reads back as the same integer, with a plus sign from zero
    on; it returns a value that [int] rejects unchanged; and formatting its
    own output changes nothing. *)
Theorem format_modifier_reads_back (value : pyval) :
  (forall z, int_of value = Some z ->
     format_modifier value = (if (z >=? 0)%Z then "+" ++ Py.str z else Py.str z)
     /\ Py.int (format_modifier value) = Some z)
  /\ (int_of value = None -> format_modifier value = str_of value)
  /\ format_modifier (VStr (format_modifier value)) = format_modifier value.
Proof.
  assert (Hnum : forall z, int_of value = Some z ->
            format_modifier value = (if (z >=? 0)%Z then "+" ++ Py.str z else Py.str z)
            /\ Py.int (format_modifier value) = Some z).
  { intros z Hz. unfold format_modifier. rewrite Hz. split; [reflexivity |].
    destruct (Z.geb_spec z 0) as [Hge | Hlt].
    - apply int_plus_str. lia.
    - apply int_str. }
  split; [exact Hnum |].
  split.
  - intros Hn. unfold format_modifier. now rewrite Hn.
  - destruct (int_of value) as [z |] eqn:Hz.
    + destruct (Hnum z eq_refl) as [Hf Hi].
      unfold format_modifier at 1. cbn [int_of]. rewrite Hi. now rewrite Hf.
    + unfold format_modifier at 2. rewrite Hz.
      destruct value as [z | s]; [discriminate |]. cbn [str_of int_of] in *.
      unfold format_modifier. cbn [int_of]. now rewrite Hz.
Qed.

(** ** Proficiency bonus by level *)

(** X2.  [get_proficiency_bonus] is 2 for the levels 1 to 4, grows by one
    with every four levels and never decreases with the level; a level
    given as text counts as the integer that [int] reads, and as bonus 2
    when [int] rejects it. *)
Theorem proficiency_bonus_steps_every_four_levels :
  (forall lvl, (1 <= lvl <= 4)%Z -> get_proficiency_bonus (VInt lvl) = 2%Z)
  /\ (forall lvl, get_proficiency_bonus (VInt (lvl + 4))
                  = (get_proficiency_bonus (VInt lvl) + 1)%Z)
  /\ (forall a b, (a <= b)%Z ->
                  (get_proficiency_bonus (VInt a) <= get_proficiency_bonus (VInt b))%Z)
  /\ (forall lvl, get_proficiency_bonus (VStr (Py.str lvl)) = get_proficiency_bonus (VInt lvl))
  /\ (forall s, Py.int s = None -> get_proficiency_bonus (VStr s) = 2%Z).
Proof.
  unfold get_proficiency_bonus. cbn [int_of]. repeat split.
  - intros lvl H. rewrite Z.div_small by lia. reflexivity.
  - intros lvl. replace (lvl + 4 - 1)%Z with (lvl - 1 + 1 * 4)%Z by lia.
    rewrite Z.div_add by lia. lia.
  - intros a b H. apply Z.add_le_mono_l. apply Z.div_le_mono; lia.
  - intros lvl. now rewrite int_str.
  - intros s H. now rewrite H.
Qed.

(** ** Escaping *)

Lemma occurs_app (c : ascii) (a b : string) :
  occurs c (a ++ b) = occurs c a || occurs c b.
Proof. induction a as [|x a IH]; simpl; [reflexivity | now rewrite IH, orb_assoc]. Qed.

(** A replaced character is gone when the replacement does not hold it. *)
Lemma occurs_replace_gone (c : ascii) (r s : string) :
  occurs c r = false -> occurs c (Py.replace c r s) = false.
Proof.
  intros Hr. induction s as [|x s IH]; [reflexivity |].
  cbn [Py.replace]. rewrite occurs_app, IH, orb_false_r.
  destruct (Ascii.eqb x c) eqn:E; [exact Hr |].
  cbn. now rewrite E.
Qed.

(** A replacement brings in no character that it does not hold. *)
Lemma occurs_replace_absent (c x : ascii) (r s : string) :
  occurs c s = false -> occurs c r = false -> occurs c (Py.replace x r s) = false.
Proof.
  intros Hs Hr. induction s as [|y s IH]; [reflexivity |].
  cbn [occurs] in Hs. apply orb_false_iff in Hs as [Hy Hs].
  cbn [Py.replace]. rewrite occurs_app, (IH Hs), orb_false_r.
  destruct (Ascii.eqb y x); [exact Hr |]. cbn. now rewrite Hy.
Qed.

Lemma replace_absent (x : ascii) (r s : string) :
  occurs x s = false -> Py.replace x r s = s.
Proof.
  induction s as [|y s IH]; [reflexivity |].
  cbn [occurs]. intros H. apply orb_false_iff in H as [Hy Hs].
  cbn [Py.replace]. rewrite Hy, (IH Hs). reflexivity.
Qed.

Lemma length_app (a b : string) : String.length (a ++ b) = (String.length a + String.length b)%nat.
Proof. induction a as [|x a IH]; simpl; [reflexivity | now rewrite IH]. Qed.

Lemma length_replace (x : ascii) (r s : string) :
  (2 <= String.length r)%nat ->
  (String.length s <= String.length (Py.replace x r s))%nat
  /\ (occurs x s = true -> (String.length s < String.length (Py.replace x r s))%nat).
Proof.
  intros Hr. induction s as [|y s [IH1 IH2]]; [cbn; split; [lia | discriminate] |].
  cbn [Py.replace occurs]. rewrite length_app. cbn [String.length].
  destruct (Ascii.eqb y x); cbn [orb String.length Py.str1].
  - split; [lia | intros _; lia].
  - split; [lia |]. intros H. specialize (IH2 H). lia.
Qed.

Lemma escape_html_leaves_no_markup_character_aux (text : string) :
  occurs "<" (escape_html text) = false
  /\ occurs ">" (escape_html text) = false
  /\ occurs Py.dquote (escape_html text) = false
  /\ occurs Py.squote (escape_html text) = false.
Proof.
  unfold escape_html. destruct (Py.truthy text); cbn [negb]; [| auto].
  unfold Py.escape. repeat split.
  - do 3 (apply occurs_replace_absent; [| reflexivity]).
    now apply occurs_replace_gone.
  - do 2 (apply occurs_replace_absent; [| reflexivity]).
    now apply occurs_replace_gone.
  - apply occurs_replace_absent; [| reflexivity].
    now apply occurs_replace_gone.
  - now apply occurs_replace_gone.
Qed.

(** X3.  The text that [escape_html] returns holds no [<], no [>], no
    double quote and no single quote, whatever the argument. *)
Theorem escape_html_leaves_no_markup_character (text : string) :
  occurs "<" (escape_html text) = false
  /\ occurs ">" (escape_html text) = false
  /\ occurs Py.dquote (escape_html text) = false
  /\ occurs Py.squote (escape_html text) = false.
Proof. apply escape_html_leaves_no_markup_character_aux. Qed.

(** X4.  [escape_html] returns its argument unchanged exactly when the
    argument holds none of the five characters [&], [<], [>], double quote
    and single quote. *)
Theorem escape_html_fixes_exactly_plain_text (text : string) :
  escape_html text = text
  <-> (occurs "&" text = false /\ occurs "<" text = false /\ occurs ">" text = false
       /\ occurs Py.dquote text = false /\ occurs Py.squote text = false).
Proof.
  split.
  - intros H.
    destruct (escape_html_leaves_no_markup_character_aux text) as (H1 & H2 & H3 & H4).
    rewrite H in H1, H2, H3, H4. repeat split; auto.
    destruct (occurs "&" text) eqn:Ea; [| reflexivity].
    exfalso. revert H. unfold escape_html.
    destruct text as [|c t]; [discriminate |]. cbn [Py.truthy negb].
    unfold Py.escape. set (s := String c t) in *.
    rewrite (replace_absent Py.squote), (replace_absent Py.dquote),
      (replace_absent ">"), (replace_absent "<");
      try (repeat (apply occurs_replace_absent; [| reflexivity]); assumption).
    intros H. pose proof (proj2 (length_replace "&" "&amp;" s ltac:(cbn; lia)) Ea) as Hl.
    rewrite H in Hl. lia.
  - intros (H0 & H1 & H2 & H3 & H4). unfold escape_html.
    destruct text as [|c t]; [reflexivity |]. cbn [Py.truthy negb].
    unfold Py.escape. now rewrite (replace_absent "&"), (replace_absent "<"),
      (replace_absent ">"), (replace_absent Py.dquote), (replace_absent Py.squote).
Qed.

(** ** The characters of a text *)

Lemma chars_cons (c d : ascii) (s : string) :
  Py.chars (String c (String d s))
  = if Py.is_continuation d then
      match Py.chars (String d s) with
      | ch :: rest => String c ch :: rest
      | [] => [Py.str1 c]
      end
    else Py.str1 c :: Py.chars (String d s).
Proof. reflexivity. Qed.

(** The first character of a text starts with its first byte; the other
    characters start afresh. *)
Lemma chars_shape (c : ascii) (s : string) :
  exists r rest,
    Py.chars (String c s) = String c r :: rest
    /\ all_continuation r = true
    /\ Forall (fun ch => is_char ch = true) rest
    /\ Forall (fun ch => starts_char ch = true) rest.
Proof.
  revert c. induction s as [|d s IH]; intros c.
  - exists "", []. repeat split; constructor.
  - destruct (IH d) as (r & rest & E & Hr & Hc & Hs).
    rewrite chars_cons, E. destruct (Py.is_continuation d) eqn:Ed.
    + exists (String d r), rest. cbn [all_continuation]. rewrite Ed, Hr. auto.
    + exists "", (String d r :: rest). split; [reflexivity |]. split; [reflexivity |].
      split; constructor; auto. cbn. now rewrite Ed.
Qed.

Lemma chars_ok_chars (s : string) : chars_ok (Py.chars s).
Proof.
  destruct s as [|c s]; [split; constructor |].
  destruct (chars_shape c s) as (r & rest & -> & Hr & Hc & Hs).
  split; [constructor; auto | exact Hs].
Qed.

(** The characters of a text make up the text. *)
Lemma concat_chars (s : string) : String.concat "" (Py.chars s) = s.
Proof.
  induction s as [|c s IH]; [reflexivity |].
  destruct s as [|d s]; [reflexivity |].
  rewrite chars_cons. destruct (Py.is_continuation d).
  - destruct (Py.chars (String d s)) as [|ch rest] eqn:E.
    + discriminate IH.
    + rewrite concat_cons in *. cbn [String.append]. now rewrite IH.
  - rewrite concat_cons. cbn [String.append Py.str1]. now rewrite IH.
Qed.

(** A character in front of a text that starts afresh is the first
    character of the whole. *)
Lemma chars_app_char (c : ascii) (r rest : string) :
  all_continuation r = true ->
  (rest = "" \/ starts_char rest = true) ->
  Py.chars (String c r ++ rest) = String c r :: Py.chars rest.
Proof.
  intros Hr Hrest. revert c. induction r as [|b r IH]; intros c.
  - cbn [String.append]. destruct rest as [|d rest]; [reflexivity |].
    destruct Hrest as [H | H]; [discriminate |].
    rewrite chars_cons. cbn in H. apply negb_true_iff in H. now rewrite H.
  - cbn [all_continuation] in Hr. apply andb_true_iff in Hr as [Hb Hr].
    change (String c (String b r) ++ rest) with (String c (String b r ++ rest)).
    change (String b r ++ rest) with (String b (r ++ rest)).
    rewrite chars_cons, Hb.
    change (String b (r ++ rest)) with (String b r ++ rest).
    now rewrite (IH Hr b).
Qed.

Lemma concat_starts (l : list string) :
  Forall (fun ch => starts_char ch = true) l ->
  String.concat "" l = "" \/ starts_char (String.concat "" l) = true.
Proof.
  destruct l as [|ch l]; [now left |].
  intros H. inversion H as [|? ? Hch _]; subst. right.
  rewrite concat_cons. destruct ch; [discriminate |]. exact Hch.
Qed.

(** A list of characters is the list of the characters of its join. *)
Lemma chars_concat (l : list string) : chars_ok l -> Py.chars (String.concat "" l) = l.
Proof.
  intros [Hc Hs]. induction l as [|ch l IH]; [reflexivity |].
  inversion Hc as [|? ? Hch Hl]; subst. cbn [tl] in Hs.
  rewrite concat_cons. destruct ch as [|c r]; [discriminate |].
  rewrite chars_app_char; [| exact Hch | now apply concat_starts].
  f_equal. apply IH; [exact Hl |].
  destruct l; [constructor |]. now inversion Hs.
Qed.

Lemma Forall_tl {A : Type} (P : A -> Prop) (l : list A) : Forall P l -> Forall P (tl l).
Proof. destruct 1; [constructor | assumption]. Qed.

Lemma chars_ok_cons (ch : string) (l : list string) :
  is_char ch = true ->
  Forall (fun ch => is_char ch = true) l ->
  Forall (fun ch => starts_char ch = true) l ->
  chars_ok (ch :: l).
Proof. intros. split; [now constructor | assumption]. Qed.

Lemma chars_ok_tail (ch : string) (l : list string) :
  chars_ok (ch :: l) ->
  Forall (fun ch => is_char ch = true) l /\ Forall (fun ch => starts_char ch = true) l.
Proof. intros [Hc Hs]. split; [now inversion Hc | exact Hs]. Qed.

Lemma chars_ok_filter (keep : string -> bool) (l : list string) :
  chars_ok l -> chars_ok (filter keep l).
Proof.
  destruct l as [|ch l]; [auto |]. intros H.
  destruct (chars_ok_tail _ _ H) as [Hc Hs]. destruct H as [Hch _].
  assert (Hc' : Forall (fun ch => is_char ch = true) (filter keep l)).
  { apply Forall_forall. intros x Hx. apply filter_In in Hx.
    rewrite Forall_forall in Hc. now apply Hc. }
  assert (Hs' : Forall (fun ch => starts_char ch = true) (filter keep l)).
  { apply Forall_forall. intros x Hx. apply filter_In in Hx.
    rewrite Forall_forall in Hs. now apply Hs. }
  cbn [filter]. destruct (keep ch).
  - apply chars_ok_cons; auto. now inversion Hch.
  - split; [exact Hc' | now apply Forall_tl].
Qed.

(** ** Trimming *)

Lemma lstrip_list_Forall {A : Type} (P : A -> Prop) (space : A -> bool) (l : list A) :
  Forall P l -> Forall P (Py.lstrip_list space l).
Proof.
  induction 1 as [|x l Hx Hl IH]; [constructor |].
  cbn [Py.lstrip_list]. destruct (space x); [exact IH | now constructor].
Qed.

Lemma rstrip_list_Forall {A : Type} (P : A -> Prop) (space : A -> bool) (l : list A) :
  Forall P l -> Forall P (Py.rstrip_list space l).
Proof.
  induction 1 as [|x l Hx Hl IH]; [constructor |].
  cbn [Py.rstrip_list]. destruct (Py.rstrip_list space l).
  - destruct (space x); [constructor | now constructor].
  - now constructor.
Qed.

Lemma chars_ok_lstrip (space : string -> bool) (l : list string) :
  chars_ok l -> chars_ok (Py.lstrip_list space l).
Proof.
  induction l as [|ch l IH]; [auto |]. intros H.
  cbn [Py.lstrip_list]. destruct (space ch); [| exact H].
  apply IH. destruct (chars_ok_tail _ _ H) as [Hc Hs].
  split; [exact Hc | now apply Forall_tl].
Qed.

Lemma chars_ok_rstrip (space : string -> bool) (l : list string) :
  chars_ok l -> chars_ok (Py.rstrip_list space l).
Proof.
  destruct l as [|ch l]; [auto |]. intros H.
  destruct (chars_ok_tail _ _ H) as [Hc Hs]. destruct H as [Hch _].
  pose proof (rstrip_list_Forall _ space l Hc) as Hc'.
  pose proof (rstrip_list_Forall _ space l Hs) as Hs'.
  cbn [Py.rstrip_list]. destruct (Py.rstrip_list space l).
  - destruct (space ch); [split; constructor |].
    apply chars_ok_cons; [now inversion Hch | constructor | constructor].
  - apply chars_ok_cons; [now inversion Hch | exact Hc' | exact Hs'].
Qed.

Lemma chars_ok_strip (space : string -> bool) (l : list string) :
  chars_ok l -> chars_ok (strip_list space l).
Proof. intros H. now apply chars_ok_rstrip, chars_ok_lstrip. Qed.

(** The characters of a trimmed text are the trimmed characters of the
    text. *)
Lemma chars_strip (s : string) : Py.chars (Py.strip s) = strip_list Py.isspace (Py.chars s).
Proof. apply chars_concat, chars_ok_strip, chars_ok_chars. Qed.

Lemma lstrip_list_head {A : Type} (space : A -> bool) (l : list A) :
  Py.lstrip_list space l = []
  \/ exists x r, Py.lstrip_list space l = x :: r /\ space x = false.
Proof.
  induction l as [|x l IH]; [now left |].
  cbn [Py.lstrip_list]. destruct (space x) eqn:E; [exact IH |].
  right. now exists x, l.
Qed.

Lemma rstrip_list_head {A : Type} (space : A -> bool) (x : A) (r : list A) :
  space x = false -> exists r', Py.rstrip_list space (x :: r) = x :: r'.
Proof.
  intros Hx. cbn [Py.rstrip_list]. destruct (Py.rstrip_list space r).
  - rewrite Hx. now exists [].
  - eauto.
Qed.

Lemma rstrip_list_cons {A : Type} (space : A -> bool) (x : A) (l : list A) :
  Py.rstrip_list space (x :: l)
  = match Py.rstrip_list space l with
    | [] => if space x then [] else [x]
    | r => x :: r
    end.
Proof. reflexivity. Qed.

Lemma rstrip_list_idem {A : Type} (space : A -> bool) (l : list A) :
  Py.rstrip_list space (Py.rstrip_list space l) = Py.rstrip_list space l.
Proof.
  induction l as [|x l IH]; [reflexivity |].
  rewrite rstrip_list_cons. destruct (Py.rstrip_list space l) as [|y r] eqn:E.
  - destruct (space x) eqn:Ex; [reflexivity |]. cbn. now rewrite Ex.
  - rewrite rstrip_list_cons, IH. reflexivity.
Qed.

Lemma strip_list_idem {A : Type} (space : A -> bool) (l : list A) :
  strip_list space (strip_list space l) = strip_list space l.
Proof.
  unfold strip_list.
  destruct (lstrip_list_head space l) as [-> | (x & r & -> & Hx)]; [reflexivity |].
  destruct (rstrip_list_head space x r Hx) as [r' Hr].
  rewrite Hr at 1. cbn [Py.lstrip_list]. rewrite Hx, <- Hr. apply rstrip_list_idem.
Qed.

(** Trimming a trimmed text changes nothing. *)
Lemma strip_idem (s : string) : Py.strip (Py.strip s) = Py.strip s.
Proof.
  unfold Py.strip at 1. rewrite chars_strip. fold (strip_list Py.isspace (strip_list Py.isspace (Py.chars s))).
  now rewrite strip_list_idem.
Qed.

(** ** Splitting and joining *)

Lemma split_nonempty (sep : ascii) (s : string) : Py.split sep s <> [].
Proof.
  induction s as [|c s IH]; cbn [Py.split]; [discriminate |].
  destruct (Ascii.eqb c sep); [discriminate |].
  destruct (Py.split sep s); discriminate.
Qed.

(** Joining the pieces of a split with the separator gives the text
    back. *)
Lemma join_split (sep : ascii) (s : string) :
  Py.join (Py.str1 sep) (Py.split sep s) = s.
Proof.
  unfold Py.join. induction s as [|c s IH]; [reflexivity |].
  cbn [Py.split]. pose proof (split_nonempty sep s) as Hne.
  destruct (Ascii.eqb_spec c sep) as [-> | Hc].
  - destruct (Py.split sep s) as [|h t]; [congruence |].
    change (String.concat (Py.str1 sep) ("" :: h :: t))
      with (String sep (String.concat (Py.str1 sep) (h :: t))).
    now rewrite IH.
  - destruct (Py.split sep s) as [|h t]; [congruence |].
    rewrite <- IH. destruct t; reflexivity.
Qed.

(** ** The lines that the flattening keeps *)


Lemma keys_within_snoc (small big : list string) (x : string) :
  keys_within small big -> keys_within (small ++ [x])%list (big ++ [x])%list.
Proof.
  intros H e He. apply in_app_iff in He. destruct He as [He | [<- | []]].
  - destruct (H e He) as [e' [Hin Hs]]. exists e'. split; [apply in_app_iff; now left | exact Hs].
  - exists x. split; [apply in_app_iff; right; now left | reflexivity].
Qed.

Lemma keys_within_weaken (small big : list string) (x : string) :
  keys_within small big -> keys_within small (big ++ [x])%list.
Proof.
  intros H e He. destruct (H e He) as [e' [Hin Hs]].
  exists e'. split; [apply in_app_iff; now left | exact Hs].
Qed.

Lemma repeated_within (small big : list string) (line : string) :
  keys_within small big ->
  existsb (fun e => String.eqb (Py.strip e) (Py.strip line)) big = false ->
  existsb (fun e => String.eqb (Py.strip e) (Py.strip line)) small = false.
Proof.
  intros Hw Hb. destruct (existsb _ small) eqn:E; [| reflexivity].
  apply repeated_iff in E. destruct E as [e [He Hs]].
  destruct (Hw e He) as [e' [He' Hs']].
  assert (Hr : existsb (fun e => String.eqb (Py.strip e) (Py.strip line)) big = true).
  { apply repeated_iff. exists e'. split; [exact He' | congruence]. }
  congruence.
Qed.

Lemma first_occurrences_again (lines earlier earlier' : list string) :
  keys_within earlier' earlier ->
  first_occurrences earlier' (first_occurrences earlier lines)
  = first_occurrences earlier lines.
Proof.
  revert earlier earlier'. induction lines as [|x lines IH]; intros earlier earlier' Hw;
    [reflexivity |].
  cbn [first_occurrences]. cbv zeta.
  destruct (negb (Py.truthy (Py.strip x))
            || negb (existsb (fun e => String.eqb (Py.strip e) (Py.strip x)) earlier))
    eqn:Ek.
  - cbn [app first_occurrences]. cbv zeta.
    assert (Ek' : negb (Py.truthy (Py.strip x))
                  || negb (existsb (fun e => String.eqb (Py.strip e) (Py.strip x)) earlier')
                  = true).
    { apply orb_true_iff in Ek. apply orb_true_iff. destruct Ek as [Ek | Ek]; [now left |].
      right. apply negb_true_iff in Ek. apply negb_true_iff.
      eapply repeated_within; eauto. }
    rewrite Ek'. cbn [app]. f_equal. apply IH. now apply keys_within_snoc.
  - cbn [app]. apply IH. now apply keys_within_weaken.
Qed.

Lemma line_keys_cons (x : string) (l : list string) :
  line_keys (x :: l)
  = if Py.truthy (Py.strip x) then Py.strip x :: line_keys l else line_keys l.
Proof. reflexivity. Qed.

Lemma in_line_keys (k : string) (l : list string) :
  In k (line_keys l) <-> k <> "" /\ exists e, In e l /\ Py.strip e = k.
Proof.
  unfold line_keys. rewrite filter_In, in_map_iff, truthy_iff.
  split.
  - intros [[e [Hs He]] Hk]. split; [exact Hk | now exists e].
  - intros [Hk [e [He Hs]]]. split; [now exists e | exact Hk].
Qed.

(** The kept lines repeat no trimmed content, among themselves or from the
    lines passed before. *)
Lemma first_occurrences_distinct (lines earlier : list string) :
  NoDup (line_keys (first_occurrences earlier lines))
  /\ forall k, In k (line_keys (first_occurrences earlier lines)) ->
               ~ In k (line_keys earlier).
Proof.
  revert earlier. induction lines as [|x lines IH]; intros earlier.
  { split; [constructor | intros k []]. }
  cbn [first_occurrences]. cbv zeta.
  destruct (IH (earlier ++ [x])%list) as [IHn IHd].
  assert (Hrest : forall k, In k (line_keys (first_occurrences (earlier ++ [x])%list lines)) ->
                    ~ In k (line_keys earlier) /\ (Py.truthy (Py.strip x) = true -> k <> Py.strip x)).
  { intros k Hk. specialize (IHd k Hk). split.
    - intros Hin. apply IHd. apply in_line_keys in Hin. destruct Hin as [Hne [e [He Hs]]].
      apply in_line_keys. split; [exact Hne |]. exists e. split; [apply in_app_iff; now left | exact Hs].
    - intros Ht -> . apply IHd. apply in_line_keys. split; [now apply truthy_iff |].
      exists x. split; [apply in_app_iff; right; now left | reflexivity]. }
  destruct (Py.truthy (Py.strip x)) eqn:Et; cbn [negb orb].
  - destruct (existsb _ earlier) eqn:Er; cbn [negb app].
    + split; [exact IHn | intros k Hk; apply (Hrest k Hk)].
    + rewrite line_keys_cons, Et. split.
      * constructor; [| exact IHn]. intros Hin. now apply (proj2 (Hrest _ Hin)).
      * intros k [<- | Hk]; [| apply (Hrest k Hk)].
        intros Hin. apply in_line_keys in Hin. destruct Hin as [_ Hex].
        apply repeated_iff in Hex. congruence.
  - cbn [app]. rewrite line_keys_cons, Et.
    split; [exact IHn | intros k Hk; apply (Hrest k Hk)].
Qed.

(** Lines that repeat no trimmed content are all kept. *)
Lemma first_occurrences_keeps_distinct (lines earlier : list string) :
  NoDup (line_keys lines) ->
  (forall k, In k (line_keys lines) -> ~ In k (line_keys earlier)) ->
  first_occurrences earlier lines = lines.
Proof.
  revert earlier. induction lines as [|x lines IH]; intros earlier Hn Hd; [reflexivity |].
  cbn [first_occurrences]. cbv zeta. rewrite line_keys_cons in Hn, Hd.
  destruct (Py.truthy (Py.strip x)) eqn:Et; cbn [negb orb].
  - inversion Hn as [|? ? Hx Hn']; subst.
    assert (Er : existsb (fun e => String.eqb (Py.strip e) (Py.strip x)) earlier = false).
    { destruct (existsb _ earlier) eqn:E; [| reflexivity].
      apply repeated_iff in E. exfalso. apply (Hd (Py.strip x)); [now left |].
      apply in_line_keys. split; [now apply truthy_iff | exact E]. }
    rewrite Er. cbn [negb app]. f_equal. apply IH; [exact Hn' |].
    intros k Hk Hin. apply in_line_keys in Hin. destruct Hin as [Hne [e [He Hs]]].
    apply in_app_iff in He. destruct He as [He | [<- | []]].
    + apply (Hd k); [now right |]. apply in_line_keys. split; [exact Hne | now exists e].
    + subst k. contradiction.
  - cbn [app]. f_equal. apply IH; [exact Hn |].
    intros k Hk Hin. apply in_line_keys in Hin. destruct Hin as [Hne [e [He Hs]]].
    apply in_app_iff in He. destruct He as [He | [<- | []]].
    + apply (Hd k Hk). apply in_line_keys. split; [exact Hne | now exists e].
    + subst k. apply truthy_iff in Hne. congruence.
Qed.

(** X5.  Removing the repeated lines twice is the same as removing them
    once: the loop of [formatted_html] keeps every line of its own
    output. *)
Theorem unique_lines_idempotent (lines : list string) :
  unique_lines_of (unique_lines_of lines) = unique_lines_of lines.
Proof.
  rewrite !unique_lines_spec. apply first_occurrences_again. intros e [].
Qed.

(** X6.  Among the lines that the loop of [formatted_html] keeps, no two
    that are not blank have the same trimmed content. *)
Theorem unique_lines_are_distinct (lines : list string) :
  NoDup (line_keys (unique_lines_of lines)).
Proof. rewrite unique_lines_spec. apply first_occurrences_distinct. Qed.

(** X7.  The text that [formatted_html] returns never starts or ends with
    white space: trimming it again changes nothing. *)
Theorem formatted_html_is_trimmed (element : option Element) :
  Py.strip (formatted_html element) = formatted_html element.
Proof.
  destruct element as [element |]; [| reflexivity].
  unfold formatted_html. cbv zeta. apply strip_idem.
Qed.

Lemma formatted_html_content (element : Element) :
  formatted_html (Some element)
  = Py.strip (Py.join (Py.str1 Py.newline)
                (first_occurrences [] (Py.split Py.newline (flat_content element)))).
Proof.
  unfold formatted_html, flat_content. cbv zeta.
  now rewrite unique_lines_spec, parts_joined.
Qed.

(** X8.  When no two lines of the trimmed markup of an element have the same
    non-blank trimmed content, [formatted_html] returns that markup as it
    is: the leading text, trimmed, followed by the serialized children, the
    whole trimmed. *)
Theorem formatted_html_keeps_markup_without_repeats (element : Element) :
  NoDup (line_keys (Py.split Py.newline (flat_content element))) ->
  formatted_html (Some element) = flat_content element.
Proof.
  intros Hn. rewrite formatted_html_content.
  rewrite first_occurrences_keeps_distinct; [| exact Hn | intros k _ []].
  rewrite join_split. unfold flat_content. apply strip_idem.
Qed.

Lemma formatted_html_keeps_markup_without_repeats_witness :
  formatted_html
    (Some (Elem "description" [] (Some " Evocation ")
             [Elem "p" [] (Some "A bright streak.") [] (Some "
");
              Elem "p" [] (Some "It explodes.") [] None] None))
  = "Evocation<p>A bright streak.</p>
<p>It explodes.</p>".
Proof.
  apply (formatted_html_keeps_markup_without_repeats
           (Elem "description" [] (Some " Evocation ")
             [Elem "p" [] (Some "A bright streak.") [] (Some "
");
              Elem "p" [] (Some "It explodes.") [] None] None)).
  vm_compute. repeat constructor; cbn; intuition discriminate.
Defined.

(** ** Lookups after assignments *)

Lemma dict_get_set_same {V : Type} (k : string) (v : V) (d : dict V) :
  dict_get k (dict_set k v d) = Some v.
Proof.
  induction d as [|[k0 v0] d IH]; simpl.
  - now rewrite String.eqb_refl.
  - destruct (String.eqb k0 k) eqn:E; simpl.
    + now rewrite String.eqb_refl.
    + now rewrite E.
Qed.

Lemma dict_get_set_other {V : Type} (k k' : string) (v : V) (d : dict V) :
  k <> k' -> dict_get k' (dict_set k v d) = dict_get k' d.
Proof.
  intros Hne. induction d as [|[k0 v0] d IH]; simpl.
  - destruct (String.eqb_spec k k'); [contradiction | reflexivity].
  - destruct (String.eqb_spec k0 k) as [-> | Hk]; simpl.
    + destruct (String.eqb_spec k k'); [contradiction | reflexivity].
    + destruct (String.eqb k0 k'); [reflexivity | exact IH].
Qed.

Lemma dict_get_set {V : Type} (k k' : string) (v : V) (d : dict V) :
  dict_get k' (dict_set k v d) = if String.eqb k k' then Some v else dict_get k' d.
Proof.
  destruct (String.eqb_spec k k') as [-> | Hne].
  - apply dict_get_set_same.
  - now apply dict_get_set_other.
Qed.

Lemma find_app {A : Type} (test : A -> bool) (l1 l2 : list A) :
  List.find test (l1 ++ l2)
  = match List.find test l1 with
    | Some x => Some x
    | None => List.find test l2
    end.
Proof.
  induction l1 as [|x l1 IH]; [reflexivity |].
  simpl. destruct (test x); [reflexivity | exact IH].
Qed.

(** A loop of assignments: the value under [k] is the one of the last
    item whose key is [k]. *)
Lemma assignments_loop {A V : Type} (key : A -> string) (value : A -> V)
      (l : list A) (d : dict V) (k : string) :
  dict_get k (fold_left (fun d x => dict_set (key x) (value x) d) l d)
  = match find_last (fun x => String.eqb (key x) k) l with
    | Some x => Some (value x)
    | None => dict_get k d
    end.
Proof.
  revert d. induction l as [|x l IH]; intros d; [reflexivity |].
  cbn [fold_left]. rewrite IH. unfold find_last. cbn [rev]. rewrite find_app.
  destruct (List.find _ (rev l)); [reflexivity |].
  cbn [List.find]. rewrite dict_get_set. now destruct (String.eqb (key x) k).
Qed.

(** A loop of guarded assignments over distinct keys. *)
Lemma guarded_assignments_loop {A V : Type} (key : A -> string) (value : A -> option V)
      (l : list A) (d : dict V) (k : string) :
  NoDup (map key l) ->
  dict_get k (fold_left (fun d x => match value x with
                                    | Some v => dict_set (key x) v d
                                    | None => d
                                    end) l d)
  = match List.find (fun x => String.eqb (key x) k) l with
    | Some x => match value x with Some v => Some v | None => dict_get k d end
    | None => dict_get k d
    end.
Proof.
  revert d. induction l as [|x l IH]; intros d Hn; [reflexivity |].
  cbn [map] in Hn. inversion Hn as [|? ? Hx Hn']; subst.
  cbn [fold_left List.find]. rewrite (IH _ Hn').
  destruct (String.eqb_spec (key x) k) as [E | E].
  - assert (Hf : List.find (fun y => String.eqb (key y) k) l = None).
    { destruct (List.find _ l) as [y |] eqn:Ef; [| reflexivity].
      apply find_some in Ef. destruct Ef as [Hy Hk]. apply String.eqb_eq in Hk.
      exfalso. apply Hx. apply in_map_iff. exists y. split; [congruence | exact Hy]. }
    rewrite Hf. destruct (value x); [| reflexivity]. subst k. apply dict_get_set_same.
  - destruct (value x) as [v |]; [rewrite (dict_get_set_other _ _ v d E) |]; reflexivity.
Qed.

Lemma fold_left_ext {A S : Type} (f g : S -> A -> S) (l : list A) (s : S) :
  (forall s x, f s x = g s x) -> fold_left f l s = fold_left g l s.
Proof.
  intros H. revert s. induction l as [|x l IH]; intros s; [reflexivity |].
  cbn [fold_left]. now rewrite H, IH.
Qed.

(** ** More of what the extraction binds *)

Lemma extract_fields_more (char : Element) (m : Character.t) :
  extract char = Ok m ->
  Character.abilities m = extract_abilities char
  /\ Character.coins m = extract_coins char
  /\ Character.features m = extract_features char
  /\ Character.feats m = extract_feats char
  /\ Character.inventory m = extract_inventory char
  /\ Character.initiative m
     = (let initiative := text_if_present (find char "initiative") "total" "" in
        if negb (Py.truthy initiative) then
          match dict_get "dexterity" (extract_abilities char) with
          | Some dexterity => Ability.bonus dexterity
          | None => initiative
          end
        else initiative)
  /\ Character.name m = safe_get_text (Some char) "name" ""
  /\ Character.hp_wounds m = Py.strip (text_if_present (find char "hp") "wounds" "0")
  /\ Character.hp_temp m = Py.strip (text_if_present (find char "hp") "temporary" "0").
Proof.
  unfold extract. destruct (extract_classes char) as [total_level classes_info].
  destruct (extract_spells char) as [spells | e]; cbn [bind]; [| discriminate].
  intros [= <-]. cbn. repeat split; reflexivity.
Qed.

Lemma extract_abilities_get (char : Element) (name : string) :
  dict_get name (extract_abilities char)
  = if ET.mem name ability_names
    then option_map ability_of (find char ("abilities/" ++ name))
    else None.
Proof.
  unfold extract_abilities.
  rewrite (fold_left_ext _
             (fun d n => match option_map ability_of (find char ("abilities/" ++ n)) with
                         | Some v => dict_set n v d
                         | None => d
                         end)).
  2:{ intros d n. unfold abilities_step. now destruct (find char ("abilities/" ++ n)). }
  rewrite (guarded_assignments_loop (fun n => n)).
  2:{ rewrite map_id. unfold ability_names. repeat constructor; cbn; intuition discriminate. }
  destruct (List.find (fun n => String.eqb n name) ability_names) as [n |] eqn:Ef.
  - apply find_some in Ef. destruct Ef as [Hin Hn]. apply String.eqb_eq in Hn. subst n.
    assert (Hm : ET.mem name ability_names = true).
    { unfold ET.mem. apply existsb_exists. exists name. split; [exact Hin | apply String.eqb_refl]. }
    rewrite Hm. now destruct (option_map _ _).
  - assert (Hm : ET.mem name ability_names = false).
    { unfold ET.mem. destruct (existsb _ ability_names) eqn:E; [| reflexivity].
      apply existsb_exists in E. destruct E as [n [Hin Hn]].
      apply String.eqb_eq in Hn. subst n.
      pose proof (find_none _ _ Ef name Hin) as Hc. cbn in Hc.
      now rewrite String.eqb_refl in Hc. }
    now rewrite Hm.
Qed.

(** X9.  The abilities of an extracted model are looked up by one of the
    six ability names only: under such a name stands the entry of the first
    element [abilities/<name>] of the record, and nothing when the record
    has none; under every other key stands nothing. *)
Theorem abilities_hold_the_six_names_only (char : Element) (m : Character.t) :
  extract char = Ok m ->
  (forall name,
      In name ability_names ->
      dict_get name (Character.abilities m)
      = option_map ability_of (find char ("abilities/" ++ name)))
  /\ (forall name,
        ~ In name ability_names -> dict_get name (Character.abilities m) = None).
Proof.
  intros Hm.
  destruct (extract_fields_more char m Hm) as (Ha & _). rewrite Ha.
  split; intros name Hn; rewrite extract_abilities_get.
  - replace (ET.mem name ability_names) with true; [reflexivity |].
    symmetry. apply existsb_exists. exists name. split; [exact Hn | apply String.eqb_refl].
  - destruct (ET.mem name ability_names) eqn:E; [| reflexivity].
    apply existsb_exists in E. destruct E as [n [Hin He]].
    apply String.eqb_eq in He. subst n. contradiction.
Qed.

Lemma abilities_hold_the_six_names_only_witness :
  exists m,
    extract sample_sheet = Ok m
    /\ dict_keys (Character.abilities m) = ["strength"; "dexterity"]
    /\ (forall name,
          In name ability_names ->
          dict_get name (Character.abilities m)
          = option_map ability_of (find sample_sheet ("abilities/" ++ name)))
    /\ (forall name,
          ~ In name ability_names -> dict_get name (Character.abilities m) = None).
Proof.
  eexists. split; [vm_compute; reflexivity |]. split; [reflexivity |].
  apply (abilities_hold_the_six_names_only sample_sheet). vm_compute; reflexivity.
Defined.

(** X10.  The initiative of an extracted model is the text of
    [initiative/total] when the record has one that is not empty; otherwise
    it is the bonus of the dexterity ability when the record has that
    ability, and the empty text when it has not. *)
Theorem initiative_falls_back_to_dexterity (char : Element) (m : Character.t) :
  extract char = Ok m ->
  let supplied := text_if_present (find char "initiative") "total" "" in
  (supplied <> "" -> Character.initiative m = supplied)
  /\ (supplied = "" ->
      forall dexterity,
        find char "abilities/dexterity" = Some dexterity ->
        Character.initiative m = safe_get_text (Some dexterity) "bonus" "")
  /\ (supplied = "" ->
      find char "abilities/dexterity" = None -> Character.initiative m = "").
Proof.
  intros Hm.
  destruct (extract_fields_more char m Hm) as (_ & _ & _ & _ & _ & Hi & _).
  cbv zeta in *. rewrite Hi, extract_abilities_get. clear Hi.
  change (ET.mem "dexterity" ability_names) with true. cbv iota.
  change ("abilities/" ++ "dexterity") with "abilities/dexterity".
  destruct (text_if_present (find char "initiative") "total" "") as [|c s] eqn:Es.
  - cbn [Py.truthy negb]. repeat split.
    + congruence.
    + intros _ dexterity Hd. now rewrite Hd.
    + intros _ Hd. now rewrite Hd.
  - cbn [Py.truthy negb]. repeat split; intros; try discriminate; reflexivity.
Qed.

Lemma initiative_falls_back_to_dexterity_witness :
  exists m,
    extract sample_sheet = Ok m
    /\ Character.initiative m = "2"
    /\ let supplied := text_if_present (find sample_sheet "initiative") "total" "" in
       (supplied <> "" -> Character.initiative m = supplied)
       /\ (supplied = "" ->
           forall dexterity,
             find sample_sheet "abilities/dexterity" = Some dexterity ->
             Character.initiative m = safe_get_text (Some dexterity) "bonus" "")
       /\ (supplied = "" ->
           find sample_sheet "abilities/dexterity" = None -> Character.initiative m = "").
Proof.
  eexists. split; [vm_compute; reflexivity |]. split; [reflexivity |].
  apply (initiative_falls_back_to_dexterity sample_sheet). vm_compute; reflexivity.
Defined.

(** X11.  Under a coin name an extracted model holds the amount of the
    last coin entry of the record with that name, an earlier entry of the
    same name being overwritten; it holds nothing under a name that no
    entry has. *)
Theorem coins_keep_the_last_amount (char : Element) (m : Character.t) :
  extract char = Ok m ->
  forall name,
    dict_get name (Character.coins m)
    = option_map (fun coin => safe_get_text (Some coin) "amount" "0")
                 (find_last (named name) (iter (find char "coins"))).
Proof.
  intros Hm.
  destruct (extract_fields_more char m Hm) as (_ & Hc & _). rewrite Hc.
  intros name. unfold extract_coins.
  rewrite (assignments_loop (fun coin => safe_get_text (Some coin) "name" "")
                            (fun coin => safe_get_text (Some coin) "amount" "0")).
  unfold named. now destruct (find_last _ _).
Qed.

Lemma coins_keep_the_last_amount_witness :
  exists m,
    extract sample_sheet = Ok m
    /\ Character.coins m = [("GP", "7"); ("SP", "3")]
    /\ forall name,
         dict_get name (Character.coins m)
         = option_map (fun coin => safe_get_text (Some coin) "amount" "0")
                      (find_last (named name) (iter (find sample_sheet "coins"))).
Proof.
  eexists. split; [vm_compute; reflexivity |]. split; [reflexivity |].
  apply (coins_keep_the_last_amount sample_sheet). vm_compute; reflexivity.
Defined.

(** X12.  [safe_get_text] returns the default or else the text, which is
    then not empty, of the first element at the path; called with a default
    that is not empty it never returns the empty text. *)
Theorem safe_get_text_is_default_or_text (element : option Element) (path default : string) :
  (safe_get_text element path default = default
   \/ exists e sub t,
        element = Some e /\ find e path = Some sub /\ text sub = Some t
        /\ t <> "" /\ safe_get_text element path default = t)
  /\ (default <> "" -> safe_get_text element path default <> "").
Proof.
  assert (H : safe_get_text element path default = default
              \/ exists e sub t,
                   element = Some e /\ find e path = Some sub /\ text sub = Some t
                   /\ t <> "" /\ safe_get_text element path default = t).
  { destruct element as [e |]; [| now left].
    destruct (safe_get_text_cases e path default) as [Hd | (sub & t & Hf & Ht & Hne & Hs)].
    - now left.
    - right. exists e, sub, t. auto. }
  split; [exact H |].
  intros Hd. destruct H as [-> | (e & sub & t & _ & _ & _ & Hne & ->)]; assumption.
Qed.

Lemma safe_get_text_nonempty (element : Element) (path default : string) :
  default <> "" -> Py.truthy (safe_get_text (Some element) path default) = true.
Proof.
  intros Hd. apply truthy_iff.
  destruct (safe_get_text_cases element path default) as [-> | (sub & t & _ & _ & Hne & ->)];
    assumption.
Qed.

Lemma dict_set_nodup {V : Type} (k : string) (v : V) (d : dict V) :
  NoDup (dict_keys d) -> NoDup (dict_keys (dict_set k v d)).
Proof.
  induction d as [|[k0 v0] d IH]; simpl; intros Hn.
  - constructor; [intros [] | constructor].
  - inversion Hn as [|? ? Hk Hn']; subst.
    destruct (String.eqb_spec k0 k) as [-> | Hne]; simpl.
    + now constructor.
    + constructor; [| now apply IH].
      intros Hin. apply dict_set_keys in Hin. destruct Hin as [-> | Hin]; contradiction.
Qed.

Lemma slots_step_guarded (powermeta_elem : Element) (d : dict Slots.t) (z : Z) :
  slots_step powermeta_elem d z
  = match match find powermeta_elem ("spellslots" ++ Py.str z) with
          | Some slot_elem => populated_slots slot_elem
          | None => None
          end with
    | Some v => dict_set (Py.str z) v d
    | None => d
    end.
Proof.
  unfold slots_step, populated_slots.
  destruct (find powermeta_elem ("spellslots" ++ Py.str z)) as [slot_elem |]; [| reflexivity].
  cbv zeta. rewrite safe_get_text_nonempty by discriminate. cbn [andb].
  now destruct (String.eqb _ "0").
Qed.

Lemma find_slot_level (z : Z) :
  In z slot_levels ->
  List.find (fun x => String.eqb (Py.str x) (Py.str z)) slot_levels = Some z.
Proof.
  unfold slot_levels. cbn [In].
  intros H. repeat (destruct H as [<- | H]; [reflexivity |]). destruct H.
Qed.

Lemma extract_spell_slots_get (char : Element) (z : Z) :
  In z slot_levels ->
  dict_get (Py.str z) (extract_spell_slots char)
  = match find char "powermeta" with
    | Some powermeta_elem =>
        match find powermeta_elem ("spellslots" ++ Py.str z) with
        | Some slot_elem => populated_slots slot_elem
        | None => None
        end
    | None => None
    end.
Proof.
  intros Hz. unfold extract_spell_slots.
  destruct (find char "powermeta") as [pm |]; [| reflexivity].
  rewrite (fold_left_ext _ _ _ _ (slots_step_guarded pm)).
  rewrite (guarded_assignments_loop Py.str
             (fun z => match find pm ("spellslots" ++ Py.str z) with
                       | Some slot_elem => populated_slots slot_elem
                       | None => None
                       end)).
  2:{ vm_compute. repeat constructor; cbn; intuition discriminate. }
  rewrite (find_slot_level z Hz).
  now destruct (find pm ("spellslots" ++ Py.str z)) as [se |]; [destruct (populated_slots se) |].
Qed.

(** X13.  Under the label of a level from 1 to 9 the spell slots of an
    extracted model hold the entry of the first element
    [powermeta/spellslots<level>] when its maximum is not [0] (a missing or
    empty maximum counting as [0]), and nothing otherwise; every entry that
    can be looked up stands under such a label, and neither its maximum nor
    its used count is empty. *)
Theorem spell_slots_hold_the_populated_levels (char : Element) (m : Character.t) :
  extract char = Ok m ->
  (forall z,
      In z slot_levels ->
      dict_get (Py.str z) (Character.spell_slots m)
      = match find char "powermeta" with
        | Some powermeta_elem =>
            match find powermeta_elem ("spellslots" ++ Py.str z) with
            | Some slot_elem => populated_slots slot_elem
            | None => None
            end
        | None => None
        end)
  /\ (forall level entry,
        dict_get level (Character.spell_slots m) = Some entry ->
        (exists z, In z slot_levels /\ level = Py.str z)
        /\ Slots.max entry <> "" /\ Slots.max entry <> "0" /\ Slots.used entry <> "").
Proof.
  intros Hm.
  destruct (extract_fields char m Hm) as (_ & _ & _ & _ & _ & Hs & _). rewrite Hs.
  split; [intros z Hz; now apply extract_spell_slots_get |].
  intros level entry Hg.
  pose proof (dict_get_some_in _ _ _ Hg) as Hin.
  destruct (extract_spell_slots_source char level entry Hin)
    as (pm & Hpm & z & se & Hz & -> & Hf & ->).
  rewrite (extract_spell_slots_get char z Hz), Hpm, Hf in Hg.
  unfold populated_slots in Hg.
  destruct (String.eqb_spec (safe_get_text (Some se) "max" "0") "0") as [E | E];
    [discriminate |].
  split; [now exists z |]. unfold slots_of. cbn [Slots.max Slots.used].
  repeat split; try assumption; apply truthy_iff, safe_get_text_nonempty; discriminate.
Qed.

Lemma spell_slots_hold_the_populated_levels_witness :
  exists m,
    extract sample_sheet = Ok m
    /\ Character.spell_slots m = [("1", {| Slots.max := "4"; Slots.used := "1" |})]
    /\ (forall z,
          In z slot_levels ->
          dict_get (Py.str z) (Character.spell_slots m)
          = match find sample_sheet "powermeta" with
            | Some powermeta_elem =>
                match find powermeta_elem ("spellslots" ++ Py.str z) with
                | Some slot_elem => populated_slots slot_elem
                | None => None
                end
            | None => None
            end)
    /\ (forall level entry,
          dict_get level (Character.spell_slots m) = Some entry ->
          (exists z, In z slot_levels /\ level = Py.str z)
          /\ Slots.max entry <> "" /\ Slots.max entry <> "0" /\ Slots.used entry <> "").
Proof.
  eexists. split; [vm_compute; reflexivity |]. split; [reflexivity |].
  apply (spell_slots_hold_the_populated_levels sample_sheet). vm_compute; reflexivity.
Defined.

Lemma find_sorcery_points_spec (powers : list Element) :
  find_sorcery_points powers None
  = match List.find (named "Sorcery Points") powers with
    | Some power =>
        if String.eqb (safe_get_text (Some power) "prepared" "0") "0" then None
        else Some {| Slots.max := safe_get_text (Some power) "prepared" "0";
                     Slots.used := safe_get_text (Some power) "locked" "0" |}
    | None => None
    end.
Proof.
  induction powers as [|power powers IH]; [reflexivity |].
  cbn [find_sorcery_points List.find]. cbv zeta. unfold named at 1.
  destruct (String.eqb (safe_get_text (Some power) "name" "") "Sorcery Points");
    [| exact IH].
  rewrite safe_get_text_nonempty by discriminate. cbn [andb].
  now destruct (String.eqb _ "0").
Qed.

(** X14.  The sorcery points of an extracted model come from the first
    power entry named [Sorcery Points] and from no other: they are its
    [prepared] and [locked] texts when the [prepared] text is not [0] (a
    missing one counting as [0]), and they are absent when it is [0], even
    if a later entry of that name has a maximum, and when no entry has that
    name. *)
Theorem sorcery_points_come_from_the_first_resource (char : Element) (m : Character.t) :
  extract char = Ok m ->
  Character.sorcery_points m
  = match List.find (named "Sorcery Points") (iter (find char "powers")) with
    | Some power =>
        if String.eqb (safe_get_text (Some power) "prepared" "0") "0" then None
        else Some {| Slots.max := safe_get_text (Some power) "prepared" "0";
                     Slots.used := safe_get_text (Some power) "locked" "0" |}
    | None => None
    end.
Proof.
  intros Hm.
  destruct (extract_fields char m Hm) as (_ & _ & _ & _ & _ & _ & Hsp).
  rewrite Hsp. apply find_sorcery_points_spec.
Qed.

(** The first resource of the sample has the maximum [0]: the points are
    absent, although the second resource has the maximum [3]. *)
Lemma sorcery_points_come_from_the_first_resource_witness :
  exists m,
    extract sample_sheet = Ok m
    /\ Character.sorcery_points m = None
    /\ Character.sorcery_points m
       = match List.find (named "Sorcery Points") (iter (find sample_sheet "powers")) with
         | Some power =>
             if String.eqb (safe_get_text (Some power) "prepared" "0") "0" then None
             else Some {| Slots.max := safe_get_text (Some power) "prepared" "0";
                          Slots.used := safe_get_text (Some power) "locked" "0" |}
         | None => None
         end.
Proof.
  eexists. split; [vm_compute; reflexivity |]. split; [reflexivity |].
  apply (sorcery_points_come_from_the_first_resource sample_sheet). vm_compute; reflexivity.
Defined.

(** X15.  The features, the feats and the inventory of an extracted model
    hold one entry for each child element of [featurelist], [featlist] and
    [inventorylist], in document order, and no inventory entry has an
    empty count. *)
Theorem lists_keep_the_source_order (char : Element) (m : Character.t) :
  extract char = Ok m ->
  Character.features m = map feature_of (iter (find char "featurelist"))
  /\ Character.feats m = map feat_of (iter (find char "featlist"))
  /\ Character.inventory m = map item_of (iter (find char "inventorylist"))
  /\ Forall (fun item => Item.count item <> "") (Character.inventory m).
Proof.
  intros Hm.
  destruct (extract_fields_more char m Hm) as (_ & _ & Hf & Hft & Hi & _).
  rewrite Hf, Hft, Hi. unfold extract_features, extract_feats, extract_inventory.
  rewrite !fold_left_append_list. cbn [app]. repeat split.
  apply Forall_map, Forall_forall. intros item _. cbn [item_of Item.count].
  apply truthy_iff, safe_get_text_nonempty. discriminate.
Qed.

Lemma lists_keep_the_source_order_witness :
  exists m,
    extract sample_sheet = Ok m
    /\ map Item.name (Character.inventory m) = ["Torch"; "Arrow"]
    /\ map Item.count (Character.inventory m) = ["1"; "20"]
    /\ Character.features m = map feature_of (iter (find sample_sheet "featurelist"))
    /\ Character.feats m = map feat_of (iter (find sample_sheet "featlist"))
    /\ Character.inventory m = map item_of (iter (find sample_sheet "inventorylist"))
    /\ Forall (fun item => Item.count item <> "") (Character.inventory m).
Proof.
  eexists. split; [vm_compute; reflexivity |].
  split; [reflexivity |]. split; [reflexivity |].
  apply (lists_keep_the_source_order sample_sheet). vm_compute; reflexivity.
Defined.

(** ** Groups of spells *)

Lemma group_step_eq (d : dict (list Spell.t)) (spell : Spell.t) :
  group_step d spell
  = dict_set (spell_group_label spell)
             (append (match dict_get (spell_group_label spell) d with
                      | Some l => l
                      | None => []
                      end) spell)
             d.
Proof. reflexivity. Qed.

(** After the grouping loop a label holds the spells of its group, in the
    order of the list, after those it held before. *)
Lemma groups_loop (spells : list Spell.t) (d : dict (list Spell.t)) (label : string) :
  dict_get label (fold_left group_step spells d)
  = match spells_of_group label spells with
    | [] => dict_get label d
    | l => Some (match dict_get label d with Some l0 => l0 | None => [] end ++ l)%list
    end.
Proof.
  revert d. induction spells as [|spell spells IH]; intros d; [reflexivity |].
  cbn [fold_left]. rewrite IH, group_step_eq, dict_get_set.
  unfold spells_of_group. cbn [filter].
  destruct (String.eqb_spec (spell_group_label spell) label) as [E | E].
  - rewrite E. unfold append. destruct (filter _ spells) as [|s l]; [reflexivity |].
    now rewrite <- app_assoc.
  - reflexivity.
Qed.

Lemma groups_nodup (spells : list Spell.t) (d : dict (list Spell.t)) :
  NoDup (dict_keys d) -> NoDup (dict_keys (fold_left group_step spells d)).
Proof.
  revert d. induction spells as [|spell spells IH]; intros d Hd; [exact Hd |].
  cbn [fold_left]. apply IH. rewrite group_step_eq. now apply dict_set_nodup.
Qed.

Lemma groups_keys (spells : list Spell.t) (label : string) :
  In label (dict_keys (fold_left group_step spells []))
  <-> exists spell, In spell spells /\ spell_group_label spell = label.
Proof.
  split.
  - intros H. apply dict_get_in in H. destruct H as [l [Hg _]].
    rewrite groups_loop in Hg. cbn [dict_get] in Hg.
    destruct (spells_of_group label spells) as [|s l0] eqn:E; [discriminate |].
    assert (Hs : In s (spells_of_group label spells)) by (rewrite E; now left).
    apply filter_In in Hs. destruct Hs as [Hin Hl]. apply String.eqb_eq in Hl. eauto.
  - intros [spell [Hin Hl]].
    assert (Hs : In spell (spells_of_group label spells)).
    { apply filter_In. split; [exact Hin | now apply String.eqb_eq]. }
    pose proof (groups_loop spells [] label) as Hg. cbn [dict_get] in Hg.
    destruct (spells_of_group label spells) as [|s l0]; [destruct Hs |].
    apply dict_get_some_in in Hg. eapply in_dict_keys; eauto.
Qed.

Lemma spell_step_appends (h : string) (spell : Spell.t) :
  spell_step h spell = h ++ spell_step "" spell.
Proof.
  unfold spell_step. cbv zeta.
  destruct (Py.truthy (Spell.school spell)), (Py.truthy (Spell.description spell));
    cbn [String.append]; now rewrite ?append_assoc.
Qed.

Lemma level_order_before (a b : string) :
  py_le (level_order_key_value a) (level_order_key_value b) -> a <> b -> group_before a b.
Proof.
  unfold py_le, level_order_key_value, group_before. cbn.
  fold (group_number a). fold (group_number b).
  destruct (String.eqb_spec a "Cantrip") as [Ea | Ea]; [now left |].
  destruct (String.eqb_spec b "Cantrip") as [Eb | Eb]; cbn; [discriminate |].
  intros H _. right. split; [exact Eb |].
  destruct (Z.eqb_spec (group_number b) (group_number a)) as [E | E]; [lia |].
  apply Z.ltb_ge in H. exact H.
Qed.

Lemma StronglySorted_nodup_impl {A : Type} (R S : A -> A -> Prop) (l : list A) :
  (forall a b, R a b -> a <> b -> S a b) ->
  NoDup l -> StronglySorted R l -> StronglySorted S l.
Proof.
  intros HRS Hn Hs. induction Hs as [|x l Hl IH Hx]; [constructor |].
  inversion Hn as [|? ? Hnx Hn']; subst.
  constructor; [now apply IH |].
  rewrite Forall_forall in *. intros y Hy. apply HRS; [now apply Hx |].
  intros ->. contradiction.
Qed.

Lemma render_spells_nonempty (c : Character.t) (html : string) :
  Character.spells c <> [] ->
  render_spells c html
  = (let spells_by_level := fold_left group_step (Character.spells c) [] in
     level_order <- sorted_by_raising level_order_key (dict_keys spells_by_level) ;;
     html1 <- foldM (spell_group_step spells_by_level) level_order (html ++ Tpl.spells_open) ;;
     Ok (html1 ++ Tpl.spells_close)).
Proof.
  unfold render_spells. destruct (Character.spells c); [congruence | reflexivity].
Qed.

(** X16.  When the model has spells and the level of each has a rank, as
    in every extracted model, the spells section holds one collapsible
    block for each distinct group label, a spell of level [0] or of an
    empty level being labelled [Cantrip] and any other spell by its level;
    the [Cantrip] block comes first and the others follow by ascending
    number, a label that [isdigit] rejects counting as 0; the heading of a
    block gives the number of its spells, and its spells are all the spells
    of that label, in the order of the model. *)
Theorem spells_are_grouped_by_level (c : Character.t) (html : string) :
  Character.spells c <> [] ->
  Forall (fun spell => readable (Spell.level spell) = true) (Character.spells c) ->
  spell_groups_layout c html.
Proof.
  intros Hne Hall. unfold spell_groups_layout.
  set (d := fold_left group_step (Character.spells c) []).
  set (labels := sorted_by level_order_key_value (dict_keys d)).
  assert (Hperm : Permutation (dict_keys d) labels) by apply sorted_by_perm.
  assert (Hnd : NoDup labels).
  { eapply Permutation_NoDup; [exact Hperm |]. apply groups_nodup. constructor. }
  exists labels. split; [exact Hnd |]. split.
  { intros label. rewrite <- Hperm. apply groups_keys. }
  split.
  { eapply StronglySorted_nodup_impl; [apply level_order_before | exact Hnd |].
    apply (sorted_by_sorted level_order_key_value). }
  rewrite render_spells_nonempty by exact Hne. cbv zeta. fold d.
  rewrite (sorted_by_raising_ok level_order_key level_order_key_value)
    by now apply group_keys_ok.
  fold labels. cbn [bind].
  rewrite (foldM_appends (spell_group_step d)
             (fun label => group_block label (spells_of_group label (Character.spells c)))).
  - cbn [bind]. now rewrite !append_assoc.
  - intros h label Hin. rewrite <- Hperm in Hin.
    apply dict_get_in in Hin. destruct Hin as [l [Hg _]].
    unfold spell_group_step, dict_lookup. rewrite Hg. cbn [bind].
    pose proof (groups_loop (Character.spells c) [] label) as Hl. fold d in Hl.
    rewrite Hg in Hl. cbn [dict_get] in Hl.
    destruct (spells_of_group label (Character.spells c)) as [|s l0] eqn:E; [discriminate |].
    cbn [app] in Hl. injection Hl as ->.
    rewrite (fold_left_appends spell_step) by apply spell_step_appends.
    unfold group_block. now rewrite !append_assoc.
Qed.

Lemma spells_are_grouped_by_level_witness :
  exists m, extract sample_spells = Ok m /\ spell_groups_layout m "".
Proof.
  eexists. split; [vm_compute; reflexivity |].
  apply spells_are_grouped_by_level; [discriminate |].
  apply Forall_forall.
  apply (proj1 (forallb_forall (fun spell => readable (Spell.level spell)) _)).
  vm_compute. reflexivity.
Defined.

(** ** When the rendering fails *)

Lemma foldM_raises {A S : Type} (f : S -> A -> Result S) (l : list A) (x : A) :
  In x l ->
  (forall s, exists e, f s x = Raise e) ->
  forall s, exists e, foldM f l s = Raise e.
Proof.
  intros Hin Hx. induction l as [|y l IH]; [destruct Hin |]. intros s.
  cbn [foldM]. destruct Hin as [-> | Hin].
  - destruct (Hx s) as [e ->]. cbn [bind]. eauto.
  - destruct (f s y) as [s' | e]; cbn [bind]; [apply (IH Hin) | eauto].
Qed.

Lemma slot_level_step_ok (spell_slots : dict Slots.t) (html level : string) (entry : Slots.t) :
  dict_get level spell_slots = Some entry ->
  Py.int (Slots.max entry) <> None ->
  Py.int (Slots.used entry) <> None ->
  exists html', slot_level_step spell_slots html level = Ok html'.
Proof.
  intros Hg Hm Hu. unfold slot_level_step, dict_lookup, Py.int_or_raise. rewrite Hg. cbn [bind].
  destruct (Py.int (Slots.max entry)); [| congruence]. cbn [bind].
  destruct (Py.int (Slots.used entry)); [| congruence]. cbn [bind]. eauto.
Qed.

Lemma slot_level_step_bad (spell_slots : dict Slots.t) (html level : string) (entry : Slots.t) :
  dict_get level spell_slots = Some entry ->
  Py.int (Slots.max entry) = None \/ Py.int (Slots.used entry) = None ->
  exists e, slot_level_step spell_slots html level = Raise e.
Proof.
  intros Hg Hbad. unfold slot_level_step, dict_lookup, Py.int_or_raise. rewrite Hg. cbn [bind].
  destruct (Py.int (Slots.max entry)); cbn [bind]; [| eauto].
  destruct Hbad as [Hbad | Hbad]; [discriminate |]. rewrite Hbad. cbn [bind]. eauto.
Qed.

Lemma render_spell_slots_result (char : Element) (c : Character.t) (html : string) :
  Character.spell_slots c = extract_spell_slots char ->
  (exists html', render_spell_slots c html = Ok html')
  <-> (forall level entry,
         dict_get level (Character.spell_slots c) = Some entry ->
         Py.int (Slots.max entry) <> None /\ Py.int (Slots.used entry) <> None).
Proof.
  intros Hs.
  destruct (Character.spell_slots c) as [|kv d] eqn:Ed.
  { unfold render_spell_slots. rewrite Ed. split; [intros _ level entry [=] | eauto]. }
  rewrite <- Ed in *. rewrite render_spell_slots_nonempty by (rewrite Ed; discriminate).
  rewrite Hs, spell_levels_ok. cbn [bind]. cbv zeta.
  set (slots := extract_spell_slots char).
  set (levels := sorted_by int_or_zero (dict_keys slots)).
  set (mid := ((length levels + 1) / 2)%nat).
  assert (Hperm : Permutation (dict_keys slots) levels) by apply sorted_by_perm.
  split.
  - intros [html' Hok] level entry Hg.
    destruct (Py.int (Slots.max entry)) as [mx |] eqn:Em;
      [destruct (Py.int (Slots.used entry)) as [us |] eqn:Eu |];
      [split; discriminate | exfalso | exfalso].
    all: assert (Hin : In level levels)
      by (rewrite <- Hperm; eapply in_dict_keys, dict_get_some_in; exact Hg).
    all: assert (Hbad : forall h, exists e, slot_level_step slots h level = Raise e)
      by (intros h; eapply slot_level_step_bad; [exact Hg | auto]).
    all: rewrite <- (firstn_skipn mid levels) in Hin; apply in_app_iff in Hin.
    all: destruct Hin as [Hin | Hin].
    all: try (destruct (foldM_raises _ _ _ Hin Hbad ((html ++ Tpl.slots_open) ++ Tpl.column_open))
                as [e He]; rewrite He in Hok; discriminate).
    all: destruct (foldM _ (firstn mid levels) _) as [h1 | e1]; cbn [bind] in Hok;
      [| discriminate].
    all: destruct (foldM_raises _ _ _ Hin Hbad (h1 ++ Tpl.column_break)) as [e He];
      rewrite He in Hok; discriminate.
  - intros Hall.
    assert (Hstep : forall h level, In level levels ->
              exists h', slot_level_step slots h level = Ok h').
    { intros h level Hin. rewrite <- Hperm in Hin.
      destruct (dict_get_in level slots Hin) as [entry [Hg _]].
      destruct (Hall level entry Hg). eapply slot_level_step_ok; eauto. }
    destruct (foldM_ok (slot_level_step slots) (firstn mid levels)) with
      (s := (html ++ Tpl.slots_open) ++ Tpl.column_open) as [h1 H1].
    { intros h level Hin. apply Hstep. eapply in_firstn; eauto. }
    rewrite H1. cbn [bind].
    destruct (foldM_ok (slot_level_step slots) (skipn mid levels)) with
      (s := h1 ++ Tpl.column_break) as [h2 H2].
    { intros h level Hin. apply Hstep. eapply in_skipn; eauto. }
    rewrite H2. cbn [bind]. eauto.
Qed.

(** X17.  The rendering of an extracted model produces a document exactly
    when, for every spell-slot level of the model, both the maximum and the
    used count are integer literals: the spells section cannot fail, the
    extraction having read every level that the section reads.  In
    particular the rendering always produces a document when the record
    has no [powermeta] element. *)
Theorem rendering_succeeds_exactly_on_integer_slots (char : Element) (m : Character.t) :
  extract char = Ok m ->
  ((exists doc, render m = Ok doc)
   <-> (forall level entry,
          dict_get level (Character.spell_slots m) = Some entry ->
          Py.int (Slots.max entry) <> None /\ Py.int (Slots.used entry) <> None))
  /\ (find char "powermeta" = None -> exists doc, render m = Ok doc).
Proof.
  intros Hm.
  destruct (extract_fields char m Hm) as (_ & _ & _ & _ & Hsp & Hs & _).
  apply extract_spells_readable in Hsp. destruct Hsp as [_ Hall].
  assert (Hiff : (exists doc, render m = Ok doc)
                 <-> (forall level entry,
                        dict_get level (Character.spell_slots m) = Some entry ->
                        Py.int (Slots.max entry) <> None /\ Py.int (Slots.used entry) <> None)).
  { unfold render. cbv zeta. set (h1 := render_coins m _).
    rewrite <- (render_spell_slots_result char m h1 Hs). split.
    - intros [doc Hdoc].
      destruct (render_spell_slots m h1) as [h2 | e]; cbn [bind] in Hdoc; [eauto | discriminate].
    - intros [h2 H2]. rewrite H2. cbn [bind].
      destruct (render_spells_ok m h2 Hall) as [h3 H3]. rewrite H3. cbn [bind].
      eexists. reflexivity. }
  split; [exact Hiff |].
  intros Hpm. apply Hiff. intros level entry Hg. exfalso.
  rewrite Hs in Hg. unfold extract_spell_slots in Hg. rewrite Hpm in Hg. discriminate.
Qed.

Lemma rendering_succeeds_exactly_on_integer_slots_witness :
  exists m,
    extract sample_sheet = Ok m
    /\ ((exists doc, render m = Ok doc)
        <-> (forall level entry,
               dict_get level (Character.spell_slots m) = Some entry ->
               Py.int (Slots.max entry) <> None /\ Py.int (Slots.used entry) <> None))
    /\ (find sample_sheet "powermeta" = None -> exists doc, render m = Ok doc).
Proof.
  eexists. split; [vm_compute; reflexivity |].
  apply (rendering_succeeds_exactly_on_integer_slots sample_sheet). vm_compute; reflexivity.
Defined.

(** ** The frame of the document *)

Lemma render_header_extends (c : Character.t) :
  extends (Tpl.doc_open ++ title_text c ++ Tpl.doc_style ++ heading_text c
           ++ Tpl.header_info_open)
          (render_header c).
Proof.
  unfold render_header, title_text, heading_text. cbv zeta.
  set (h0 := Tpl.doc_open ++ _).
  apply extends_app_r, extends_app_r.
  assert (H1 : forall h, extends h0 h ->
                 extends h0 (if Py.truthy (Character.alignment c)
                             then h ++ Tpl.alignment_open ++ escape_html (Character.alignment c)
                                  ++ Tpl.div_close
                             else h)).
  { intros h Hh. destruct (Py.truthy (Character.alignment c)); auto with extends. }
  apply H1.
  destruct (Py.truthy (Character.background c)); [apply extends_app_r |];
    (destruct (Character.classes_info c); [| apply extends_app_r]);
    (destruct (Py.truthy (Character.race c)); [apply extends_app_r |]);
    apply extends_refl.
Qed.

Lemma render_abilities_extends (c : Character.t) (h : string) :
  extends h (render_abilities c h).
Proof.
  unfold render_abilities. apply fold_left_extends. intros h0 x.
  unfold ability_step. cbv zeta. auto with extends.
Qed.

Lemma render_skills_extends (c : Character.t) (h : string) :
  extends h (render_skills c h).
Proof. rewrite render_skills_spec. auto with extends. Qed.

(** X18.  Every document that the rendering produces is a whole page: the
    opening of the page and of its head, the title, the style sheet and the
    opening of the body, the heading, the sections, and the closing of the
    body and of the page.  The title and the heading hold the escaped
    character name, or [Unknown] and [Character Name] for an empty name,
    and so no [<], [>] or quote. *)
Theorem document_is_a_whole_page (c : Character.t) (doc : string) :
  render c = Ok doc ->
  (exists body,
     doc = Tpl.doc_open ++ title_text c ++ Tpl.doc_style ++ heading_text c
           ++ Tpl.header_info_open ++ body ++ Tpl.doc_close)
  /\ prefix "<!DOCTYPE html>" doc = true
  /\ (forall ch, In ch ["<"; ">"; Py.dquote; Py.squote]%char ->
                 occurs ch (title_text c) = false /\ occurs ch (heading_text c) = false).
Proof.
  intros Hr.
  assert (Hbody : exists body,
            doc = Tpl.doc_open ++ title_text c ++ Tpl.doc_style ++ heading_text c
                  ++ Tpl.header_info_open ++ body ++ Tpl.doc_close).
  { revert Hr. unfold render. cbv zeta.
    set (h1 := render_coins c _).
    assert (H01 : extends (render_header c) h1).
    { subst h1.
      eapply extends_trans; [| apply render_coins_extends].
      eapply extends_trans; [| apply render_inventory_extends].
      eapply extends_trans; [| apply render_feats_extends].
      eapply extends_trans; [| apply render_features_extends].
      eapply extends_trans; [| unfold render_vitals; apply extends_app].
      eapply extends_trans; [| apply render_skills_extends].
      apply render_abilities_extends. }
    destruct (render_spell_slots c h1) as [h2 |] eqn:E2; cbn [bind]; [| discriminate].
    destruct (render_spells c h2) as [h3 |] eqn:E3; cbn [bind]; [| discriminate].
    intros [= <-].
    assert (H : extends (Tpl.doc_open ++ title_text c ++ Tpl.doc_style ++ heading_text c
                         ++ Tpl.header_info_open) h3).
    { eapply extends_trans; [apply render_header_extends |].
      eapply extends_trans; [exact H01 |].
      eapply extends_trans; [apply (render_spell_slots_extends _ _ _ E2) |].
      apply (render_spells_extends _ _ _ E3). }
    destruct H as [body ->]. exists body. now rewrite !append_assoc. }
  split; [exact Hbody |]. split.
  - destruct Hbody as [body ->]. unfold Tpl.doc_open. vm_compute (tpl _). reflexivity.
  - intros ch Hch. unfold title_text, heading_text.
    destruct (escape_html_leaves_no_markup_character_aux (Character.name c))
      as (H1 & H2 & H3 & H4).
    destruct (Py.truthy (Character.name c));
      cbn [In] in Hch; destruct Hch as [<- | [<- | [<- | [<- | []]]]]; split;
      try assumption; reflexivity.
Qed.

Lemma document_is_a_whole_page_witness :
  exists m doc,
    extract (node "character" [leaf "name" "<i>Mira</i>"]) = Ok m
    /\ render m = Ok doc
    /\ title_text m = "&lt;i&gt;Mira&lt;/i&gt;"
    /\ prefix "<!DOCTYPE html>" doc = true.
Proof.
  eexists. eexists.
  split; [vm_compute; reflexivity |].
  match goal with
  | |- render ?m = Ok ?d /\ _ =>
      assert (Hr : render m = Ok d) by (vm_compute; reflexivity)
  end.
  split; [exact Hr |]. split; [reflexivity |].
  apply (document_is_a_whole_page _ _ Hr).
Defined.

(** ** The wealth section *)

(** X19.  The wealth section of an extracted model is five fields, for
    PP, GP, EP, SP and CP in that order, whatever the order and the names
    of the coin entries of the record; the field of a currency shows the
    escaped amount of the last coin entry of that name, [0] when there is
    none, and the shown text holds no double quote. *)
Theorem wealth_section_shows_five_currencies (char : Element) (m : Character.t) :
  extract char = Ok m ->
  (forall html,
      render_coins m html
      = html
        ++ String.concat ""
             (map (fun coin_type => coin_item coin_type (shown_amount char coin_type))
                  ["PP"; "GP"; "EP"; "SP"; "CP"])
        ++ Tpl.spell_page_open)
  /\ (forall coin_type, occurs Py.dquote (shown_amount char coin_type) = false).
Proof.
  intros Hm.
  destruct (extract_fields_more char m Hm) as (_ & Hc & _).
  split.
  - intros html. unfold render_coins. cbv zeta. rewrite Hc.
    rewrite (fold_left_appends (coin_step (extract_coins char))) by reflexivity.
    rewrite append_assoc. do 3 f_equal. unfold coin_order.
    apply map_ext. intros coin_type. unfold coin_step, coin_item, shown_amount. cbv zeta.
    unfold extract_coins.
    rewrite (assignments_loop (fun coin => safe_get_text (Some coin) "name" "")
                              (fun coin => safe_get_text (Some coin) "amount" "0")).
    unfold named. now destruct (find_last _ _).
  - intros coin_type. unfold shown_amount.
    apply escape_html_leaves_no_markup_character_aux.
Qed.

(** The sample has two gold entries and one silver entry: the section
    shows 0, 7, 0, 3 and 0. *)
Lemma wealth_section_shows_five_currencies_witness :
  exists m,
    extract sample_sheet = Ok m
    /\ map (shown_amount sample_sheet) ["PP"; "GP"; "EP"; "SP"; "CP"]
       = ["0"; "7"; "0"; "3"; "0"]
    /\ (forall html,
          render_coins m html
          = html
            ++ String.concat ""
                 (map (fun coin_type => coin_item coin_type (shown_amount sample_sheet coin_type))
                      ["PP"; "GP"; "EP"; "SP"; "CP"])
            ++ Tpl.spell_page_open)
    /\ (forall coin_type, occurs Py.dquote (shown_amount sample_sheet coin_type) = false).
Proof.
  eexists. split; [vm_compute; reflexivity |]. split; [vm_compute; reflexivity |].
  apply (wealth_section_shows_five_currencies sample_sheet). vm_compute; reflexivity.
Defined.

(** ** The upload route *)

(** The pipeline returns a document and no error, or no document and an
    error. *)
Lemma pipeline_result (parsed : Result Element) :
  (exists html, parse_fgu_character_to_html parsed = (Some html, None))
  \/ (exists msg, parse_fgu_character_to_html parsed = (None, Some msg)).
Proof.
  unfold parse_fgu_character_to_html. destruct parsed as [root | e]; cbn [bind]; [| eauto].
  destruct (find root "character") as [char |]; [| eauto].
  destruct (extract char) as [c | e]; cbn [bind]; [| eauto].
  destruct (render c) as [html | e]; cbn [bind]; eauto.
Qed.

(** X20.  [generate] sends a file exactly when the request has an upload
    under [file] whose name is not empty and ends, in any letter case, with
    [.xml], and the pipeline returns a document for its content; the body
    sent is that document and the download name is the one derived from the
    content.  Every other answer is an error with status 400, or with
    status 500 when the pipeline returns no document and an empty
    message. *)
Theorem generate_sends_the_document_of_the_pipeline (files : dict Upload.t) :
  (forall body name,
      generate files = SendFile body name
      <-> exists file,
            dict_get "file" files = Some file
            /\ Upload.filename file <> ""
            /\ endswith (Py.lower (Upload.filename file)) ".xml" = true
            /\ parse_fgu_character_to_html (Upload.parsed file) = (Some body, None)
            /\ name = download_filename (Upload.parsed file))
  /\ (forall error status,
        generate files = JsonError error status ->
        status = 400%Z
        \/ (status = 500%Z
            /\ exists file,
                 dict_get "file" files = Some file
                 /\ parse_fgu_character_to_html (Upload.parsed file) = (None, Some ""))).
Proof.
  unfold generate. destruct (dict_get "file" files) as [file |].
  2:{ split; [| intros ? ? [= <- <-]; now left].
      intros body name. split; [discriminate | intros (f & [=] & _)]. }
  destruct (String.eqb_spec (Upload.filename file) "") as [En | En].
  { split; [| intros ? ? [= <- <-]; now left].
    intros body name. split; [discriminate | intros (f & [= <-] & Hn & _); contradiction]. }
  destruct (endswith (Py.lower (Upload.filename file)) ".xml") eqn:Ex; cbn [negb].
  2:{ split; [| intros ? ? [= <- <-]; now left].
      intros body name. split; [discriminate | intros (f & [= <-] & _ & Hx & _); congruence]. }
  destruct (pipeline_result (Upload.parsed file)) as [[html Hp] | [msg Hp]]; rewrite Hp.
  - cbn [Py.truthy_opt]. split.
    + intros body name. split.
      * intros [= <- <-]. exists file. auto.
      * intros (f & [= <-] & _ & _ & Hb & ->). rewrite Hp in Hb. now injection Hb as ->.
    + discriminate.
  - cbn [Py.truthy_opt Py.or_empty]. split.
    + intros body name. split.
      * destruct (Py.truthy msg); discriminate.
      * intros (f & [= <-] & _ & _ & Hb & _). rewrite Hp in Hb. discriminate.
    + intros error status. destruct msg as [|ch msg]; cbn [Py.truthy].
      * intros [= <- <-]. right. split; [reflexivity |]. exists file. auto.
      * intros [= <- <-]. now left.
Qed.

(** ** The download name *)

Lemma lstrip_list_app {A : Type} (space : A -> bool) (l b : list A) :
  Py.lstrip_list space (l ++ b)%list
  = match Py.lstrip_list space l with
    | [] => Py.lstrip_list space b
    | r => (r ++ b)%list
    end.
Proof.
  induction l as [|x l IH]; [reflexivity |].
  cbn [app Py.lstrip_list]. destruct (space x); [exact IH | reflexivity].
Qed.

Lemma lstrip_list_spaces {A : Type} (space : A -> bool) (a : list A) :
  Forall (fun x => space x = true) a -> Py.lstrip_list space a = [].
Proof. induction 1 as [|x a Hx _ IH]; [reflexivity |]. cbn. now rewrite Hx. Qed.

Lemma rstrip_list_spaces {A : Type} (space : A -> bool) (b : list A) :
  Forall (fun x => space x = true) b -> Py.rstrip_list space b = [].
Proof. induction 1 as [|x b Hx _ IH]; [reflexivity |]. cbn. now rewrite IH, Hx. Qed.

Lemma rstrip_list_app {A : Type} (space : A -> bool) (l b : list A) :
  Forall (fun x => space x = true) b ->
  Py.rstrip_list space (l ++ b)%list = Py.rstrip_list space l.
Proof.
  intros Hb. induction l as [|x l IH]; [now apply rstrip_list_spaces |].
  cbn [app]. now rewrite !rstrip_list_cons, IH.
Qed.

(** Trimming takes white space off both ends. *)
Lemma lstrip_list_split {A : Type} (space : A -> bool) (l : list A) :
  exists a, l = (a ++ Py.lstrip_list space l)%list /\ Forall (fun x => space x = true) a.
Proof.
  induction l as [|x l IH]; [now exists [] |].
  cbn [Py.lstrip_list]. destruct (space x) eqn:E.
  - destruct IH as (a & Hl & Ha). exists (x :: a). split; [cbn; now f_equal | now constructor].
  - now exists [].
Qed.

Lemma rstrip_list_split {A : Type} (space : A -> bool) (l : list A) :
  exists b, l = (Py.rstrip_list space l ++ b)%list /\ Forall (fun x => space x = true) b.
Proof.
  induction l as [|x l IH]; [now exists [] |].
  destruct IH as (b & Hl & Hb). rewrite rstrip_list_cons.
  destruct (Py.rstrip_list space l) as [|y r].
  - cbn [app] in Hl. subst l. destruct (space x) eqn:E.
    + exists (x :: b). split; [reflexivity | now constructor].
    + exists b. split; [reflexivity | exact Hb].
  - exists b. split; [cbn [app]; now f_equal | exact Hb].
Qed.

Lemma strip_list_split {A : Type} (space : A -> bool) (l : list A) :
  exists a b,
    l = (a ++ strip_list space l ++ b)%list
    /\ Forall (fun x => space x = true) a /\ Forall (fun x => space x = true) b.
Proof.
  destruct (lstrip_list_split space l) as (a & Hl & Ha).
  destruct (rstrip_list_split space (Py.lstrip_list space l)) as (b & Hr & Hb).
  exists a, b. unfold strip_list. split; [| auto]. now rewrite <- Hr.
Qed.

Lemma strip_list_between {A : Type} (space : A -> bool) (a l b : list A) :
  Forall (fun x => space x = true) a -> Forall (fun x => space x = true) b ->
  strip_list space (a ++ l ++ b)%list = strip_list space l.
Proof.
  intros Ha Hb. unfold strip_list.
  rewrite (lstrip_list_app space a), (lstrip_list_spaces space a Ha).
  rewrite lstrip_list_app. destruct (Py.lstrip_list space l) as [|x r].
  - now rewrite (lstrip_list_spaces space b Hb).
  - now apply rstrip_list_app.
Qed.

Lemma Forall_filter {A : Type} (P : A -> Prop) (keep : A -> bool) (l : list A) :
  Forall P l -> Forall P (filter keep l).
Proof.
  intros H. apply Forall_forall. intros x Hx. apply filter_In in Hx.
  rewrite Forall_forall in H. now apply H.
Qed.

(** Filtering before or after a first trim gives the same trimmed list. *)
Lemma strip_list_filter {A : Type} (space keep : A -> bool) (l : list A) :
  strip_list space (filter keep (strip_list space l))
  = strip_list space (filter keep l).
Proof.
  destruct (strip_list_split space l) as (a & b & Hl & Ha & Hb).
  rewrite Hl at 2. rewrite !filter_app.
  symmetry. apply strip_list_between; now apply Forall_filter.
Qed.

Lemma chars_filter_chars (keep : string -> bool) (s : string) :
  Py.chars (filter_chars keep s) = filter keep (Py.chars s).
Proof. apply chars_concat, chars_ok_filter, chars_ok_chars. Qed.

Lemma chars_file_stem (name : string) :
  Py.chars (file_stem name) = strip_list Py.isspace (filter filename_char (Py.chars name)).
Proof. unfold file_stem. now rewrite chars_strip, chars_filter_chars. Qed.

(** The first trim of the name does not change the stem. *)
Lemma file_stem_strip (name : string) :
  Py.strip (filter_chars filename_char (Py.strip name)) = file_stem name.
Proof.
  unfold file_stem, Py.strip at 1.
  rewrite chars_filter_chars, chars_strip.
  fold (strip_list Py.isspace (filter filename_char (strip_list Py.isspace (Py.chars name)))).
  rewrite strip_list_filter. unfold Py.strip. now rewrite chars_filter_chars.
Qed.

Lemma occurs_concat (c : ascii) (l : list string) :
  occurs c (String.concat "" l) = existsb (occurs c) l.
Proof.
  induction l as [|x l IH]; [reflexivity |].
  rewrite concat_cons, occurs_app. cbn [existsb]. now rewrite IH.
Qed.

Lemma occurs_continuation (c : ascii) (r : string) :
  (N_of_ascii c < 128)%N -> all_continuation r = true -> occurs c r = false.
Proof.
  intros Hc. induction r as [|b r IH]; [reflexivity |].
  cbn [all_continuation occurs]. rewrite andb_true_iff. intros [Hb Hr].
  rewrite (IH Hr), orb_false_r. apply Ascii.eqb_neq. intros ->.
  unfold Py.is_continuation in Hb. cbv zeta in Hb.
  apply andb_true_iff in Hb as [Hb _]. apply N.leb_le in Hb. lia.
Qed.

(** A character that starts with an ASCII byte is that byte. *)
Lemma ord_ascii_lead (c : ascii) (r : string) (n : N) :
  (N_of_ascii c < 128)%N -> Py.ord (String c r) = Some n -> r = "".
Proof.
  intros Hc. destruct r as [|b r]; [reflexivity |].
  unfold Py.ord. cbv zeta. cbn [Py.payload].
  assert (E1 : (192 <=? N_of_ascii c)%N = false) by (apply N.leb_gt; lia).
  assert (E2 : (224 <=? N_of_ascii c)%N = false) by (apply N.leb_gt; lia).
  assert (E3 : (240 <=? N_of_ascii c)%N = false) by (apply N.leb_gt; lia).
  rewrite E1, E2, E3. cbn [andb].
  destruct (Py.payload r) as [|y [|z [|w l]]]; discriminate.
Qed.

Lemma filename_char_ascii (c : ascii) (r : string) :
  (N_of_ascii c < 128)%N -> filename_char (String c r) = true -> r = "".
Proof.
  intros Hc. unfold filename_char. rewrite !orb_true_iff.
  intros [[[H | H] | H] | H].
  - unfold Py.isalnum, Py.char_in in H.
    destruct (Py.ord (String c r)) as [n |] eqn:E; [| discriminate].
    apply (ord_ascii_lead c r n Hc E).
  - apply String.eqb_eq in H. now injection H.
  - apply String.eqb_eq in H. now injection H.
  - apply String.eqb_eq in H. now injection H.
Qed.

Lemma file_stem_chars (name : string) :
  Forall (fun ch => filename_char ch = true) (Py.chars (file_stem name)).
Proof.
  rewrite chars_file_stem. unfold strip_list.
  apply rstrip_list_Forall, lstrip_list_Forall.
  apply Forall_forall. intros ch Hch. now apply filter_In in Hch.
Qed.

(** An ASCII byte of the stem is a character that a file name may hold. *)
Lemma file_stem_ascii (name : string) (c : ascii) :
  (N_of_ascii c < 128)%N -> occurs c (file_stem name) = true ->
  filename_char (Py.str1 c) = true.
Proof.
  intros Hc Ho. rewrite <- (concat_chars (file_stem name)), occurs_concat in Ho.
  apply existsb_exists in Ho. destruct Ho as (ch & Hin & Hoc).
  pose proof (file_stem_chars name) as Hf. rewrite Forall_forall in Hf.
  specialize (Hf ch Hin).
  destruct (chars_ok_chars (file_stem name)) as [Hok _]. rewrite Forall_forall in Hok.
  specialize (Hok ch Hin). destruct ch as [|c0 r]; [discriminate |].
  cbn [is_char] in Hok. cbn [occurs] in Hoc.
  rewrite (occurs_continuation c r Hc Hok), orb_false_r in Hoc.
  apply Ascii.eqb_eq in Hoc. subst c0.
  now rewrite (filename_char_ascii c r Hc Hf) in Hf.
Qed.

Lemma filter_all {A : Type} (keep : A -> bool) (l : list A) :
  Forall (fun x => keep x = true) l -> filter keep l = l.
Proof. induction 1 as [|x l Hx _ IH]; [reflexivity |]. cbn. now rewrite Hx, IH. Qed.

(** X21.  The download name that [generate] derives is the stem of the
    character name followed by [.html], and [character_sheet.html] when
    the stem is empty, the stem being the characters of the name that are
    letters, digits, spaces, underscores or hyphens, in their order and
    trimmed.  The stem has no white space at either end and holds no
    slash, no backslash and no dot; a name that is trimmed and made of such
    characters only is its own stem. *)
Theorem download_name_is_a_plain_file_name (parsed : Result Element) :
  let stem := file_stem (character_name parsed) in
  download_filename parsed
  = (if Py.truthy stem then stem ++ ".html" else "character_sheet.html")
  /\ Py.strip stem = stem
  /\ Py.chars stem
     = strip_list Py.isspace (filter filename_char (Py.chars (character_name parsed)))
  /\ (forall c, (N_of_ascii c < 128)%N -> occurs c stem = true ->
                filename_char (Py.str1 c) = true)
  /\ occurs "/" stem = false /\ occurs Py.backslash stem = false /\ occurs "." stem = false
  /\ (forall name,
        Py.strip name = name ->
        Forall (fun ch => filename_char ch = true) (Py.chars name) ->
        file_stem name = name).
Proof.
  cbv zeta. split.
  { unfold download_filename, character_name, default_filename. cbv zeta.
    destruct parsed as [root | e]; [| reflexivity].
    destruct (find root "character") as [char |]; [| reflexivity].
    destruct (find char "name") as [name_elem |]; [| reflexivity].
    destruct (text name_elem) as [t |]; [| reflexivity].
    cbn [Py.truthy_opt Py.or_empty].
    destruct t as [|c t]; [reflexivity |]. cbn [Py.truthy].
    destruct (Py.truthy (Py.strip (String c t))) eqn:Et.
    - now rewrite file_stem_strip.
    - rewrite <- file_stem_strip.
      destruct (Py.strip (String c t)); [reflexivity | discriminate]. }
  split; [apply strip_idem |].
  split; [apply chars_file_stem |].
  assert (Hascii := file_stem_ascii (character_name parsed)).
  split; [exact Hascii |].
  assert (Hnot : forall c, (N_of_ascii c <? 128)%N = true ->
            filename_char (Py.str1 c) = false ->
            occurs c (file_stem (character_name parsed)) = false).
  { intros c Hc Hf. destruct (occurs c _) eqn:E; [| reflexivity].
    apply N.ltb_lt in Hc. rewrite (Hascii c Hc E) in Hf. discriminate. }
  split; [apply Hnot; vm_compute; reflexivity |].
  split; [apply Hnot; vm_compute; reflexivity |].
  split; [apply Hnot; vm_compute; reflexivity |].
  intros name Hs Hf. unfold file_stem, filter_chars.
  now rewrite (filter_all _ _ Hf), concat_chars.
Qed.

(** From the name [ José Ñuñez/../x.y ] the accented letters stay, the
    slashes and the dots go. *)
Lemma download_name_is_a_plain_file_name_witness :
  download_filename (Ok sample_named) = "José Ñuñezxy.html".
Proof.
  destruct (download_name_is_a_plain_file_name (Ok sample_named)) as [H _].
  rewrite H. vm_compute. reflexivity.
Defined.

(** ** Sections of the page *)

Lemma list_section {A : Type} (step : string -> A -> string) (placeholder : string)
      (l : list A) (html : string) :
  (forall h x, step h x = h ++ step "" x) ->
  match l with
  | [] => fold_left step l html ++ placeholder
  | _ :: _ => fold_left step l html
  end
  = html ++ list_lines placeholder (step "") l.
Proof.
  intros Hs. destruct l as [|x l]; [reflexivity |].
  now rewrite (fold_left_appends step) by exact Hs.
Qed.

(** X22.  The features, the feats and the equipment sections show the
    single placeholder line for an empty list, and otherwise one line for
    each entry, in the order of the model, and no placeholder; the line of
    an inventory entry has no multiplier when the count is [1] and the
    escaped multiplier [ x<count>] otherwise. *)
Theorem empty_lists_render_a_placeholder (c : Character.t) (html : string) :
  render_features c html
  = html ++ list_lines Tpl.no_features (feature_step "") (Character.features c)
    ++ Tpl.feats_open
  /\ render_feats c html
     = html ++ list_lines Tpl.no_feats (feat_step "") (Character.feats c)
       ++ Tpl.inventory_open
  /\ render_inventory c html
     = html ++ list_lines Tpl.no_equipment (item_step "") (Character.inventory c)
       ++ Tpl.coins_open
  /\ (forall item,
        item_step "" item
        = Tpl.item_open ++ escape_html (Item.name item)
          ++ (if String.eqb (Item.count item) "1" then ""
              else escape_html (" x" ++ Item.count item))
          ++ Tpl.item_close).
Proof.
  unfold render_features, render_feats, render_inventory. cbv zeta.
  repeat split.
  - rewrite (list_section feature_step) by reflexivity. apply append_assoc.
  - rewrite (list_section feat_step) by reflexivity. apply append_assoc.
  - rewrite (list_section item_step) by reflexivity. apply append_assoc.
  - intros item. unfold item_step. cbv zeta.
    now destruct (String.eqb (Item.count item) "1").
Qed.

(** X23.  The page of an extracted model shows six ability boxes, for
    strength, dexterity, constitution, intelligence, wisdom and charisma in
    that order, labelled STR, DEX, CON, INT, WIS and CHA; the box of an
    ability that the record lacks shows the score 10, the modifier [+0] and
    the saving throw [+0] without the mark of proficiency. *)
Theorem six_ability_boxes_with_defaults (char : Element) (m : Character.t) :
  extract char = Ok m ->
  (forall html,
      render_abilities m html
      = html ++ String.concat "" (map (stat_box_of char) ability_names))
  /\ map (fun abil_name => Py.upper (Py.take 3 (Py.capitalize abil_name))) ability_names
     = ["STR"; "DEX"; "CON"; "INT"; "WIS"; "CHA"].
Proof.
  intros Hm.
  destruct (extract_fields_more char m Hm) as (Ha & _).
  split; [| vm_compute; reflexivity].
  intros html. unfold render_abilities. rewrite Ha.
  rewrite (fold_left_appends (ability_step (extract_abilities char))) by reflexivity.
  f_equal. f_equal. apply map_ext_in. intros name Hn.
  unfold ability_step, stat_box_of. cbv zeta. rewrite extract_abilities_get.
  replace (ET.mem name ability_names) with true.
  2:{ symmetry. apply existsb_exists. exists name. split; [exact Hn | apply String.eqb_refl]. }
  destruct (find char ("abilities/" ++ name)); reflexivity.
Qed.

(** The sample has a dexterity and no wisdom: the dexterity box shows its
    score and the wisdom box the defaults. *)
Lemma six_ability_boxes_with_defaults_witness :
  exists m,
    extract sample_sheet = Ok m
    /\ stat_box_of sample_sheet "dexterity" = stat_box "DEX" "14" "+2" "+4" true
    /\ stat_box_of sample_sheet "wisdom" = stat_box "WIS" "10" "+0" "+0" false
    /\ (forall html,
          render_abilities m html
          = html ++ String.concat "" (map (stat_box_of sample_sheet) ability_names))
    /\ map (fun abil_name => Py.upper (Py.take 3 (Py.capitalize abil_name))) ability_names
       = ["STR"; "DEX"; "CON"; "INT"; "WIS"; "CHA"].
Proof.
  eexists. split; [vm_compute; reflexivity |].
  split; [vm_compute; reflexivity |]. split; [vm_compute; reflexivity |].
  apply (six_ability_boxes_with_defaults sample_sheet). vm_compute; reflexivity.
Defined.

(** ** When the extraction fails *)






